(** * DynamicPlanner (sam/orchestration/planner.py): a shallow embedding

    The planner is a Python class whose methods mutate the planner
    object ([_plan_cache], [_registered_skills]), mutate the request
    object they are handed ([uif.intermediate_data], the curriculum
    fields), read the wall clock and call three collaborators that may
    raise: the curriculum, the language model and [json.loads].

    The embedding keeps that shape.  Methods are computations in a
    state-and-exception monad over a [World] (planner object, request
    object, clock); [try ... except] is [try_except]; state written
    before an exception is raised stays written, as in Python. *)

From Stdlib Require Import Bool List String Ascii NArith ZArith QArith Lia.
From Stdlib Require Import Permutation DecimalString Sorted.
Import ListNotations.

Set Warnings "-register-all".
Local Open Scope list_scope.
Local Open Scope string_scope.
Local Open Scope Z_scope.

(** ** Python values and builtins *)

Module Py.

(** Values whose type the source leaves open ([Any]): what [json.loads]
    returns and what the request's [intermediate_data] bag holds.
    [PInt] is an [int], of any size; [PNum] is a [float], the rational
    it denotes (a finite double: NaN and the infinities are not
    modelled). *)
Inductive pyval : Type :=
| PNone
| PBool (b : bool)
| PInt (n : Z)
| PNum (q : Q)
| PStr (s : string)
| PList (l : list pyval)
| PDict (d : list (string * pyval)).

(** Exception classes the planner names in an [except] clause, plain
    [ValueError], and one for every other subclass of [Exception]
    ([AttributeError], [OverflowError], [RecursionError], ...).
    [exc_str] is [str(e)]. *)
Inductive exc_class : Type :=
| JSONDecodeError | KeyError | TypeError | ValueError | OtherException.

Record exn : Type := Exn { exc_type : exc_class; exc_str : string }.

Inductive outcome (A : Type) : Type :=
| Ok (a : A)
| Raise (e : exn).
Arguments Ok {A} a.
Arguments Raise {A} e.

Definition exc_class_eqb (a b : exc_class) : bool :=
  match a, b with
  | JSONDecodeError, JSONDecodeError | KeyError, KeyError
  | TypeError, TypeError | ValueError, ValueError
  | OtherException, OtherException => true
  | _, _ => false
  end.

(** [except (C1, C2, ...)]: does the clause catch [e]?  [e] is of its
    class exactly, and the planner's clauses list no class that has a
    subclass here ([JSONDecodeError] is a subclass of [ValueError], which
    no clause lists), so membership is enough. *)
Definition catching (cs : list exc_class) (e : exn) : bool :=
  existsb (exc_class_eqb (exc_type e)) cs.

(** [except Exception]. *)
Definition any_exception (e : exn) : bool := true.

(** *** dict: insertion-ordered, string keys *)

Section Dict.
Context {V : Type}.

Fixpoint dict_get (k : string) (d : list (string * V)) : option V :=
  match d with
  | [] => None
  | (k', v) :: d' => if String.eqb k k' then Some v else dict_get k d'
  end.

(** [k in d] *)
Definition dict_mem (k : string) (d : list (string * V)) : bool :=
  match dict_get k d with Some _ => true | None => false end.

(** [d[k] = v]: an existing key keeps its position, a new one goes last. *)
Fixpoint dict_set (k : string) (v : V) (d : list (string * V))
  : list (string * V) :=
  match d with
  | [] => [(k, v)]
  | (k', v') :: d' =>
      if String.eqb k k' then (k, v) :: d' else (k', v') :: dict_set k v d'
  end.

(** [del d[k]]: [k] is bound no more. *)
Fixpoint dict_del (k : string) (d : list (string * V)) : list (string * V) :=
  match d with
  | [] => []
  | (k', v') :: d' =>
      if String.eqb k k' then dict_del k d' else (k', v') :: dict_del k d'
  end.

Definition dict_keys (d : list (string * V)) : list string := map fst d.
Definition dict_values (d : list (string * V)) : list V := map snd d.
End Dict.

(** *** str methods, on 8-bit code points *)

Definition code (c : ascii) : N := N_of_ascii c.

(** [str.lower] on one character: A-Z, and the Latin-1 capitals. *)
Definition lower_char (c : ascii) : ascii :=
  let n := code c in
  if ((65 <=? n) && (n <=? 90))%N
     || ((192 <=? n) && (n <=? 222) && negb (n =? 215))%N
  then ascii_of_N (n + 32) else c.

Fixpoint lower (s : string) : string :=
  match s with
  | EmptyString => EmptyString
  | String c s' => String (lower_char c) (lower s')
  end.

(** [str.isspace] on one character. *)
Definition is_space (c : ascii) : bool :=
  let n := code c in
  (((9 <=? n) && (n <=? 13)) || ((28 <=? n) && (n <=? 32))
   || (n =? 133) || (n =? 160))%N.

Fixpoint lstrip (s : string) : string :=
  match s with
  | EmptyString => EmptyString
  | String c s' => if is_space c then lstrip s' else s
  end.

Fixpoint rstrip (s : string) : string :=
  match s with
  | EmptyString => EmptyString
  | String c s' =>
      match rstrip s' with
      | EmptyString => if is_space c then EmptyString else String c EmptyString
      | r => String c r
      end
  end.

Definition strip (s : string) : string := rstrip (lstrip s).

(** Every character of [s] is whitespace. *)
Fixpoint all_space (s : string) : bool :=
  match s with
  | EmptyString => true
  | String c s' => is_space c && all_space s'
  end.

(** [s.find(c)] and [s.rfind(c)] for a one-character needle; -1 when
    absent.  The second argument is the index of the head of [s]. *)
Fixpoint find_from (c : ascii) (s : string) (i : Z) : Z :=
  match s with
  | EmptyString => -1
  | String a s' => if Ascii.eqb a c then i else find_from c s' (i + 1)
  end.

Definition find (c : ascii) (s : string) : Z := find_from c s 0.

Fixpoint rfind_from (c : ascii) (s : string) (i : Z) : Z :=
  match s with
  | EmptyString => -1
  | String a s' =>
      let r := rfind_from c s' (i + 1) in
      if 0 <=? r then r else if Ascii.eqb a c then i else -1
  end.

Definition rfind (c : ascii) (s : string) : Z := rfind_from c s 0.

(** [s[a:b]] for [0 <= a]. *)
Definition slice (s : string) (a b : Z) : string :=
  substring (Z.to_nat a) (Z.to_nat (b - a)) s.

(** [needle in hay] *)
Fixpoint str_in (needle hay : string) : bool :=
  prefix needle hay
  || match hay with
     | EmptyString => false
     | String _ hay' => str_in needle hay'
     end.

(** [sep.join(parts)] *)
Definition join (sep : string) (parts : list string) : string :=
  concat sep parts.

(** Characters of all the parts together. *)
Definition total_length (parts : list string) : nat :=
  fold_right (fun s n => (String.length s + n)%nat) 0%nat parts.

(** [sorted(names)]: code-point order, as [str.__lt__]. *)
Fixpoint insert_sorted (x : string) (l : list string) : list string :=
  match l with
  | [] => [x]
  | y :: l' => if String.leb x y then x :: l else y :: insert_sorted x l'
  end.

Definition sorted (l : list string) : list string :=
  fold_right insert_sorted [] l.

(** [str(n)] for an int. *)
Definition str_of_int (n : Z) : string :=
  NilZero.string_of_int (Z.to_int n).

(** [sum(1 for x in xs if x in query)] *)
Definition count_in (indicators : list string) (query : string) : Z :=
  Z.of_nat (List.length (filter (fun i => str_in i query) indicators)).

(** [any(x in query for x in xs)] *)
Definition any_in (indicators : list string) (query : string) : bool :=
  existsb (fun i => str_in i query) indicators.

(** [q > r] and [q <= r] on numbers. *)
Definition Qgtb (q r : Q) : bool := negb (Qle_bool q r).

(** [timedelta.total_seconds()] of a difference of two clock readings;
    the clock counts microseconds, as [datetime] does. *)
Definition total_seconds (micro : Z) : Q := micro # 1000000.

End Py.
Export Py.

(** ** Collaborators and data model *)

(** What the planner reads of a registered skill
    ([skills.base.BaseSkillModule]). *)
Record Skill : Type := {
  skill_name : string;
  skill_version : string;
  skill_description : string;
  required_inputs : list string;
  output_keys : list string;
  skill_category : string
}.

(** [reasoning_curriculum.CurriculumLevel] and [ReasoningPlan], as
    [record_curriculum_performance] constructs them. *)
Inductive CurriculumLevel : Type :=
| FOUNDATION | INTERMEDIATE | ADVANCED | EXPERT | RESEARCH.

Record ReasoningPlan : Type := {
  skills : list string;
  curriculum_level : CurriculumLevel;
  complexity_score : Q;
  confidence_threshold : Q;
  reasoning_strategy : string;
  estimated_effort : Z
}.

(** Library functions the planner calls and whose results it only
    passes on: [json.loads], which returns a value or raises
    ([JSONDecodeError] on malformed text, plain [ValueError] on an
    integer literal beyond the digit limit, [RecursionError] on deep
    nesting), [hashlib.md5(s.encode()).hexdigest()], [str(v)] as an
    f-string renders a value, and [CurriculumLevel.value]. *)
Class Runtime : Type := {
  json_loads : string -> outcome pyval;
  md5_hexdigest : string -> string;
  py_str : pyval -> string;
  level_value : CurriculumLevel -> string
}.

(** [config.get_sof_config()]: the three options the planner reads. *)
Record SOFConfig : Type := {
  enable_plan_caching : bool;
  plan_cache_ttl : Q;
  max_plan_length : Z
}.

Record PlanCacheEntry : Type := {
  ce_plan : list string;
  ce_confidence : pyval;
  created_at : Z;
  usage_count : Z;
  query_hash : string;
  skill_context : string
}.

Record PlanGenerationResult : Type := {
  plan : list string;
  confidence : pyval;
  reasoning : pyval;
  cache_hit : bool;
  generation_time : Q;
  fallback_used : bool
}.

(** The request object ([uif.SAM_UIF]): the attributes the planner reads
    and the ones it assigns. *)
Record SAM_UIF : Type := {
  input_query : string;
  active_profile : string;
  user_context : list (string * pyval);
  intermediate_data : list (string * pyval);
  uif_curriculum_level : option string;
  uif_complexity_score : option Q;
  uif_reasoning_strategy : option string;
  uif_estimated_effort : option Z
}.

(** The planner object.  The language model is its [generate] method at
    the fixed temperature and token budget, the curriculum its
    [generate_reasoning_plan]; either may raise.  Of the graph database
    only its presence is consulted. *)
Record DynamicPlanner : Type := {
  _config : SOFConfig;
  _registered_skills : list (string * Skill);
  _plan_cache : list (string * PlanCacheEntry);
  _llm_model : option (string -> outcome string);
  _graph_database : bool;
  _curriculum : option (string -> list string -> outcome ReasoningPlan)
}.

(** ** The monad *)

Record World : Type := {
  self : DynamicPlanner;
  uif : SAM_UIF;
  clock : nat -> Z;      (* the n-th reading of the wall clock, in microseconds *)
  ticks : nat            (* readings taken so far *)
}.

Definition M (A : Type) : Type := World -> outcome A * World.

Definition ret {A} (a : A) : M A := fun w => (Ok a, w).

Definition bind {A B} (c : M A) (k : A -> M B) : M B :=
  fun w => match c w with
           | (Ok a, w') => k a w'
           | (Raise e, w') => (Raise e, w')
           end.

Definition raise {A} (e : exn) : M A := fun w => (Raise e, w).

(** [try: c  except <catches> as e: h e] *)
Definition try_except {A} (c : M A) (catches : exn -> bool) (h : exn -> M A)
  : M A :=
  fun w => match c w with
           | (Ok a, w') => (Ok a, w')
           | (Raise e, w') => if catches e then h e w' else (Raise e, w')
           end.

Definition lift {A} (o : outcome A) : M A := fun w => (o, w).

Definition get_self : M DynamicPlanner := fun w => (Ok (self w), w).
Definition get_uif : M SAM_UIF := fun w => (Ok (uif w), w).

Definition with_self (w : World) (p : DynamicPlanner) : World :=
  {| self := p; uif := uif w; clock := clock w; ticks := ticks w |}.

Definition with_uif (w : World) (u : SAM_UIF) : World :=
  {| self := self w; uif := u; clock := clock w; ticks := ticks w |}.

(** The world after [n] more readings of the clock. *)
Definition advance (n : nat) (w : World) : World :=
  {| self := self w; uif := uif w; clock := clock w; ticks := (n + ticks w)%nat |}.

Definition set_self (p : DynamicPlanner) : M unit :=
  fun w => (Ok tt, with_self w p).

Definition set_uif (u : SAM_UIF) : M unit :=
  fun w => (Ok tt, with_uif w u).

(** [datetime.now()] and [time.time()]: the next reading of the clock. *)
Definition now : M Z :=
  fun w => (Ok (clock w (ticks w)), advance 1 w).

Declare Scope py_scope.
Delimit Scope py_scope with py.
Notation "x <- c ;; k" := (bind c (fun x => k))
  (at level 100, c at next level, right associativity) : py_scope.
Notation "c ;; k" := (bind c (fun _ => k))
  (at level 100, right associativity) : py_scope.
Local Open Scope py_scope.

(** Field updates of the two mutable objects. *)
Definition with_plan_cache (p : DynamicPlanner) (c : list (string * PlanCacheEntry))
  : DynamicPlanner :=
  {| _config := _config p; _registered_skills := _registered_skills p;
     _plan_cache := c; _llm_model := _llm_model p;
     _graph_database := _graph_database p; _curriculum := _curriculum p |}.

Definition with_registered_skills (p : DynamicPlanner) (r : list (string * Skill))
  : DynamicPlanner :=
  {| _config := _config p; _registered_skills := r;
     _plan_cache := _plan_cache p; _llm_model := _llm_model p;
     _graph_database := _graph_database p; _curriculum := _curriculum p |}.

Definition with_intermediate_data (u : SAM_UIF) (d : list (string * pyval))
  : SAM_UIF :=
  {| input_query := input_query u; active_profile := active_profile u;
     user_context := user_context u; intermediate_data := d;
     uif_curriculum_level := uif_curriculum_level u;
     uif_complexity_score := uif_complexity_score u;
     uif_reasoning_strategy := uif_reasoning_strategy u;
     uif_estimated_effort := uif_estimated_effort u |}.

Definition with_usage_count (e : PlanCacheEntry) (n : Z) : PlanCacheEntry :=
  {| ce_plan := ce_plan e; ce_confidence := ce_confidence e;
     created_at := created_at e; usage_count := n;
     query_hash := query_hash e; skill_context := skill_context e |}.

Definition with_generation_time (r : PlanGenerationResult) (t : Q)
  : PlanGenerationResult :=
  {| plan := plan r; confidence := confidence r; reasoning := reasoning r;
     cache_hit := cache_hit r; generation_time := t;
     fallback_used := fallback_used r |}.

(** Operations on values of open type, with the exceptions Python raises. *)

Definition type_name (v : pyval) : string :=
  match v with
  | PNone => "NoneType" | PBool _ => "bool" | PInt _ => "int"
  | PNum _ => "float" | PStr _ => "str" | PList _ => "list" | PDict _ => "dict"
  end.

(** [bool(v)] *)
Definition truthy (v : pyval) : bool :=
  match v with
  | PNone => false
  | PBool b => b
  | PInt n => negb (n =? 0)
  | PNum q => negb (Qeq_bool q 0)
  | PStr s => negb (String.eqb s "")
  | PList l => match l with [] => false | _ => true end
  | PDict d => match d with [] => false | _ => true end
  end.

(** [v[k] = x] with a string key: only a dict accepts it (the texts are
    CPython 3.11's). *)
Definition setitem (v : pyval) (k : string) (x : pyval) : outcome pyval :=
  match v with
  | PDict d => Ok (PDict (dict_set k x d))
  | PList _ => Raise (Exn TypeError
                        "list indices must be integers or slices, not str")
  | _ => Raise (Exn TypeError
                  ("'" ++ type_name v ++ "' object does not support item assignment"))
  end.

(** [v.get(k, default)] *)
Definition py_get (v : pyval) (k : string) (default : pyval) : outcome pyval :=
  match v with
  | PDict d => Ok (match dict_get k d with Some x => x | None => default end)
  | _ => Raise (Exn OtherException
                  ("'" ++ type_name v ++ "' object has no attribute 'get'"))
  end.

(** [v[k]] *)
Definition py_getitem (v : pyval) (k : string) : outcome pyval :=
  match v with
  | PDict d => match dict_get k d with
               | Some x => Ok x
               | None => Raise (Exn KeyError ("'" ++ k ++ "'"))
               end
  | PList _ => Raise (Exn TypeError
                        "list indices must be integers or slices, not str")
  | PStr _ => Raise (Exn TypeError "string indices must be integers, not 'str'")
  | _ => Raise (Exn TypeError
                  ("'" ++ type_name v ++ "' object is not subscriptable"))
  end.

(** [v > r] for a float [r]: numbers and bools compare (an [int] of any
    size exactly), the rest raise. *)
Definition py_gt (v : pyval) (r : Q) : outcome bool :=
  match v with
  | PNum q => Ok (Qgtb q r)
  | PInt n => Ok (Qgtb (inject_Z n) r)
  | PBool b => Ok (Qgtb (if b then 1%Q else 0%Q) r)
  | _ => Raise (Exn TypeError
                  ("'>' not supported between instances of '" ++ type_name v
                   ++ "' and 'float'"))
  end.

(** The least [int] that does not convert to a [float]: it would round
    to 2^1024. *)
Definition float_overflow : Z := 2 ^ 1024 - 2 ^ 970.

(** Rendering [v] with the format spec [.2f] inside an f-string: an
    [int] is converted to a [float] first, which overflows from
    [float_overflow] on. *)
Definition format_2f (v : pyval) : outcome unit :=
  match v with
  | PNum _ | PBool _ => Ok tt
  | PInt n => if Z.abs n <? float_overflow then Ok tt
              else Raise (Exn OtherException "int too large to convert to float")
  | PStr _ => Raise (Exn ValueError
                       "Unknown format code 'f' for object of type 'str'")
  | _ => Raise (Exn TypeError
                  ("unsupported format string passed to " ++ type_name v
                   ++ ".__format__"))
  end.

(** A validated plan read at its declared type [List[str]]. *)
Fixpoint str_items (l : list pyval) : list string :=
  match l with
  | [] => []
  | PStr s :: l' => s :: str_items l'
  | _ :: l' => str_items l'
  end.

Definition names_of (v : pyval) : list string :=
  match v with PList l => str_items l | _ => [] end.

Definition dq : string := String (ascii_of_nat 34) EmptyString.
Definition newline : string := String (ascii_of_nat 10) EmptyString.

(** ** DynamicPlanner methods *)

Section Methods.
Context {RT : Runtime}.

Definition register_skill (skill : Skill) : M unit :=
  p <- get_self ;;
  set_self (with_registered_skills p
              (dict_set (skill_name skill) skill (_registered_skills p))).

Fixpoint register_skills (l : list Skill) : M unit :=
  match l with
  | [] => ret tt
  | skill :: rest => register_skill skill ;; register_skills rest
  end.

(** [for x in xs: ys.append(f(x))] *)
Fixpoint for_each {A B} (f : A -> M B) (xs : list A) : M (list B) :=
  match xs with
  | [] => ret []
  | x :: xs' => y <- f x ;; ys <- for_each f xs' ;; ret (y :: ys)
  end.

Definition _generate_skill_context : M string :=
  p <- get_self ;;
  skill_signatures <-
    for_each (fun name =>
                match dict_get name (_registered_skills p) with
                | Some skill => ret (name ++ ":" ++ skill_version skill)
                | None => raise (Exn KeyError ("'" ++ name ++ "'"))
                end)
             (sorted (dict_keys (_registered_skills p))) ;;
  ret (join "|" skill_signatures).

Definition _generate_query_hash : M string :=
  u <- get_uif ;;
  p <- get_self ;;
  let hash_input :=
    input_query u ++ "|" ++ active_profile u ++ "|"
    ++ py_str (PList (map PStr (sorted (dict_keys (_registered_skills p))))) in
  ret (md5_hexdigest hash_input).

Definition _is_cache_entry_valid (entry : PlanCacheEntry) : M bool :=
  t <- now ;;
  p <- get_self ;;
  let age := t - created_at entry in
  if Qgtb (total_seconds age) (plan_cache_ttl (_config p)) then ret false
  else
    current_context <- _generate_skill_context ;;
    if negb (String.eqb (skill_context entry) current_context) then ret false
    else ret true.

Definition del_cache_key (key : string) : M unit :=
  p <- get_self ;;
  set_self (with_plan_cache p (dict_del key (_plan_cache p))).

Definition _cleanup_cache : M unit :=
  p <- get_self ;;
  flags <- for_each (fun item => valid <- _is_cache_entry_valid (snd item) ;;
                                 ret (fst item, valid))
                    (_plan_cache p) ;;
  let expired_keys := map fst (filter (fun kv => negb (snd kv)) flags) in
  for_each del_cache_key expired_keys ;;
  ret tt.

Definition _cache_plan (result : PlanGenerationResult) : M unit :=
  query_hash <- _generate_query_hash ;;
  skill_context <- _generate_skill_context ;;
  t <- now ;;
  let entry := {| ce_plan := plan result; ce_confidence := confidence result;
                  created_at := t; usage_count := 0;
                  query_hash := query_hash; skill_context := skill_context |} in
  p <- get_self ;;
  set_self (with_plan_cache p (dict_set query_hash entry (_plan_cache p))) ;;
  _cleanup_cache.

Definition _check_plan_cache : M (option PlanCacheEntry) :=
  query_hash <- _generate_query_hash ;;
  p <- get_self ;;
  match dict_get query_hash (_plan_cache p) with
  | Some entry =>
      valid <- _is_cache_entry_valid entry ;;
      if valid then
        let entry := with_usage_count entry (usage_count entry + 1) in
        p <- get_self ;;
        set_self (with_plan_cache p (dict_set query_hash entry (_plan_cache p))) ;;
        ret (Some entry)
      else
        del_cache_key query_hash ;;
        ret None
  | None => ret None
  end.

Definition _get_default_fallback_plan : M (list string) :=
  p <- get_self ;;
  let core_skills := ["MemoryRetrievalSkill"; "ResponseGenerationSkill"] in
  let default_plan :=
    filter (fun name => dict_mem name (_registered_skills p)) core_skills in
  ret (match default_plan with
       | [] => ["ResponseGenerationSkill"]
       | _ => default_plan
       end).

Definition graph_indicators : list string :=
  ["how"; "why"; "what causes"; "relationship"; "connection"; "related to";
   "because"; "leads to"; "results in"; "depends on"; "influences";
   "who works"; "where is"; "when did"; "which company"; "what technology";
   "connects"; "links"; "associates"; "correlates"; "impacts"].

Definition vector_indicators : list string :=
  ["similar to"; "like"; "about"; "regarding"; "concerning";
   "find documents"; "search for"; "show me"; "tell me about";
   "content"; "text"; "document"; "file"; "information"].

Definition hybrid_indicators : list string :=
  ["explain"; "analyze"; "compare"; "contrast"; "overview";
   "summary"; "comprehensive"; "detailed"; "complete picture";
   "understand"; "breakdown"; "elaborate"; "describe fully"].

Definition _determine_retrieval_mode (query_lower : string) : M string :=
  p <- get_self ;;
  if negb (_graph_database p) then ret "VECTOR"
  else
    let graph_score := count_in graph_indicators query_lower in
    let vector_score := count_in vector_indicators query_lower in
    let hybrid_score := count_in hybrid_indicators query_lower in
    if (hybrid_score >? 0) || ((graph_score >? 0) && (vector_score >? 0))
    then ret "HYBRID"
    else if graph_score >? vector_score then ret "GRAPH"
    else if vector_score >? 0 then ret "VECTOR"
    else ret "AUTO".

Definition deep_indicators : list string :=
  ["comprehensive"; "complete"; "all"; "everything"; "thorough";
   "detailed"; "full picture"; "entire"; "whole"; "extensive"].

Definition depth_multi_hop_indicators : list string :=
  ["chain"; "sequence"; "path"; "route"; "journey"; "process";
   "step by step"; "how does"; "what leads"; "cascade"; "ripple"].

Definition simple_indicators : list string :=
  ["direct"; "immediate"; "first"; "primary"; "main"; "basic"].

Definition _determine_graph_depth (query_lower : string) : M Z :=
  let deep_count := count_in deep_indicators query_lower in
  let multi_hop_count := count_in depth_multi_hop_indicators query_lower in
  let simple_count := count_in simple_indicators query_lower in
  if deep_count >? 0 then ret 4
  else if multi_hop_count >? 0 then ret 3
  else if simple_count >? 0 then ret 1
  else ret 2.

Definition conflict_indicators : list string :=
  ["compare"; "versus"; "different"; "conflicting"; "sources"].

Definition multi_hop_indicators : list string :=
  ["how does"; "what is the relationship"; "connect"; "link"; "relate";
   "why does"; "what causes"; "how are"; "what connects"; "bridge";
   "underlying"; "implicit"; "hidden connection"; "between"].

(** [x in [a, b, ...]] on strings *)
Definition str_mem (x : string) (l : list string) : bool :=
  existsb (String.eqb x) l.

(** The memory-retrieval stage of the rule-based planner: classify,
    write the search context into the request, name the skill. *)
Definition retrieval_stage (query_lower : string) : M (list string * list string) :=
  u <- get_uif ;;
  p <- get_self ;;
  if dict_mem "MemoryRetrievalSkill" (_registered_skills p) then
    retrieval_mode <- _determine_retrieval_mode query_lower ;;
    let search_context :=
      match dict_get "search_context" (intermediate_data u) with
      | Some v => v
      | None => PDict []
      end in
    search_context <- lift (setitem search_context "retrieval_mode"
                                    (PStr retrieval_mode)) ;;
    search_context <-
      (if str_mem retrieval_mode ["GRAPH"; "HYBRID"] && _graph_database p then
         depth <- _determine_graph_depth query_lower ;;
         sc <- lift (setitem search_context "graph_depth" (PInt depth)) ;;
         lift (setitem sc "max_results" (PInt 15))
       else ret search_context) ;;
    u <- get_uif ;;
    set_uif (with_intermediate_data u
               (dict_set "search_context" search_context (intermediate_data u))) ;;
    ret (["MemoryRetrievalSkill"],
         ["Added " ++ lower retrieval_mode ++ " memory retrieval for context"])
  else ret ([], []).

(** Lines 417-463 of [_generate_fallback_plan]: the five stages, which
    build [plan] and [reasoning_parts]. *)
Definition fallback_stages : M (list string * list string) :=
  u <- get_uif ;;
  let query_lower := lower (input_query u) in
  stage <- retrieval_stage query_lower ;;
  p <- get_self ;;
  let registered name := dict_mem name (_registered_skills p) in
  let plan := fst stage in
  let reasoning_parts := snd stage in
  let conflict :=
    any_in conflict_indicators query_lower && registered "ConflictDetectorSkill" in
  let plan := if conflict then List.app plan ["ConflictDetectorSkill"] else plan in
  let reasoning_parts :=
    if conflict
    then List.app reasoning_parts ["Added conflict detection for comparison query"]
    else reasoning_parts in
  let multi_hop :=
    any_in multi_hop_indicators query_lower && registered "ImplicitKnowledgeSkill" in
  let plan := if multi_hop then List.app plan ["ImplicitKnowledgeSkill"] else plan in
  let reasoning_parts :=
    if multi_hop
    then List.app reasoning_parts
           ["Added implicit knowledge skill for multi-hop reasoning"]
    else reasoning_parts in
  let final := registered "ResponseGenerationSkill" in
  let plan := if final then List.app plan ["ResponseGenerationSkill"] else plan in
  let reasoning_parts :=
    if final
    then List.app reasoning_parts ["Added response generation as final step"]
    else reasoning_parts in
  ret (plan, reasoning_parts).

Definition _generate_fallback_plan : M PlanGenerationResult :=
  stages <- fallback_stages ;;
  pr <- match fst stages with
        | [] => d <- _get_default_fallback_plan ;;
                ret (d, ["Used default fallback plan"])
        | _ => ret stages
        end ;;
  ret {| plan := fst pr;
         confidence := PNum (6 # 10);
         reasoning := PStr (join "; " (snd pr));
         cache_hit := false;
         generation_time := 0;
         fallback_used := true |}.

(** The loop of [_validate_generated_plan]: [Ok false] at the first
    element that is not a registered name, [TypeError] at an element
    that cannot be hashed for the membership test. *)
Fixpoint all_skills_exist (registry : list (string * Skill)) (l : list pyval)
  : outcome bool :=
  match l with
  | [] => Ok true
  | PStr skill_name :: rest =>
      if dict_mem skill_name registry then all_skills_exist registry rest
      else Ok false
  | (PList _ as v) :: _ | (PDict _ as v) :: _ =>
      Raise (Exn TypeError ("unhashable type: '" ++ type_name v ++ "'"))
  | _ :: _ => Ok false
  end.

Definition _validate_generated_plan (plan_data : pyval) : M bool :=
  p <- get_self ;;
  match plan_data with
  | PDict d =>
      match dict_get "plan" d with
      | Some (PList l) =>
          known <- lift (all_skills_exist (_registered_skills p) l) ;;
          if negb known then ret false
          else if Z.of_nat (List.length l) >? max_plan_length (_config p)
               then ret false
               else ret true
      | _ => ret false
      end
  | _ => ret false
  end.

Definition _parse_llm_response (response : string) : M (option pyval) :=
  try_except
    (let response := strip response in
     let start_idx := find "{" response in
     let end_idx := rfind "}" response + 1 in
     if (start_idx >=? 0) && (end_idx >? start_idx) then
       let json_str := slice response start_idx end_idx in
       plan_data <- lift (json_loads json_str) ;;
       valid <- _validate_generated_plan plan_data ;;
       if valid then ret (Some plan_data) else ret None
     else ret None)
    (catching [JSONDecodeError; KeyError; TypeError])
    (fun _ => ret None).

Definition _create_planning_prompt : M string :=
  u <- get_uif ;;
  p <- get_self ;;
  let skill_lines :=
    flat_map (fun item =>
                let skill := snd item in
                ["- " ++ fst item ++ ": " ++ skill_description skill;
                 "  Inputs: " ++ py_str (PList (map PStr (required_inputs skill)));
                 "  Outputs: " ++ py_str (PList (map PStr (output_keys skill)));
                 "  Category: " ++ skill_category skill;
                 ""])
             (_registered_skills p) in
  let context_lines :=
    match user_context u with
    | [] => []
    | _ => ["User Context:"; py_str (PDict (user_context u)); ""]
    end in
  let head_lines :=
    ["You are the planning engine for the SAM AI system. Your task is to analyze the user's query and generate a JSON plan specifying the precise skills needed to answer the query, in the correct execution order.";
     "";
     "User Query: " ++ input_query u;
     "";
     "Available Skills:"] in
  let instruction_lines :=
    ["Instructions:";
     "1. Analyze the query to understand what information and processing is needed";
     "2. Select the minimum necessary skills to fulfill the request";
     "3. Order skills so that dependencies are satisfied (outputs of earlier skills feed inputs of later skills)";
     "4. Always include ResponseGenerationSkill as the final step to create the user response";
     "5. Consider including MemoryRetrievalSkill if the query might benefit from stored knowledge";
     "6. Include ConflictDetectorSkill if multiple information sources might conflict";
     "7. Include ImplicitKnowledgeSkill for multi-hop questions that require connecting disparate pieces of information";
     "";
     "Response Format (JSON only):";
     "{";
     "  " ++ dq ++ "plan" ++ dq ++ ": [" ++ dq ++ "SkillName1" ++ dq ++ ", "
       ++ dq ++ "SkillName2" ++ dq ++ ", " ++ dq ++ "SkillName3" ++ dq ++ "],";
     "  " ++ dq ++ "reasoning" ++ dq ++ ": " ++ dq
       ++ "Brief explanation of why these skills were chosen and ordered this way"
       ++ dq ++ ",";
     "  " ++ dq ++ "confidence" ++ dq ++ ": 0.85";
     "}";
     "";
     "Your JSON response:"] in
  let prompt_parts :=
    List.app head_lines
      (List.app skill_lines (List.app context_lines instruction_lines)) in
  ret (join newline prompt_parts).

Definition _generate_llm_plan : M PlanGenerationResult :=
  try_except
    (prompt <- _create_planning_prompt ;;
     p <- get_self ;;
     response <- match _llm_model p with
                 | Some generate => lift (generate prompt)
                 | None => raise (Exn OtherException
                                    "'NoneType' object has no attribute 'generate'")
                 end ;;
     plan_data <- _parse_llm_response response ;;
     usable <- match plan_data with
               | Some d => if truthy d
                           then v <- lift (py_get d "plan" PNone) ;; ret (truthy v)
                           else ret false
               | None => ret false
               end ;;
     match plan_data, usable with
     | Some d, true =>
         the_plan <- lift (py_getitem d "plan") ;;
         the_confidence <- lift (py_get d "confidence" (PNum (8 # 10))) ;;
         the_reasoning <- lift (py_get d "reasoning" (PStr "Generated by LLM planner")) ;;
         ret {| plan := names_of the_plan;
                confidence := the_confidence;
                reasoning := the_reasoning;
                cache_hit := false;
                generation_time := 0;
                fallback_used := false |}
     | _, _ => _generate_fallback_plan
     end)
    any_exception
    (fun _ => _generate_fallback_plan).

Definition _generate_curriculum_plan : M PlanGenerationResult :=
  try_except
    (p <- get_self ;;
     u <- get_uif ;;
     let available_skills := dict_keys (_registered_skills p) in
     reasoning_plan <-
       match _curriculum p with
       | Some generate_reasoning_plan =>
           lift (generate_reasoning_plan (input_query u) available_skills)
       | None => raise (Exn OtherException
                          "'NoneType' object has no attribute 'generate_reasoning_plan'")
       end ;;
     set_uif {| input_query := input_query u; active_profile := active_profile u;
                user_context := user_context u;
                intermediate_data := intermediate_data u;
                uif_curriculum_level :=
                  Some (level_value (curriculum_level reasoning_plan));
                uif_complexity_score := Some (complexity_score reasoning_plan);
                uif_reasoning_strategy := Some (reasoning_strategy reasoning_plan);
                uif_estimated_effort := Some (estimated_effort reasoning_plan) |} ;;
     ret {| plan := skills reasoning_plan;
            confidence := PNum (confidence_threshold reasoning_plan);
            reasoning := PStr ("Curriculum "
                               ++ level_value (curriculum_level reasoning_plan)
                               ++ ": " ++ reasoning_strategy reasoning_plan);
            cache_hit := false;
            generation_time := 0;
            fallback_used := false |})
    any_exception
    (fun _ =>
       p <- get_self ;;
       match _llm_model p with
       | Some _ => _generate_llm_plan
       | None => _generate_fallback_plan
       end).

(** Lines 157-162 of [create_plan]: curriculum, else model, else rules. *)
Definition select_strategy : M PlanGenerationResult :=
  p <- get_self ;;
  match _curriculum p, _llm_model p with
  | Some _, _ => _generate_curriculum_plan
  | None, Some _ => _generate_llm_plan
  | None, None => _generate_fallback_plan
  end.

(** The [try] block of [create_plan]. *)
Definition create_plan_try (start_time : Z) : M PlanGenerationResult :=
  p <- get_self ;;
  cached_result <- (if enable_plan_caching (_config p) then _check_plan_cache
                    else ret None) ;;
  match cached_result with
  | Some entry =>
      t <- now ;;
      ret {| plan := ce_plan entry;
             confidence := ce_confidence entry;
             reasoning := PStr ("Retrieved from cache (used "
                                ++ str_of_int (usage_count entry) ++ " times)");
             cache_hit := true;
             generation_time := total_seconds (t - start_time);
             fallback_used := false |}
  | None =>
      result <- select_strategy ;;
      store <- (if enable_plan_caching (_config p)
                then match plan result with
                     | [] => ret false
                     | _ => lift (py_gt (confidence result) (5 # 10))
                     end
                else ret false) ;;
      (if store then _cache_plan result else ret tt) ;;
      t <- now ;;
      let result := with_generation_time result (total_seconds (t - start_time)) in
      lift (format_2f (confidence result)) ;;
      ret result
  end.

(** Its [except Exception as e] block. *)
Definition create_plan_except (start_time : Z) (e : exn) : M PlanGenerationResult :=
  t <- now ;;
  fallback_plan <- _get_default_fallback_plan ;;
  ret {| plan := fallback_plan;
         confidence := PNum (3 # 10);
         reasoning := PStr ("Error during generation: " ++ exc_str e);
         cache_hit := false;
         generation_time := total_seconds (t - start_time);
         fallback_used := true |}.

Definition create_plan : M PlanGenerationResult :=
  start_time <- now ;;
  try_except (create_plan_try start_time) any_exception
             (create_plan_except start_time).

End Methods.

(** ** The remaining methods *)

Definition with_llm_model (p : DynamicPlanner)
  (m : option (string -> outcome string)) : DynamicPlanner :=
  {| _config := _config p; _registered_skills := _registered_skills p;
     _plan_cache := _plan_cache p; _llm_model := m;
     _graph_database := _graph_database p; _curriculum := _curriculum p |}.

Definition with_graph_database (p : DynamicPlanner) (g : bool) : DynamicPlanner :=
  {| _config := _config p; _registered_skills := _registered_skills p;
     _plan_cache := _plan_cache p; _llm_model := _llm_model p;
     _graph_database := g; _curriculum := _curriculum p |}.

(** [_initialize_llm]: [imported] is what importing and calling
    [get_llm_model] gives; either [except] clause leaves no model. *)
Definition _initialize_llm (imported : outcome (option (string -> outcome string)))
  : M unit :=
  try_except
    (m <- lift imported ;;
     p <- get_self ;;
     set_self (with_llm_model p m))
    any_exception
    (fun _ => p <- get_self ;; set_self (with_llm_model p None)).

(** [_initialize_graph_awareness]: [imported] is whether
    [get_graph_database()] gave a database. *)
Definition _initialize_graph_awareness (imported : outcome bool) : M unit :=
  try_except
    (g <- lift imported ;;
     p <- get_self ;;
     set_self (with_graph_database p g))
    any_exception
    (fun _ => p <- get_self ;; set_self (with_graph_database p false)).

(** [__init__], run on the object whose fields it assigns: the
    configuration, the curriculum object it may construct and the two
    imports are given. *)
Definition __init__ (config : SOFConfig) (enable_curriculum : bool)
  (curriculum : string -> list string -> outcome ReasoningPlan)
  (llm_import : outcome (option (string -> outcome string)))
  (graph_import : outcome bool) : M unit :=
  set_self {| _config := config; _registered_skills := []; _plan_cache := [];
              _llm_model := None; _graph_database := false;
              _curriculum := if enable_curriculum then Some curriculum else None |} ;;
  _initialize_llm llm_import ;;
  _initialize_graph_awareness graph_import.

Definition get_registered_skills : M (list string) :=
  p <- get_self ;;
  ret (dict_keys (_registered_skills p)).

Definition clear_cache : M unit :=
  p <- get_self ;;
  set_self (with_plan_cache p []).

(** The dict [get_cache_stats] returns. *)
Record CacheStats : Type := {
  total_entries : Z;
  total_usage : Z;
  average_usage : Q;
  cache_enabled : bool
}.

(** [sum(xs)] *)
Definition py_sum (xs : list Z) : Z := fold_left Z.add xs 0.

Definition get_cache_stats : M CacheStats :=
  p <- get_self ;;
  let total_entries := Z.of_nat (List.length (_plan_cache p)) in
  let total_usage := py_sum (map usage_count (dict_values (_plan_cache p))) in
  ret {| total_entries := total_entries;
         total_usage := total_usage;
         average_usage := if total_entries >? 0
                          then (inject_Z total_usage / inject_Z total_entries)%Q
                          else 0%Q;
         cache_enabled := enable_plan_caching (_config p) |}.

(** Lines 628-637 of [record_curriculum_performance]: the level a plan
    of [n] skills is recorded at. *)
Definition estimate_level (n : Z) : CurriculumLevel :=
  if n <=? 2 then FOUNDATION
  else if n <=? 4 then INTERMEDIATE
  else if n <=? 6 then ADVANCED
  else if n <=? 8 then EXPERT
  else RESEARCH.

(** [record_curriculum_performance]; [record_performance] is the
    curriculum's method of that name, which may raise. *)
Definition record_curriculum_performance
  (record_performance : ReasoningPlan -> bool -> Q -> Q -> outcome unit)
  (the_plan : list string) (success : bool) (the_confidence execution_time : Q)
  : M unit :=
  p <- get_self ;;
  match _curriculum p with
  | None => ret tt
  | Some _ =>
      let level := estimate_level (Z.of_nat (List.length the_plan)) in
      let reasoning_plan :=
        {| skills := the_plan;
           curriculum_level := level;
           complexity_score := 5 # 10;
           confidence_threshold := 7 # 10;
           reasoning_strategy := "executed_plan";
           estimated_effort := Z.of_nat (List.length the_plan) |} in
      lift (record_performance reasoning_plan success the_confidence execution_time)
  end.

Definition is_graph_aware : M bool :=
  p <- get_self ;;
  ret (_graph_database p).

(** The dict [get_graph_status] returns. *)
Record GraphStatus : Type := {
  graph_available : bool;
  graph_aware_planning : bool;
  supported_modes : list string;
  default_graph_depth : Z;
  max_graph_depth : Z
}.

Definition get_graph_status : M GraphStatus :=
  p <- get_self ;;
  ret {| graph_available := _graph_database p;
         graph_aware_planning := true;
         supported_modes := if _graph_database p
                            then ["VECTOR"; "GRAPH"; "HYBRID"; "AUTO"]
                            else ["VECTOR"];
         default_graph_depth := 2;
         max_graph_depth := 4 |}.

(** ** Readings of the planner's state used in the statements *)

Definition registry (w : World) : list (string * Skill) :=
  _registered_skills (self w).

Definition cache (w : World) : list (string * PlanCacheEntry) :=
  _plan_cache (self w).

(** The time the next clock reading will show. *)
Definition time_now (w : World) : Z := clock w (ticks w).

Definition with_cache (w : World) (c : list (string * PlanCacheEntry)) : World :=
  with_self w (with_plan_cache (self w) c).

Definition version_of (reg : list (string * Skill)) (name : string) : string :=
  match dict_get name reg with
  | Some skill => skill_version skill
  | None => ""
  end.

(** The registry fingerprint: sorted [name:version] joined by [|]. *)
Definition context_string (reg : list (string * Skill)) : string :=
  join "|" (map (fun name => name ++ ":" ++ version_of reg name)
                (sorted (dict_keys reg))).

(** The cache key of a request under a registry. *)
Definition query_key {RT : Runtime} (reg : list (string * Skill)) (u : SAM_UIF)
  : string :=
  md5_hexdigest (input_query u ++ "|" ++ active_profile u ++ "|"
                 ++ py_str (PList (map PStr (sorted (dict_keys reg))))).

(** Age of an entry, in seconds, at clock reading [t]. *)
Definition age_at (t : Z) (e : PlanCacheEntry) : Q :=
  total_seconds (t - created_at e).

(** The text from the first opening brace to the last closing brace. *)
Definition json_text (s : string) : string :=
  slice s (find "{" s) (rfind "}" s + 1).

Definition brace_pair (s : string) : bool :=
  (find "{" s >=? 0) && (rfind "}" s + 1 >? find "{" s).

Definition has_plan_list (v : pyval) (l : list pyval) : Prop :=
  exists d, v = PDict d /\ dict_get "plan" d = Some (PList l).

Definition names_registered (reg : list (string * Skill)) (l : list pyval) : Prop :=
  forall x, In x l -> exists s, x = PStr s /\ dict_mem s reg = true.

(** The parsed value passes [_validate_generated_plan] without an
    exception. *)
Definition plan_accepted (p : DynamicPlanner) (v : pyval) : bool :=
  match v with
  | PDict d =>
      match dict_get "plan" d with
      | Some (PList l) =>
          match all_skills_exist (_registered_skills p) l with
          | Ok true => negb (Z.of_nat (List.length l) >? max_plan_length (_config p))
          | _ => false
          end
      | _ => false
      end
  | _ => false
  end.

(** Every name of a plan is registered. *)
Definition all_registered (reg : list (string * Skill)) (pl : list string) : Prop :=
  forall name, In name pl -> dict_mem name reg = true.

(** A confidence is a number of the unit interval ([True] and [False]
    are the numbers 1 and 0). *)
Definition in_unit (v : pyval) : Prop :=
  match v with
  | PNum q => (0 <= q)%Q /\ (q <= 1)%Q
  | PInt n => 0 <= n <= 1
  | PBool _ => True
  | _ => False
  end.

(** A dict binds each key once. *)
Definition dict_wf {V : Type} (d : list (string * V)) : Prop :=
  NoDup (dict_keys d).

(** An entry passes [_is_cache_entry_valid] at clock reading [t]. *)
Definition entry_valid (p : DynamicPlanner) (t : Z) (e : PlanCacheEntry) : bool :=
  negb (Qgtb (age_at t e) (plan_cache_ttl (_config p)))
  && String.eqb (skill_context e) (context_string (_registered_skills p)).

(** The sweep of [_cleanup_cache]: the [i]-th item is checked at the
    [i]-th clock reading from [t] on. *)
Fixpoint sweep_flags (p : DynamicPlanner) (clk : nat -> Z) (t : nat)
  (items : list (string * PlanCacheEntry)) : list (string * bool) :=
  match items with
  | [] => []
  | item :: rest =>
      (fst item, entry_valid p (clk t) (snd item)) :: sweep_flags p clk (S t) rest
  end.

Definition expired_keys (flags : list (string * bool)) : list string :=
  map fst (filter (fun kv => negb (snd kv)) flags).

Definition del_keys (keys : list string) (c : list (string * PlanCacheEntry))
  : list (string * PlanCacheEntry) :=
  fold_left (fun c k => dict_del k c) keys c.

(** What [_get_default_fallback_plan] returns under a registry. *)
Definition default_plan (reg : list (string * Skill)) : list string :=
  match filter (fun name => dict_mem name reg)
               ["MemoryRetrievalSkill"; "ResponseGenerationSkill"] with
  | [] => ["ResponseGenerationSkill"]
  | l => l
  end.

(** A plan names registered skills only, or is the bare default. *)
Definition plan_ok (reg : list (string * Skill)) (pl : list string) : Prop :=
  all_registered reg pl \/ pl = ["ResponseGenerationSkill"].

(** A computation that leaves the planner object, the clock and the
    identity of the request (query text, profile) as they were. *)
Definition frame (w w' : World) : Prop :=
  self w' = self w /\ clock w' = clock w /\ ticks w' = ticks w
  /\ input_query (uif w') = input_query (uif w)
  /\ active_profile (uif w') = active_profile (uif w).

(** The three kinds of freshly generated result. *)
Definition rule_based_result (reg : list (string * Skill))
  (r : PlanGenerationResult) : Prop :=
  fallback_used r = true /\ cache_hit r = false
  /\ confidence r = PNum (6 # 10) /\ plan r <> [] /\ plan_ok reg (plan r).

Definition model_result {RT : Runtime} (p : DynamicPlanner)
  (r : PlanGenerationResult) : Prop :=
  fallback_used r = false /\ cache_hit r = false
  /\ plan r <> [] /\ all_registered (_registered_skills p) (plan r)
  /\ exists generate prompt response d,
       _llm_model p = Some generate /\ generate prompt = Ok response
       /\ json_loads (json_text response) = Ok (PDict d)
       /\ confidence r = match dict_get "confidence" d with
                         | Some c => c
                         | None => PNum (8 # 10)
                         end.

Definition curriculum_result (p : DynamicPlanner) (query : string)
  (r : PlanGenerationResult) : Prop :=
  fallback_used r = false /\ cache_hit r = false
  /\ exists generate rp,
       _curriculum p = Some generate
       /\ generate query (dict_keys (_registered_skills p)) = Ok rp
       /\ plan r = skills rp /\ confidence r = PNum (confidence_threshold rp).

(** The planner objects that differ from [p] in the cache only. *)
Definition same_but_cache (p p' : DynamicPlanner) : Prop :=
  exists c, p' = with_plan_cache p c.

(** A freshly generated result, of whichever kind. *)
Definition generated {RT : Runtime} (p : DynamicPlanner) (query : string)
  (r : PlanGenerationResult) : Prop :=
  rule_based_result (_registered_skills p) r \/ model_result p r
  \/ curriculum_result p query r.

(** Every cached entry's plan and confidence satisfy [good]. *)
Definition cache_good (good : list string -> pyval -> Prop)
  (c : list (string * PlanCacheEntry)) : Prop :=
  forall k e, In (k, e) c -> good (ce_plan e) (ce_confidence e).

(** Assumptions on the collaborators, for the statements that need
    them: the curriculum plans with registered skills only; the
    confidences that the curriculum and the model report are numbers of
    the unit interval. *)
Definition curriculum_names_ok (p : DynamicPlanner) : Prop :=
  forall generate query rp,
    _curriculum p = Some generate ->
    generate query (dict_keys (_registered_skills p)) = Ok rp ->
    all_registered (_registered_skills p) (skills rp).

Definition curriculum_confidence_ok (p : DynamicPlanner) : Prop :=
  forall generate query available rp,
    _curriculum p = Some generate ->
    generate query available = Ok rp ->
    (0 <= confidence_threshold rp)%Q /\ (confidence_threshold rp <= 1)%Q.

Definition model_confidence_ok {RT : Runtime} (p : DynamicPlanner) : Prop :=
  forall generate prompt response d,
    _llm_model p = Some generate ->
    generate prompt = Ok response ->
    json_loads (json_text response) = Ok (PDict d) ->
    (forall q, dict_get "confidence" d = Some (PNum q) ->
               (0 <= q)%Q /\ (q <= 1)%Q)
    /\ (forall n, dict_get "confidence" d = Some (PInt n) -> 0 <= n <= 1).

(** The registry after the skills of [l] were registered one by one. *)
Definition registered_after (l : list Skill) (reg : list (string * Skill))
  : list (string * Skill) :=
  fold_left (fun r skill => dict_set (skill_name skill) skill r) l reg.

(** Two worlds that differ in the registry at most. *)
Definition same_but_registry (w w' : World) : Prop :=
  cache w' = cache w /\ _config (self w') = _config (self w)
  /\ _llm_model (self w') = _llm_model (self w)
  /\ _graph_database (self w') = _graph_database (self w)
  /\ _curriculum (self w') = _curriculum (self w)
  /\ uif w' = uif w /\ clock w' = clock w /\ ticks w' = ticks w.

(** The planner states a program can reach: [__init__], then any
    sequence of the methods that change the planner, with whatever
    request and clock the caller and the time supply in between. *)
Inductive reachable {RT : Runtime} : World -> Prop :=
| reach_init (config : SOFConfig) (enable_curriculum : bool)
    (curriculum : string -> list string -> outcome ReasoningPlan)
    (llm_import : outcome (option (string -> outcome string)))
    (graph_import : outcome bool) (w : World) :
    reachable (snd (__init__ config enable_curriculum curriculum
                             llm_import graph_import w))
| reach_register_skill (skill : Skill) (w : World) :
    reachable w -> reachable (snd (register_skill skill w))
| reach_register_skills (l : list Skill) (w : World) :
    reachable w -> reachable (snd (register_skills l w))
| reach_create_plan (w : World) :
    reachable w -> reachable (snd (create_plan w))
| reach_clear_cache (w : World) :
    reachable w -> reachable (snd (clear_cache w))
| reach_env (w w' : World) :
    reachable w -> self w' = self w -> reachable w'.

(** What holds of a cached entry stored under key [k]. *)
Definition entry_ok (k : string) (e : PlanCacheEntry) : Prop :=
  query_hash e = k /\ ce_plan e <> []
  /\ py_gt (ce_confidence e) (5 # 10) = Ok true
  /\ 0 <= usage_count e.

Definition planner_inv (w : World) : Prop :=
  dict_wf (registry w) /\ dict_wf (cache w)
  /\ (forall k skill, In (k, skill) (registry w) -> skill_name skill = k)
  /\ (forall k e, In (k, e) (cache w) -> entry_ok k e).

(** A planner with no skill, no curriculum and no model, whose cache
    holds nothing but bare response-generation plans at confidence
    0.6: a planner constructed without curriculum and model, as long as
    no skill is registered. *)
Definition unequipped (w : World) : Prop :=
  registry w = [] /\ _curriculum (self w) = None /\ _llm_model (self w) = None
  /\ forall k e,
       In (k, e) (cache w) ->
       ce_plan e = ["ResponseGenerationSkill"]
       /\ ce_confidence e = PNum (6 # 10).

(** ** Sample registries, collaborators and requests *)

Definition sample_skill (name version : string) : Skill :=
  {| skill_name := name; skill_version := version;
     skill_description := "sample"; required_inputs := ["input_query"];
     output_keys := ["response"]; skill_category := "core" |}.

Definition doc_unknown_skill : string :=
  "{" ++ dq ++ "plan" ++ dq ++ ": [" ++ dq ++ "UnknownSkill" ++ dq ++ "], "
  ++ dq ++ "confidence" ++ dq ++ ": 0.9}".

Definition doc_confidence_five : string :=
  "{" ++ dq ++ "plan" ++ dq ++ ": [" ++ dq ++ "ResponseGenerationSkill" ++ dq
  ++ "], " ++ dq ++ "confidence" ++ dq ++ ": 5}".

(** [n] times the digit 1. *)
Fixpoint ones (n : nat) : string :=
  match n with
  | O => ""
  | S n' => String "1" (ones n')
  end.

(** A plan whose confidence is an integer literal of 4301 digits, one
    more than [int] converts from a string by default (CPython 3.11;
    also 3.7 to 3.10 from their 2022 security releases on). *)
Definition doc_long_integer : string :=
  "{" ++ dq ++ "plan" ++ dq ++ ": [" ++ dq ++ "ResponseGenerationSkill" ++ dq
  ++ "], " ++ dq ++ "confidence" ++ dq ++ ": " ++ ones 4301 ++ "}".

(** A plan whose confidence is the integer 11...1 of 401 digits: an
    [int] greater than every [float]. *)
Definition doc_confidence_huge : string :=
  "{" ++ dq ++ "plan" ++ dq ++ ": [" ++ dq ++ "ResponseGenerationSkill" ++ dq
  ++ "], " ++ dq ++ "confidence" ++ dq ++ ": " ++ ones 401 ++ "}".

(** A runtime for the examples.  [json_loads] agrees with [json.loads]
    on the four documents above and on text without a JSON object; the
    digest is a stand-in (no example depends on which digest is used);
    [py_str] renders a list of names. *)
Definition sample_json_loads (s : string) : outcome pyval :=
  if String.eqb s doc_unknown_skill then
    Ok (PDict [("plan", PList [PStr "UnknownSkill"]); ("confidence", PNum (9 # 10))])
  else if String.eqb s doc_confidence_five then
    Ok (PDict [("plan", PList [PStr "ResponseGenerationSkill"]);
               ("confidence", PInt 5)])
  else if String.eqb s doc_confidence_huge then
    Ok (PDict [("plan", PList [PStr "ResponseGenerationSkill"]);
               ("confidence", PInt ((10 ^ 401 - 1) / 9))])
  else if String.eqb s doc_long_integer then
    Raise (Exn ValueError
             "Exceeds the limit (4300 digits) for integer string conversion: value has 4301 digits; use sys.set_int_max_str_digits() to increase the limit")
  else Raise (Exn JSONDecodeError "Expecting value: line 1 column 1 (char 0)").

Definition sample_py_str (v : pyval) : string :=
  match v with
  | PList l => "[" ++ join ", " (map (fun s => "'" ++ s ++ "'") (str_items l)) ++ "]"
  | _ => "{}"
  end.

Definition sample_level_value (l : CurriculumLevel) : string :=
  match l with
  | FOUNDATION => "foundation" | INTERMEDIATE => "intermediate"
  | ADVANCED => "advanced" | EXPERT => "expert" | RESEARCH => "research"
  end.

Definition sample_runtime : Runtime :=
  {| json_loads := sample_json_loads;
     md5_hexdigest := fun s => s;
     py_str := sample_py_str;
     level_value := sample_level_value |}.

Definition sample_config (caching : bool) : SOFConfig :=
  {| enable_plan_caching := caching; plan_cache_ttl := 3600; max_plan_length := 10 |}.

Definition sample_request (query : string) (data : list (string * pyval)) : SAM_UIF :=
  {| input_query := query; active_profile := "general"; user_context := [];
     intermediate_data := data;
     uif_curriculum_level := None; uif_complexity_score := None;
     uif_reasoning_strategy := None; uif_estimated_effort := None |}.

Definition sample_planner (caching : bool) (reg : list (string * Skill))
  (llm : option (string -> outcome string))
  (curriculum : option (string -> list string -> outcome ReasoningPlan))
  : DynamicPlanner :=
  {| _config := sample_config caching; _registered_skills := reg;
     _plan_cache := []; _llm_model := llm; _graph_database := true;
     _curriculum := curriculum |}.

(** A clock that advances one second per reading. *)
Definition sample_clock (n : nat) : Z := 1000000 * Z.of_nat n.

Definition sample_world (p : DynamicPlanner) (u : SAM_UIF) : World :=
  {| self := p; uif := u; clock := sample_clock; ticks := 0 |}.

Definition core_registry : list (string * Skill) :=
  [("MemoryRetrievalSkill", sample_skill "MemoryRetrievalSkill" "1.0");
   ("ConflictDetectorSkill", sample_skill "ConflictDetectorSkill" "1.0");
   ("ResponseGenerationSkill", sample_skill "ResponseGenerationSkill" "1.0")].

(** A cached entry whose age is exactly the TTL at the next reading. *)
Definition edge_request : SAM_UIF := sample_request "compare X and Y" [].

Definition edge_entry : PlanCacheEntry :=
  {| ce_plan := ["MemoryRetrievalSkill"; "ConflictDetectorSkill";
                 "ResponseGenerationSkill"];
     ce_confidence := PNum (6 # 10);
     created_at := 0;
     usage_count := 0;
     query_hash := @query_key sample_runtime core_registry edge_request;
     skill_context := context_string core_registry |}.

Definition edge_world (reading : Z) : World :=
  {| self := with_plan_cache (sample_planner true core_registry None None)
               [(@query_key sample_runtime core_registry edge_request, edge_entry)];
     uif := edge_request;
     clock := fun _ => reading;
     ticks := 0 |}.

Definition failing_curriculum (query : string) (available : list string)
  : outcome ReasoningPlan :=
  Raise (Exn OtherException "curriculum unavailable").

Definition ghost_curriculum (query : string) (available : list string)
  : outcome ReasoningPlan :=
  Ok {| skills := ["GhostSkill"]; curriculum_level := FOUNDATION;
        complexity_score := 1 # 2; confidence_threshold := 7 # 10;
        reasoning_strategy := "direct"; estimated_effort := 1 |}.

Definition chatty_llm (doc : string) (prompt : string) : outcome string :=
  Ok ("Here is the plan: " ++ doc ++ " Hope this helps.").

(** The worlds of the examples.  Rule-based planning over the three
    sample skills; a search context left in the request that is no
    dict; a curriculum that raises; one that plans with an unregistered
    skill; a model that reports confidence 5, and one that plans with an
    unknown skill; a registry with no skill at all. *)
Definition world_rules (caching : bool) (query : string) : World :=
  sample_world (sample_planner caching core_registry None None)
               (sample_request query []).

Definition world_bad_search_context : World :=
  sample_world (sample_planner false core_registry None None)
               (sample_request "hello" [("search_context", PStr "oops")]).

Definition world_curriculum_fails : World :=
  sample_world (sample_planner false core_registry None (Some failing_curriculum))
               (sample_request "compare X and Y" []).

Definition world_ghost_curriculum : World :=
  sample_world (sample_planner false core_registry None (Some ghost_curriculum))
               (sample_request "hello" []).

Definition world_confidence_five : World :=
  sample_world (sample_planner false core_registry
                  (Some (chatty_llm doc_confidence_five)) None)
               (sample_request "hello" []).

Definition world_unknown_skill : World :=
  sample_world (sample_planner false core_registry
                  (Some (chatty_llm doc_unknown_skill)) None)
               (sample_request "compare X and Y" []).

Definition world_empty_registry : World :=
  sample_world (sample_planner false [] None None) (sample_request "hello" []).

(** Caching on and a model whose answer carries a confidence beyond
    every [float]. *)
Definition world_confidence_huge : World :=
  sample_world (sample_planner true core_registry
                  (Some (chatty_llm doc_confidence_huge)) None)
               (sample_request "hello" []).

(** Scenario A with caching on and a TTL of 0 seconds. *)
Definition world_ttl_zero : World :=
  sample_world
    {| _config := {| enable_plan_caching := true; plan_cache_ttl := 0;
                     max_plan_length := 10 |};
       _registered_skills := core_registry; _plan_cache := [];
       _llm_model := None; _graph_database := true; _curriculum := None |}
    (sample_request "compare X and Y" []).

(** * Facts about the builtins *)

Module PyFacts.

Lemma length_app (a b : string) :
  String.length (a ++ b) = (String.length a + String.length b)%nat.
Proof. induction a as [|c a IH]; simpl; [reflexivity | now rewrite IH]. Qed.

Lemma app_assoc (a b c : string) : (a ++ b) ++ c = a ++ (b ++ c).
Proof. induction a as [|x a IH]; simpl; [reflexivity | now rewrite IH]. Qed.

Lemma app_empty_r (a : string) : a ++ "" = a.
Proof. induction a as [|x a IH]; simpl; [reflexivity | now rewrite IH]. Qed.

Lemma app_inv_head (a b c : string) : a ++ b = a ++ c -> b = c.
Proof.
  induction a as [|x a IH]; simpl; intros H; [exact H |].
  injection H as H. now apply IH.
Qed.

Lemma app_inv_tail (c a b : string) : a ++ c = b ++ c -> a = b.
Proof.
  revert b. induction a as [|x a IH]; intros [|y b] H; simpl in H.
  - reflexivity.
  - apply (f_equal String.length) in H. simpl in H. rewrite length_app in H. lia.
  - apply (f_equal String.length) in H. simpl in H. rewrite length_app in H. lia.
  - injection H as Hxy H. subst y. f_equal. now apply IH.
Qed.

(** *** find and rfind *)

Lemma find_from_shift (c : ascii) (s : string) (i : Z) :
  (find c s = -1 /\ find_from c s i = -1)
  \/ (0 <= find c s < Z.of_nat (String.length s)
      /\ find_from c s i = find c s + i).
Proof.
  unfold find. revert i.
  induction s as [|a s IH]; intros i; cbn [find_from String.length].
  - left. split; reflexivity.
  - destruct (Ascii.eqb a c).
    + right. split; lia.
    + destruct (IH (i + 1)) as [[H0 Hi] | [H0 Hi]];
        destruct (IH (0 + 1)) as [[H0' H1] | [H0' H1]]; lia.
Qed.

Lemma rfind_from_shift (c : ascii) (s : string) (i : Z) :
  0 <= i ->
  (rfind c s = -1 /\ rfind_from c s i = -1)
  \/ (0 <= rfind c s < Z.of_nat (String.length s)
      /\ rfind_from c s i = rfind c s + i).
Proof.
  unfold rfind. revert i.
  induction s as [|a s IH]; intros i Hi0; cbn [rfind_from String.length].
  - left. split; reflexivity.
  - destruct (IH (i + 1)) as [[H0 Hi] | [H0 Hi]]; [lia | |];
      (destruct (IH (0 + 1)) as [[H0' H1] | [H0' H1]]; [lia | |]);
      try lia; rewrite H1, Hi.
    + cbn [Z.leb Z.compare]. destruct (Ascii.eqb a c); lia.
    + destruct (Z.leb_spec 0 (rfind_from c s 0 + (i + 1)));
        destruct (Z.leb_spec 0 (rfind_from c s 0 + (0 + 1))); lia.
Qed.

Lemma find_cons (c a : ascii) (s : string) :
  Ascii.eqb a c = false ->
  find c (String a s) = if find c s <? 0 then -1 else find c s + 1.
Proof.
  intros Hac. unfold find at 1. cbn [find_from]. rewrite Hac.
  destruct (find_from_shift c s (0 + 1)) as [[H0 H1] | [H0 H1]]; rewrite H1.
  - rewrite H0. reflexivity.
  - change (0 + 1) with 1. destruct (Z.ltb_spec (find c s) 0); lia.
Qed.

Lemma rfind_cons (c a : ascii) (s : string) :
  Ascii.eqb a c = false ->
  rfind c (String a s) = if rfind c s <? 0 then -1 else rfind c s + 1.
Proof.
  intros Hac. unfold rfind at 1. cbn [rfind_from]. rewrite Hac.
  destruct (rfind_from_shift c s (0 + 1)) as [[H0 H1] | [H0 H1]];
    [lia | |]; rewrite H1.
  - rewrite H0. reflexivity.
  - change (0 + 1) with 1.
    destruct (Z.leb_spec 0 (rfind c s + 1)); destruct (Z.ltb_spec (rfind c s) 0); lia.
Qed.

Lemma find_range (c : ascii) (s : string) :
  find c s = -1 \/ 0 <= find c s < Z.of_nat (String.length s).
Proof. destruct (find_from_shift c s 0) as [[H _] | [H _]]; auto. Qed.

Lemma rfind_range (c : ascii) (s : string) :
  rfind c s = -1 \/ 0 <= rfind c s < Z.of_nat (String.length s).
Proof. destruct (rfind_from_shift c s 0) as [[H _] | [H _]]; auto; lia. Qed.

(** A character that is no brace in front of the text moves the pair
    one place to the right and leaves the text between them alone. *)
Lemma brace_pair_cons (a : ascii) (s : string) :
  Ascii.eqb a "{" = false -> Ascii.eqb a "}" = false ->
  brace_pair (String a s) = brace_pair s.
Proof.
  intros Ho Hc. unfold brace_pair.
  rewrite (find_cons _ _ _ Ho), (rfind_cons _ _ _ Hc).
  destruct (find_range "{" s) as [Hf | Hf], (rfind_range "}" s) as [Hr | Hr];
    destruct (Z.ltb_spec (find "{" s) 0); destruct (Z.ltb_spec (rfind "}" s) 0);
    try lia;
    repeat match goal with
           | |- context [?x >=? ?y] => destruct (Z.geb_spec x y)
           | |- context [?x >? ?y] => destruct (Z.gtb_spec x y)
           end; simpl; try reflexivity; lia.
Qed.

Lemma json_text_cons (a : ascii) (s : string) :
  Ascii.eqb a "{" = false -> Ascii.eqb a "}" = false ->
  brace_pair s = true ->
  json_text (String a s) = json_text s.
Proof.
  intros Ho Hc Hp. unfold json_text, slice.
  rewrite (find_cons _ _ _ Ho), (rfind_cons _ _ _ Hc).
  unfold brace_pair in Hp. apply andb_prop in Hp as [Hf Hr].
  apply Z.geb_le in Hf. apply Z.gtb_lt in Hr.
  destruct (Z.ltb_spec (find "{" s) 0); [lia |].
  destruct (Z.ltb_spec (rfind "}" s) 0); [lia |].
  replace (Z.to_nat (find "{" s + 1)) with (S (Z.to_nat (find "{" s))) by lia.
  replace (rfind "}" s + 1 + 1 - (find "{" s + 1))
    with (rfind "}" s + 1 - find "{" s) by lia.
  reflexivity.
Qed.

(** *** strip leaves the braces and the text between them alone *)

Lemma is_space_not (c a : ascii) :
  is_space c = false -> is_space a = true -> Ascii.eqb a c = false.
Proof.
  intros Hc Ha. destruct (Ascii.eqb_spec a c) as [-> |]; [congruence | reflexivity].
Qed.

Lemma brace_pair_lstrip (s : string) : brace_pair (lstrip s) = brace_pair s.
Proof.
  induction s as [|a s IH]; cbn [lstrip]; [reflexivity |].
  destruct (is_space a) eqn:Ha; [| reflexivity].
  rewrite IH. symmetry. apply brace_pair_cons; now apply is_space_not.
Qed.

Lemma json_text_lstrip (s : string) :
  brace_pair s = true -> json_text (lstrip s) = json_text s.
Proof.
  induction s as [|a s IH]; cbn [lstrip]; intros Hp; [reflexivity |].
  destruct (is_space a) eqn:Ha; [| reflexivity].
  assert (Ho : Ascii.eqb a "{" = false) by now apply is_space_not.
  assert (Hc : Ascii.eqb a "}" = false) by now apply is_space_not.
  rewrite (brace_pair_cons _ _ Ho Hc) in Hp.
  rewrite (json_text_cons _ _ Ho Hc Hp). now apply IH.
Qed.

Lemma find_from_space (c : ascii) (t : string) (j : Z) :
  is_space c = false -> all_space t = true -> find_from c t j = -1.
Proof.
  intros Hc. revert j. induction t as [|a t IH]; intros j Ht; cbn in *; [reflexivity |].
  apply andb_prop in Ht as [Ha Ht]. rewrite (is_space_not _ _ Hc Ha). now apply IH.
Qed.

Lemma rfind_from_space (c : ascii) (t : string) (j : Z) :
  is_space c = false -> all_space t = true -> rfind_from c t j = -1.
Proof.
  intros Hc. revert j.
  induction t as [|a t IH]; intros j Ht; cbn [rfind_from all_space] in *;
    [reflexivity |].
  apply andb_prop in Ht as [Ha Ht].
  rewrite (IH _ Ht), (is_space_not _ _ Hc Ha). reflexivity.
Qed.

Lemma find_app_space (c : ascii) (s t : string) :
  is_space c = false -> all_space t = true -> find c (s ++ t) = find c s.
Proof.
  intros Hc Ht. unfold find. generalize 0 as i.
  induction s as [|a s IH]; intros i; cbn [append find_from].
  - now apply find_from_space.
  - destruct (Ascii.eqb a c); [reflexivity | apply IH].
Qed.

Lemma rfind_app_space (c : ascii) (s t : string) :
  is_space c = false -> all_space t = true -> rfind c (s ++ t) = rfind c s.
Proof.
  intros Hc Ht. unfold rfind. generalize 0 as i.
  induction s as [|a s IH]; intros i; cbn [append rfind_from].
  - now apply rfind_from_space.
  - now rewrite IH.
Qed.

Lemma substring_app (n m : nat) (s t : string) :
  (n + m <= String.length s)%nat -> substring n m (s ++ t) = substring n m s.
Proof.
  revert n m. induction s as [|a s IH]; intros n m H; cbn [String.length] in H.
  - assert (n = 0%nat) by lia. assert (m = 0%nat) by lia. subst.
    destruct t; reflexivity.
  - destruct n as [|n]; cbn [append substring].
    + destruct m as [|m]; [reflexivity |]. f_equal. apply IH. lia.
    + apply IH. lia.
Qed.

Lemma brace_pair_app_space (s t : string) :
  all_space t = true -> brace_pair (s ++ t) = brace_pair s.
Proof.
  intros Ht. unfold brace_pair.
  now rewrite find_app_space, rfind_app_space.
Qed.

Lemma json_text_app_space (s t : string) :
  all_space t = true -> brace_pair s = true -> json_text (s ++ t) = json_text s.
Proof.
  intros Ht Hp. unfold json_text, slice.
  rewrite find_app_space, rfind_app_space by easy.
  unfold brace_pair in Hp. apply andb_prop in Hp as [Hf Hr].
  apply Z.geb_le in Hf. apply Z.gtb_lt in Hr.
  apply substring_app.
  destruct (rfind_range "}" s); lia.
Qed.

Lemma rstrip_split (s : string) :
  exists t, s = rstrip s ++ t /\ all_space t = true.
Proof.
  induction s as [|a s (t & Hs & Ht)]; cbn [rstrip].
  - exists "". split; reflexivity.
  - destruct (rstrip s) as [|b r] eqn:Hr.
    + destruct (is_space a) eqn:Ha.
      * exists (String a t). cbn in *. rewrite Ha, Ht. split; [congruence | reflexivity].
      * exists t. cbn in *. split; [congruence | assumption].
    + exists t. split; [| assumption]. cbn [append] in *. congruence.
Qed.

Lemma brace_pair_strip (s : string) : brace_pair (strip s) = brace_pair s.
Proof.
  unfold strip. destruct (rstrip_split (lstrip s)) as (t & Hs & Ht).
  rewrite <- (brace_pair_lstrip s).
  set (r := rstrip (lstrip s)) in *. rewrite Hs.
  symmetry. now apply brace_pair_app_space.
Qed.

Lemma json_text_strip (s : string) :
  brace_pair s = true -> json_text (strip s) = json_text s.
Proof.
  intros Hp. rewrite <- (json_text_lstrip s Hp).
  pose proof (brace_pair_strip s) as Hb. rewrite Hp in Hb.
  unfold strip in *. destruct (rstrip_split (lstrip s)) as (t & Hs & Ht).
  set (r := rstrip (lstrip s)) in *. rewrite Hs.
  symmetry. now apply json_text_app_space.
Qed.

(** *** dict *)

Section DictFacts.
Context {V : Type}.
Implicit Types (d : list (string * V)) (k : string) (v : V).

Lemma dict_get_set_same k v d : dict_get k (dict_set k v d) = Some v.
Proof.
  induction d as [|[k' v'] d IH]; cbn.
  - now rewrite String.eqb_refl.
  - destruct (String.eqb k k') eqn:E; cbn; rewrite ?String.eqb_refl, ?E; auto.
Qed.

Lemma dict_get_set_other k k' v d :
  k <> k' -> dict_get k' (dict_set k v d) = dict_get k' d.
Proof.
  intros Hk. induction d as [|[k0 v0] d IH]; cbn.
  - apply String.eqb_neq in Hk. now rewrite String.eqb_sym, Hk.
  - destruct (String.eqb_spec k k0) as [<- |]; cbn.
    + apply String.eqb_neq in Hk. now rewrite String.eqb_sym, Hk.
    + now rewrite IH.
Qed.

Lemma dict_get_del_same k d : dict_get k (dict_del k d) = None.
Proof.
  induction d as [|[k' v'] d IH]; cbn; [reflexivity |].
  destruct (String.eqb k k') eqn:E; cbn; rewrite ?E; auto.
Qed.

Lemma dict_get_del_other k k' d :
  k <> k' -> dict_get k' (dict_del k d) = dict_get k' d.
Proof.
  intros Hk. induction d as [|[k0 v0] d IH]; cbn; [reflexivity |].
  destruct (String.eqb_spec k k0) as [<- |]; cbn.
  - apply String.eqb_neq in Hk. now rewrite String.eqb_sym, Hk.
  - now rewrite IH.
Qed.

Lemma dict_get_In k v d : dict_get k d = Some v -> In (k, v) d.
Proof.
  induction d as [|[k' v'] d IH]; cbn; [discriminate |].
  destruct (String.eqb_spec k k') as [<- |]; intros H.
  - injection H as ->. now left.
  - right. now apply IH.
Qed.

Lemma dict_mem_keys k d : dict_mem k d = true <-> In k (dict_keys d).
Proof.
  unfold dict_mem. induction d as [|[k' v'] d IH]; cbn.
  - split; [discriminate | tauto].
  - destruct (String.eqb_spec k k') as [<- |]; [tauto |].
    rewrite IH. split; [tauto | intros [H | H]; [congruence | assumption]].
Qed.

Lemma In_dict_set k v d kv :
  In kv (dict_set k v d) -> kv = (k, v) \/ In kv d.
Proof.
  induction d as [|[k' v'] d IH]; cbn.
  - intros [H | []]. now left.
  - destruct (String.eqb k k'); cbn; intros [H | H]; auto.
    destruct (IH H); auto.
Qed.

Lemma In_dict_del k d kv : In kv (dict_del k d) -> In kv d /\ fst kv <> k.
Proof.
  induction d as [|[k' v'] d IH]; cbn; [tauto |].
  destruct (String.eqb_spec k k') as [<- |]; cbn.
  - intros H. destruct (IH H). auto.
  - intros [<- | H]; [split; [now left | cbn; congruence] |].
    destruct (IH H). auto.
Qed.

Lemma dict_keys_set_new k v d :
  dict_mem k d = false -> dict_keys (dict_set k v d) = List.app (dict_keys d) [k].
Proof.
  unfold dict_mem, dict_keys.
  induction d as [|[k' v'] d IH]; cbn; [reflexivity |].
  destruct (String.eqb k k'); [discriminate |]. intros H. cbn. now rewrite IH.
Qed.

Lemma dict_keys_set_old k v d :
  dict_mem k d = true -> dict_keys (dict_set k v d) = dict_keys d.
Proof.
  unfold dict_mem, dict_keys.
  induction d as [|[k' v'] d IH]; cbn; [discriminate |].
  destruct (String.eqb_spec k k') as [<- |]; [reflexivity |].
  intros H. cbn. now rewrite IH.
Qed.

Lemma dict_mem_set k k' v d :
  dict_mem k' (dict_set k v d) = String.eqb k' k || dict_mem k' d.
Proof.
  unfold dict_mem. destruct (String.eqb_spec k' k) as [-> | Hk].
  - now rewrite dict_get_set_same.
  - rewrite dict_get_set_other by congruence. reflexivity.
Qed.

Lemma dict_wf_set k v d : dict_wf d -> dict_wf (dict_set k v d).
Proof.
  unfold dict_wf. intros H. destruct (dict_mem k d) eqn:E.
  - now rewrite dict_keys_set_old.
  - rewrite dict_keys_set_new by assumption.
    apply NoDup_app; [assumption | repeat constructor; tauto |].
    intros x Hx [<- | []]. apply dict_mem_keys in Hx. congruence.
Qed.

Lemma dict_wf_del k d : dict_wf d -> dict_wf (dict_del k d).
Proof.
  unfold dict_wf. induction d as [|[k' v'] d IH]; cbn; [trivial |].
  intros H. inversion H as [|? ? Hn Hd]; subst.
  destruct (String.eqb k k'); [now apply IH |].
  cbn. constructor; [| now apply IH].
  intros Hin. apply Hn. unfold dict_keys in *.
  apply in_map_iff in Hin as (kv & Hk & Hin).
  apply In_dict_del in Hin as [Hin _]. apply in_map_iff. eauto.
Qed.

(** In a well-formed dict the listed binding is the one [dict_get] finds. *)
Lemma dict_wf_In_get k v d : dict_wf d -> In (k, v) d -> dict_get k d = Some v.
Proof.
  unfold dict_wf. induction d as [|[k' v'] d IH]; cbn; [tauto |].
  intros H Hin. inversion H as [|? ? Hn Hd]; subst.
  destruct (String.eqb_spec k k') as [<- |].
  - destruct Hin as [Heq | Hin]; [congruence |].
    exfalso. apply Hn. unfold dict_keys. apply in_map_iff. now exists (k, v).
  - destruct Hin as [Heq | Hin]; [congruence | now apply IH].
Qed.
End DictFacts.

(** *** sorted and join *)

Lemma insert_sorted_perm (x : string) (l : list string) :
  Permutation (insert_sorted x l) (x :: l).
Proof.
  induction l as [|y l IH]; cbn; [reflexivity |].
  destruct (String.leb x y); [reflexivity |].
  rewrite IH. apply perm_swap.
Qed.

Lemma sorted_perm (l : list string) : Permutation (sorted l) l.
Proof.
  induction l as [|x l IH]; cbn; [reflexivity |].
  rewrite insert_sorted_perm. now constructor.
Qed.

Lemma sorted_In (x : string) (l : list string) : In x (sorted l) <-> In x l.
Proof.
  split; apply Permutation_in; [| symmetry]; apply sorted_perm.
Qed.

Lemma total_length_perm (l l' : list string) :
  Permutation l l' -> total_length l = total_length l'.
Proof. unfold total_length. induction 1; cbn in *; lia. Qed.

Lemma total_length_app (l l' : list string) :
  total_length (List.app l l') = (total_length l + total_length l')%nat.
Proof. unfold total_length. induction l; cbn in *; lia. Qed.

Lemma join_cons (sep x y : string) (l : list string) :
  join sep (x :: y :: l) = x ++ sep ++ join sep (y :: l).
Proof. reflexivity. Qed.

Lemma join_length (sep : string) (l : list string) :
  String.length (join sep l)
  = (total_length l + pred (List.length l) * String.length sep)%nat.
Proof.
  induction l as [|x [|y l] IH]; [reflexivity | cbn; lia |].
  rewrite join_cons, !length_app, IH. unfold total_length. cbn [fold_right List.length pred]. lia.
Qed.

(** Two lists of parts that differ in exactly one part join differently. *)
Lemma join_map_differs (sep k : string) (f g : string -> string) (l : list string) :
  NoDup l -> In k l ->
  (forall n, n <> k -> f n = g n) -> f k <> g k ->
  join sep (map f l) <> join sep (map g l).
Proof.
  intros Hnd Hin Hfg Hk. unfold join.
  induction l as [|h t IH]; [destruct Hin |].
  inversion Hnd as [|? ? Hh Hnd']; subst.
  destruct (string_dec h k) as [-> | Hhk].
  - assert (Ht : map f t = map g t).
    { apply map_ext_in. intros n Hn. apply Hfg. intros ->. contradiction. }
    cbn [map]. rewrite Ht. fold (join sep (f k :: map g t)) (join sep (g k :: map g t)).
    destruct (map g t) as [|y r]; [exact Hk |]. rewrite !join_cons.
    intros E. apply Hk. exact (app_inv_tail _ _ _ E).
  - destruct Hin as [Hin | Hin]; [contradiction |].
    specialize (IH Hnd' Hin). cbn [map]. rewrite (Hfg h Hhk).
    destruct t as [|y r]; [destruct Hin |]. cbn [map] in *.
    fold (join sep (g h :: f y :: map f r)) (join sep (g h :: g y :: map g r)).
    rewrite !join_cons. intros E. apply IH.
    apply app_inv_head in E. now apply app_inv_head in E.
Qed.

(** *** substring tests and indicator counts *)

Lemma prefix_app (s t : string) : prefix s (s ++ t) = true.
Proof.
  induction s as [|a s IH]; cbn; [now destruct t |].
  destruct (ascii_dec a a); [exact IH | contradiction].
Qed.

Lemma str_in_self_app (s t : string) : str_in s (s ++ t) = true.
Proof.
  destruct s as [|a s]; [now destruct t |].
  cbn [append str_in]. change (String a (s ++ t)) with (String a s ++ t).
  now rewrite prefix_app.
Qed.

(** The text appended to a prefix is found in the whole. *)
Lemma str_in_app_r (p s : string) : str_in s (p ++ s) = true.
Proof.
  induction p as [|a p IH]; cbn [append].
  - rewrite <- (app_empty_r s) at 2. apply str_in_self_app.
  - cbn [str_in]. rewrite IH. apply orb_true_r.
Qed.

(** A positive count is a match of at least one indicator. *)
Lemma count_in_pos (l : list string) (q : string) :
  (count_in l q >? 0) = any_in l q.
Proof.
  unfold count_in, any_in. induction l as [|x l IH]; cbn; [reflexivity |].
  destruct (str_in x q); cbn; [reflexivity | exact IH].
Qed.

Lemma count_in_nonneg (l : list string) (q : string) : 0 <= count_in l q.
Proof. unfold count_in. lia. Qed.

End PyFacts.
Import PyFacts.

(** * Facts about the planner's methods *)

Section PlannerFacts.
Context {RT : Runtime}.

Lemma bind_ok {A B} (c : M A) (k : A -> M B) (w w' : World) (a : A) :
  c w = (Ok a, w') -> bind c k w = k a w'.
Proof. unfold bind. now intros ->. Qed.

Lemma bind_raise {A B} (c : M A) (k : A -> M B) (w w' : World) (e : exn) :
  c w = (Raise e, w') -> bind c k w = (Raise e, w').
Proof. unfold bind. now intros ->. Qed.

Lemma for_each_pure {A B} (g : A -> M B) (f : A -> B) (l : list A) (w : World) :
  (forall x, In x l -> g x w = (Ok (f x), w)) ->
  for_each g l w = (Ok (map f l), w).
Proof.
  induction l as [|x l IH]; intros H; cbn [for_each map]; [reflexivity |].
  unfold bind. rewrite (H x (or_introl eq_refl)).
  rewrite IH by (intros y Hy; apply H; now right). reflexivity.
Qed.

(** The fingerprint method computes [context_string] and raises nothing. *)
Lemma run_generate_skill_context (w : World) :
  _generate_skill_context w = (Ok (context_string (registry w)), w).
Proof.
  unfold _generate_skill_context, bind, get_self.
  rewrite (for_each_pure _ (fun name => name ++ ":" ++ version_of (registry w) name)).
  - reflexivity.
  - intros x Hx. apply sorted_In, dict_mem_keys in Hx.
    unfold dict_mem, version_of, registry in *.
    destruct (dict_get x (_registered_skills (self w))); [reflexivity | discriminate].
Qed.

Lemma run_generate_query_hash (w : World) :
  _generate_query_hash w = (Ok (query_key (registry w) (uif w)), w).
Proof. reflexivity. Qed.

Lemma run_is_cache_entry_valid (e : PlanCacheEntry) (w : World) :
  _is_cache_entry_valid e w
  = (Ok (entry_valid (self w) (time_now w) e), advance 1 w).
Proof.
  unfold _is_cache_entry_valid, bind, now, get_self, entry_valid, age_at, time_now.
  cbn [self fst snd advance].
  destruct (Qgtb _ _); [reflexivity |].
  rewrite run_generate_skill_context. cbn [negb andb].
  unfold registry. cbn [self advance].
  destruct (String.eqb _ _); reflexivity.
Qed.

(** The lookup, as one case analysis. *)
Lemma run_check_plan_cache (w : World) :
  _check_plan_cache w
  = let key := query_key (registry w) (uif w) in
    match dict_get key (cache w) with
    | None => (Ok None, w)
    | Some e =>
        if entry_valid (self w) (time_now w) e then
          let e' := with_usage_count e (usage_count e + 1) in
          (Ok (Some e'), with_cache (advance 1 w) (dict_set key e' (cache w)))
        else (Ok None, with_cache (advance 1 w) (dict_del key (cache w)))
    end.
Proof.
  unfold _check_plan_cache, bind. rewrite run_generate_query_hash.
  unfold get_self, cache. cbn zeta.
  destruct (dict_get _ _) as [e|]; [| reflexivity].
  rewrite run_is_cache_entry_valid.
  destruct (entry_valid _ _ _); reflexivity.
Qed.

Lemma run_get_default_fallback_plan (w : World) :
  _get_default_fallback_plan w = (Ok (default_plan (registry w)), w).
Proof.
  unfold _get_default_fallback_plan, bind, get_self, ret, default_plan, registry.
  destruct (filter _ _); reflexivity.
Qed.

(** The sweep reads the clock once per item and deletes what it flagged. *)
Lemma run_sweep (items : list (string * PlanCacheEntry)) (w : World) :
  for_each (fun item => valid <- _is_cache_entry_valid (snd item) ;;
                        ret (fst item, valid)) items w
  = (Ok (sweep_flags (self w) (clock w) (ticks w) items),
     advance (List.length items) w).
Proof.
  revert w. induction items as [|item items IH]; intros w; cbn [for_each].
  - destruct w; reflexivity.
  - erewrite bind_ok;
      [| erewrite bind_ok; [reflexivity | apply run_is_cache_entry_valid]].
    erewrite bind_ok; [| apply IH].
    unfold ret, advance, time_now.
    cbn [self uif clock ticks List.length sweep_flags Nat.add].
    do 2 f_equal. lia.
Qed.

Lemma run_del_keys (keys : list string) (w : World) :
  exists l, for_each del_cache_key keys w
            = (Ok l, with_cache w (del_keys keys (cache w))).
Proof.
  revert w. induction keys as [|k keys IH]; intros w; cbn [for_each].
  - exists []. destruct w as [[] ? ? ?]; reflexivity.
  - unfold bind at 1. unfold del_cache_key at 1, bind, get_self, set_self.
    destruct (IH (with_self w (with_plan_cache (self w)
                                 (dict_del k (_plan_cache (self w)))))) as [l Hl].
    rewrite Hl. exists (tt :: l). reflexivity.
Qed.

Lemma run_cleanup_cache (w : World) :
  _cleanup_cache w
  = (Ok tt,
     with_cache (advance (List.length (cache w)) w)
       (del_keys (expired_keys (sweep_flags (self w) (clock w) (ticks w) (cache w)))
                 (cache w))).
Proof.
  unfold _cleanup_cache, bind, get_self. rewrite run_sweep.
  destruct (run_del_keys
              (expired_keys (sweep_flags (self w) (clock w) (ticks w) (cache w)))
              (advance (List.length (cache w)) w)) as [l Hl].
  unfold expired_keys, cache in *. rewrite Hl. reflexivity.
Qed.

Lemma entry_valid_iff (p : DynamicPlanner) (t : Z) (e : PlanCacheEntry) :
  entry_valid p t e = true
  <-> (age_at t e <= plan_cache_ttl (_config p))%Q
      /\ skill_context e = context_string (_registered_skills p).
Proof.
  unfold entry_valid, Qgtb. rewrite andb_true_iff, negb_involutive.
  now rewrite Qle_bool_iff, String.eqb_eq.
Qed.

Lemma entry_invalid_iff (p : DynamicPlanner) (t : Z) (e : PlanCacheEntry) :
  entry_valid p t e = false
  <-> (plan_cache_ttl (_config p) < age_at t e)%Q
      \/ skill_context e <> context_string (_registered_skills p).
Proof.
  rewrite <- not_true_iff_false, entry_valid_iff. split.
  - intros Hne.
    destruct (Qlt_le_dec (plan_cache_ttl (_config p)) (age_at t e)) as [Hlt | Hle];
      [now left | right].
    intros Heq. apply Hne. now split.
  - intros [Hlt | Hne] [Hle Heq]; [| contradiction].
    exact (Qlt_not_le _ _ Hlt Hle).
Qed.

(** A hit of [create_plan]: what comes back and what is written. *)
Lemma create_plan_hit (w : World) (e : PlanCacheEntry) :
  let w1 := advance 1 w in
  let key := query_key (registry w) (uif w) in
  enable_plan_caching (_config (self w)) = true ->
  dict_get key (cache w) = Some e ->
  entry_valid (self w) (time_now w1) e = true ->
  let e' := with_usage_count e (usage_count e + 1) in
  create_plan w
  = (Ok {| plan := ce_plan e; confidence := ce_confidence e;
           reasoning := PStr ("Retrieved from cache (used "
                              ++ str_of_int (usage_count e + 1) ++ " times)");
           cache_hit := true;
           generation_time :=
             total_seconds (clock w (S (S (ticks w))) - time_now w);
           fallback_used := false |},
     advance 1 (with_cache (advance 1 w1) (dict_set key e' (cache w)))).
Proof.
  intros w1 key Hc Hk Hv e'.
  unfold create_plan. erewrite bind_ok by reflexivity.
  unfold try_except, create_plan_try.
  erewrite bind_ok by reflexivity. cbn [self advance].
  rewrite Hc. erewrite bind_ok.
  2:{ rewrite run_check_plan_cache. cbn zeta.
      change (registry (advance 1 w)) with (registry w).
      change (uif (advance 1 w)) with (uif w).
      change (cache (advance 1 w)) with (cache w).
      fold key. rewrite Hk. fold w1.
      change (self w1) with (self w). rewrite Hv. reflexivity. }
  reflexivity.
Qed.

(** ** The cache lookup (C3) *)

(** C3, with the boundary as the code has it.  A lookup returns an entry
    only if the entry's age is at most the TTL (not greater than it:
    an age equal to the TTL is still valid) and its registry fingerprint
    equals the current one; the returned entry is the cached one with
    its usage counter incremented by exactly 1, and is written back.
    An entry found invalid on access (age greater than the TTL, or a
    different fingerprint) is evicted and no entry is returned; so an
    entry created at time T is not a hit at any reading later than
    T + ttl.  On a hit [create_plan] returns the cached plan and
    confidence with [cache_hit = true]. *)
Theorem C3_cache_lookup (w : World) :
  let key := query_key (registry w) (uif w) in
  let ttl := plan_cache_ttl (_config (self w)) in
  (forall e' w',
      _check_plan_cache w = (Ok (Some e'), w') ->
      exists e,
        dict_get key (cache w) = Some e
        /\ (age_at (time_now w) e <= ttl)%Q
        /\ skill_context e = context_string (registry w)
        /\ e' = with_usage_count e (usage_count e + 1)
        /\ dict_get key (cache w') = Some e')
  /\ (forall e,
         dict_get key (cache w) = Some e ->
         (ttl < age_at (time_now w) e)%Q
         \/ skill_context e <> context_string (registry w) ->
         exists w', _check_plan_cache w = (Ok None, w')
                    /\ dict_get key (cache w') = None)
  /\ (forall e,
         enable_plan_caching (_config (self w)) = true ->
         dict_get key (cache w) = Some e ->
         (age_at (clock w (S (ticks w))) e <= ttl)%Q ->
         skill_context e = context_string (registry w) ->
         exists r w',
           create_plan w = (Ok r, w')
           /\ plan r = ce_plan e /\ confidence r = ce_confidence e
           /\ cache_hit r = true
           /\ dict_get key (cache w')
              = Some (with_usage_count e (usage_count e + 1))).
Proof.
  intros key ttl. repeat split.
  - intros e' w' H. rewrite run_check_plan_cache in H. cbn zeta in H. fold key in H.
    destruct (dict_get key (cache w)) as [e|]; [| discriminate].
    destruct (entry_valid (self w) (time_now w) e) eqn:Hv; [| discriminate].
    injection H as <- <-. apply entry_valid_iff in Hv as [Hage Hctx].
    exists e. repeat split; try assumption.
    apply dict_get_set_same.
  - intros e Hk Hbad. apply entry_invalid_iff in Hbad.
    rewrite run_check_plan_cache. cbn zeta. fold key. rewrite Hk, Hbad.
    eexists. split; [reflexivity |]. apply dict_get_del_same.
  - intros e Hc Hk Hage Hctx.
    assert (Hv : entry_valid (self w) (time_now (advance 1 w)) e = true)
      by (apply entry_valid_iff; now split).
    rewrite (create_plan_hit w e Hc Hk Hv).
    do 2 eexists. split; [reflexivity |]. repeat split.
    apply dict_get_set_same.
Qed.

(** ** The rule-based planner (C7, C8, C9) *)

Lemma determine_retrieval_mode_total (q : string) (w : World) :
  exists mode, _determine_retrieval_mode q w = (Ok mode, w).
Proof.
  unfold _determine_retrieval_mode, bind, get_self, ret.
  repeat match goal with
         | |- context [if ?b then _ else _] => destruct b
         end; eexists; reflexivity.
Qed.

Lemma determine_graph_depth_total (q : string) (w : World) :
  exists depth, _determine_graph_depth q w = (Ok depth, w) /\ 1 <= depth <= 4.
Proof.
  unfold _determine_graph_depth, ret.
  repeat match goal with
         | |- context [if ?b then _ else _] => destruct b
         end; eexists; (split; [reflexivity | lia]).
Qed.

(** The search context the retrieval stage leaves in the request, from
    the one it found ([sc]), the mode and the depth. *)
Lemma run_retrieval_stage (q mode : string) (depth : Z) (w : World)
  (sc : list (string * pyval)) :
  _determine_retrieval_mode q w = (Ok mode, w) ->
  _determine_graph_depth q w = (Ok depth, w) ->
  dict_mem "MemoryRetrievalSkill" (registry w) = true ->
  dict_get "search_context" (intermediate_data (uif w)) = Some (PDict sc)
  \/ (dict_get "search_context" (intermediate_data (uif w)) = None /\ sc = []) ->
  let sc1 := dict_set "retrieval_mode" (PStr mode) sc in
  let sc2 :=
    if str_mem mode ["GRAPH"; "HYBRID"] && _graph_database (self w)
    then dict_set "max_results" (PInt 15)
           (dict_set "graph_depth" (PInt depth) sc1)
    else sc1 in
  retrieval_stage q w
  = (Ok (["MemoryRetrievalSkill"],
         ["Added " ++ lower mode ++ " memory retrieval for context"]),
     with_uif w (with_intermediate_data (uif w)
                   (dict_set "search_context" (PDict sc2)
                             (intermediate_data (uif w))))).
Proof.
  intros Hmode Hdepth Hreg Hsc sc1 sc2.
  unfold retrieval_stage, bind at 1 2, get_uif, get_self.
  unfold registry in Hreg. rewrite Hreg.
  erewrite bind_ok by exact Hmode.
  assert (Hfound : match dict_get "search_context" (intermediate_data (uif w)) with
                   | Some v => v
                   | None => PDict []
                   end = PDict sc)
    by (destruct Hsc as [-> | [-> ->]]; reflexivity).
  rewrite Hfound. erewrite bind_ok by reflexivity. fold sc1.
  subst sc2. destruct (str_mem mode ["GRAPH"; "HYBRID"] && _graph_database (self w)).
  - erewrite bind_ok.
    2:{ erewrite bind_ok by exact Hdepth. erewrite bind_ok by reflexivity.
        reflexivity. }
    reflexivity.
  - reflexivity.
Qed.

(** A search context that is no dict makes the stage raise [TypeError]
    before anything is written. *)
Lemma retrieval_stage_raises (q : string) (w : World) (v : pyval) :
  dict_mem "MemoryRetrievalSkill" (registry w) = true ->
  dict_get "search_context" (intermediate_data (uif w)) = Some v ->
  (forall sc, v <> PDict sc) ->
  retrieval_stage q w
  = (Raise (Exn TypeError
              match v with
              | PList _ => "list indices must be integers or slices, not str"
              | _ => "'" ++ type_name v
                     ++ "' object does not support item assignment"
              end),
     w).
Proof.
  intros Hreg Hv Hnd.
  destruct (determine_retrieval_mode_total q w) as [mode Hmode].
  unfold retrieval_stage, bind at 1 2, get_uif, get_self.
  unfold registry in Hreg. rewrite Hreg.
  erewrite bind_ok by exact Hmode. rewrite Hv.
  apply bind_raise.
  destruct v as [ | | | | | |d]; try reflexivity. now elim (Hnd d).
Qed.

Lemma frame_refl (w : World) : frame w w.
Proof. unfold frame. tauto. Qed.

Lemma frame_trans (w1 w2 w3 : World) : frame w1 w2 -> frame w2 w3 -> frame w1 w3.
Proof. unfold frame. intuition congruence. Qed.

(** The three ways the retrieval stage can end. *)
Lemma retrieval_stage_cases (q : string) (w : World) :
  (dict_mem "MemoryRetrievalSkill" (registry w) = true
   /\ exists parts w', retrieval_stage q w = (Ok (["MemoryRetrievalSkill"], parts), w')
                       /\ frame w w')
  \/ (dict_mem "MemoryRetrievalSkill" (registry w) = false
      /\ retrieval_stage q w = (Ok ([], []), w))
  \/ (exists e, retrieval_stage q w = (Raise e, w)).
Proof.
  destruct (dict_mem "MemoryRetrievalSkill" (registry w)) eqn:Hreg.
  - destruct (determine_retrieval_mode_total q w) as [mode Hmode].
    destruct (determine_graph_depth_total q w) as (depth & Hdepth & _).
    destruct (dict_get "search_context" (intermediate_data (uif w))) as [v|] eqn:Hv.
    + destruct v as [ | | | | | |sc];
        try (right; right; eexists; apply (retrieval_stage_raises q w _ Hreg Hv);
             discriminate).
      left. split; [reflexivity |]. do 2 eexists. split.
      * apply (run_retrieval_stage q mode depth w sc Hmode Hdepth Hreg). now left.
      * unfold frame. cbn. tauto.
    + left. split; [reflexivity |]. do 2 eexists. split.
      * apply (run_retrieval_stage q mode depth w [] Hmode Hdepth Hreg). now right.
      * unfold frame. cbn. tauto.
  - right. left. split; [reflexivity |].
    unfold retrieval_stage, bind, get_uif, get_self. unfold registry in Hreg.
    now rewrite Hreg.
Qed.

(** Case analysis on the registration tests and the indicator tests of
    the later stages, then membership in the explicit plan. *)
Ltac split_stages :=
  repeat match goal with
         | |- context [dict_mem ?n ?r] =>
             let E := fresh "E" in destruct (dict_mem n r) eqn:E
         end;
  rewrite ?andb_true_r, ?andb_false_r;
  repeat match goal with
         | |- context [if ?b then _ else _] => destruct b
         end.

Ltac registered_names :=
  let x := fresh "x" in
  let Hx := fresh "Hx" in
  intros x Hx; cbn in Hx;
  repeat (destruct Hx as [<- | Hx]; [assumption |]); contradiction.

(** Stages 1-5: every name selected is registered; the stages select
    nothing only when neither core skill is registered. *)
Lemma fallback_stages_spec (w w' : World) (o : outcome (list string * list string)) :
  fallback_stages w = (o, w') ->
  frame w w'
  /\ match o with
     | Ok st =>
         all_registered (registry w) (fst st)
         /\ (fst st = [] ->
             dict_mem "MemoryRetrievalSkill" (registry w) = false
             /\ dict_mem "ResponseGenerationSkill" (registry w) = false)
     | Raise _ => True
     end.
Proof.
  unfold fallback_stages. unfold bind at 1, get_uif.
  set (q := lower (input_query (uif w))).
  destruct (retrieval_stage_cases q w)
    as [(Hreg & parts & w1 & Hrun & Hfr) | [(Hreg & Hrun) | (e & Hrun)]].
  - erewrite bind_ok by exact Hrun. unfold bind, get_self, ret.
    intros H. injection H as <- <-. split; [exact Hfr |].
    destruct Hfr as (Hself & _). unfold registry in *. rewrite Hself.
    cbn [fst snd]. split.
    + split_stages; registered_names.
    + split_stages; discriminate.
  - erewrite bind_ok by exact Hrun. unfold bind, get_self, ret.
    intros H. injection H as <- <-. split; [apply frame_refl |].
    cbn [fst snd]. unfold registry in *. split.
    + split_stages; registered_names.
    + rewrite Hreg. split_stages; cbn; (discriminate || tauto).
  - erewrite bind_raise by exact Hrun.
    intros H. injection H as <- <-. split; [apply frame_refl | exact I].
Qed.

Lemma default_plan_cases (reg : list (string * Skill)) :
  default_plan reg
  = match dict_mem "MemoryRetrievalSkill" reg,
          dict_mem "ResponseGenerationSkill" reg with
    | true, true => ["MemoryRetrievalSkill"; "ResponseGenerationSkill"]
    | true, false => ["MemoryRetrievalSkill"]
    | false, _ => ["ResponseGenerationSkill"]
    end.
Proof.
  unfold default_plan. cbn [filter].
  destruct (dict_mem "MemoryRetrievalSkill" reg),
    (dict_mem "ResponseGenerationSkill" reg); reflexivity.
Qed.

Lemma default_plan_ok (reg : list (string * Skill)) :
  plan_ok reg (default_plan reg) /\ default_plan reg <> [].
Proof.
  rewrite default_plan_cases.
  destruct (dict_mem "MemoryRetrievalSkill" reg) eqn:E1,
    (dict_mem "ResponseGenerationSkill" reg) eqn:E2;
    (split; [| discriminate]);
    try (right; reflexivity); left; registered_names.
Qed.

(** The rule-based strategy: it touches the request's data bag only, and
    what it returns is a non-empty plan at confidence 0.6. *)
Lemma fallback_plan_spec (w w' : World) (o : outcome PlanGenerationResult) :
  _generate_fallback_plan w = (o, w') ->
  frame w w'
  /\ match o with
     | Ok r => rule_based_result (registry w) r
     | Raise _ => True
     end.
Proof.
  unfold _generate_fallback_plan. unfold bind at 1.
  destruct (fallback_stages w) as [[st | e] w1] eqn:Hst;
    apply fallback_stages_spec in Hst as [Hfr Hst].
  - assert (Hreg : registry w1 = registry w)
      by (unfold registry; now destruct Hfr as [-> _]).
    destruct st as [pl parts]. cbn [fst] in *. destruct Hst as [Hall Hnil].
    destruct pl as [|name pl].
    + erewrite bind_ok
        by (erewrite bind_ok by apply run_get_default_fallback_plan; reflexivity).
      intros H. injection H as <- <-. split; [exact Hfr |].
      unfold rule_based_result. cbn. rewrite Hreg.
      destruct (default_plan_ok (registry w)). tauto.
    + erewrite bind_ok by reflexivity.
      intros H. injection H as <- <-. split; [exact Hfr |].
      unfold rule_based_result, plan_ok. cbn. repeat split; try discriminate.
      now left.
  - intros H. injection H as <- <-. split; [exact Hfr | exact I].
Qed.

(** The world a successful rule-based run leaves is the one its
    retrieval stage left. *)
Lemma fallback_plan_world (w w' : World) (r : PlanGenerationResult) :
  _generate_fallback_plan w = (Ok r, w') ->
  exists st, retrieval_stage (lower (input_query (uif w))) w = (Ok st, w').
Proof.
  unfold _generate_fallback_plan. unfold bind at 1.
  destruct (fallback_stages w) as [[st | e] w1] eqn:Hst; [| discriminate].
  intros Hrun.
  assert (Hw : w' = w1).
  { destruct (fst st).
    - erewrite bind_ok in Hrun
        by (erewrite bind_ok by apply run_get_default_fallback_plan; reflexivity).
      now injection Hrun as _ <-.
    - erewrite bind_ok in Hrun by reflexivity. now injection Hrun as _ <-. }
  subst w'. clear Hrun.
  unfold fallback_stages in Hst. unfold bind at 1, get_uif in Hst.
  destruct (retrieval_stage (lower (input_query (uif w))) w)
    as [[st0 | e] w2] eqn:Hret.
  - exists st0. erewrite bind_ok in Hst by exact Hret.
    unfold bind, get_self, ret in Hst. now injection Hst as _ <-.
  - erewrite bind_raise in Hst by exact Hret. discriminate.
Qed.

(** What a successful rule-based run has written, when the retrieval
    skill is registered. *)
Lemma fallback_plan_search_context (w w' : World) (r : PlanGenerationResult)
  (mode : string) (depth : Z) :
  let q := lower (input_query (uif w)) in
  dict_mem "MemoryRetrievalSkill" (registry w) = true ->
  _determine_retrieval_mode q w = (Ok mode, w) ->
  _determine_graph_depth q w = (Ok depth, w) ->
  _generate_fallback_plan w = (Ok r, w') ->
  exists sc,
    (dict_get "search_context" (intermediate_data (uif w)) = Some (PDict sc)
     \/ (dict_get "search_context" (intermediate_data (uif w)) = None /\ sc = []))
    /\ dict_get "search_context" (intermediate_data (uif w'))
       = Some (PDict
                 (let sc1 := dict_set "retrieval_mode" (PStr mode) sc in
                  if str_mem mode ["GRAPH"; "HYBRID"] && _graph_database (self w)
                  then dict_set "max_results" (PInt 15)
                         (dict_set "graph_depth" (PInt depth) sc1)
                  else sc1)).
Proof.
  intros q Hreg Hmode Hdepth Hrun.
  apply fallback_plan_world in Hrun as [st Hst]. fold q in Hst.
  destruct (dict_get "search_context" (intermediate_data (uif w))) as [v|] eqn:Hv.
  - destruct v as [ | | | | | |sc];
      try (rewrite (retrieval_stage_raises q w _ Hreg Hv) in Hst by discriminate;
           discriminate).
    exists sc. split; [now left |].
    rewrite (run_retrieval_stage q mode depth w sc Hmode Hdepth Hreg) in Hst
      by now left.
    injection Hst as _ <-. cbn [uif with_uif intermediate_data with_intermediate_data].
    apply dict_get_set_same.
  - exists []. split; [now right |].
    rewrite (run_retrieval_stage q mode depth w [] Hmode Hdepth Hreg) in Hst
      by now right.
    injection Hst as _ <-. cbn [uif with_uif intermediate_data with_intermediate_data].
    apply dict_get_set_same.
Qed.

(** C7.  The retrieval-mode classification of a (lower-cased) query:
    without a graph backend the mode is VECTOR whatever the scores;
    with one, HYBRID if the hybrid score is positive or both the graph
    and the vector score are, otherwise GRAPH if the graph score exceeds
    the vector score, otherwise VECTOR if the vector score is positive,
    otherwise AUTO.  The rule-based planner writes that mode into the
    request's search context when the retrieval skill is registered. *)
Theorem C7_retrieval_mode (w : World) (q : string) :
  let graph_score := count_in graph_indicators q in
  let vector_score := count_in vector_indicators q in
  let hybrid_score := count_in hybrid_indicators q in
  let hybrid := hybrid_score > 0 \/ (graph_score > 0 /\ vector_score > 0) in
  exists mode,
    _determine_retrieval_mode q w = (Ok mode, w)
    /\ (_graph_database (self w) = false -> mode = "VECTOR")
    /\ (_graph_database (self w) = true ->
        (hybrid -> mode = "HYBRID")
        /\ (~ hybrid -> graph_score > vector_score -> mode = "GRAPH")
        /\ (~ hybrid -> ~ graph_score > vector_score -> vector_score > 0 ->
            mode = "VECTOR")
        /\ (~ hybrid -> ~ graph_score > vector_score -> ~ vector_score > 0 ->
            mode = "AUTO"))
    /\ (q = lower (input_query (uif w)) ->
        dict_mem "MemoryRetrievalSkill" (registry w) = true ->
        forall r w',
          _generate_fallback_plan w = (Ok r, w') ->
          exists sc,
            dict_get "search_context" (intermediate_data (uif w')) = Some (PDict sc)
            /\ dict_get "retrieval_mode" sc = Some (PStr mode)).
Proof.
  intros graph_score vector_score hybrid_score hybrid.
  destruct (determine_retrieval_mode_total q w) as [mode Hmode].
  exists mode. split; [exact Hmode |]. split; [| split].
  - intros Hg. unfold _determine_retrieval_mode, bind, get_self, ret in Hmode.
    rewrite Hg in Hmode. cbn [negb] in Hmode. congruence.
  - intros Hg. unfold _determine_retrieval_mode, bind, get_self, ret in Hmode.
    rewrite Hg in Hmode. cbn [negb] in Hmode.
    fold graph_score vector_score hybrid_score in Hmode. subst hybrid.
    destruct (Z.gtb_spec hybrid_score 0), (Z.gtb_spec graph_score 0),
      (Z.gtb_spec vector_score 0), (Z.gtb_spec graph_score vector_score);
      cbn [orb andb] in Hmode; injection Hmode as <-;
      repeat split; intros; try reflexivity; lia.
  - intros -> Hreg r w' Hrun.
    destruct (determine_graph_depth_total (lower (input_query (uif w))) w)
      as (depth & Hdepth & _).
    destruct (fallback_plan_search_context w w' r mode depth Hreg Hmode Hdepth Hrun)
      as (sc & _ & Hsc).
    eexists. split; [exact Hsc |]. cbn zeta.
    destruct (_ && _);
      rewrite ?dict_get_set_other by discriminate; apply dict_get_set_same.
Qed.

Lemma str_mem_graph_hybrid (mode : string) :
  str_mem mode ["GRAPH"; "HYBRID"] = true <-> mode = "GRAPH" \/ mode = "HYBRID".
Proof.
  unfold str_mem. cbn [existsb]. rewrite orb_false_r, orb_true_iff.
  now rewrite !String.eqb_eq.
Qed.

Lemma graph_mode_needs_backend (q mode : string) (w : World) :
  _determine_retrieval_mode q w = (Ok mode, w) ->
  mode = "GRAPH" \/ mode = "HYBRID" -> _graph_database (self w) = true.
Proof.
  intros Hmode Hgh. destruct (_graph_database (self w)) eqn:Hg; [reflexivity |].
  unfold _determine_retrieval_mode, bind, get_self, ret in Hmode.
  rewrite Hg in Hmode. cbn [negb] in Hmode. injection Hmode as <-.
  destruct Hgh; discriminate.
Qed.

(** C8.  The traversal depth of a (lower-cased) query is 4 if any deep
    indicator matches, else 3 if any multi-hop indicator matches, else 1
    if any simple indicator matches, else 2; it lies in 1..4.  The
    rule-based planner computes and writes it only when the retrieval
    mode it chose is GRAPH or HYBRID: under any other mode the search
    context's depth entry is what it was. *)
Theorem C8_graph_depth (w : World) (q : string) :
  let deep := any_in deep_indicators q in
  let multi_hop := any_in depth_multi_hop_indicators q in
  let simple := any_in simple_indicators q in
  exists depth,
    _determine_graph_depth q w = (Ok depth, w)
    /\ 1 <= depth <= 4
    /\ depth = (if deep then 4 else if multi_hop then 3 else if simple then 1 else 2)
    /\ (q = lower (input_query (uif w)) ->
        dict_mem "MemoryRetrievalSkill" (registry w) = true ->
        forall mode r w',
          _determine_retrieval_mode q w = (Ok mode, w) ->
          _generate_fallback_plan w = (Ok r, w') ->
          exists sc sc',
            (dict_get "search_context" (intermediate_data (uif w)) = Some (PDict sc)
             \/ (dict_get "search_context" (intermediate_data (uif w)) = None
                 /\ sc = []))
            /\ dict_get "search_context" (intermediate_data (uif w'))
               = Some (PDict sc')
            /\ (mode = "GRAPH" \/ mode = "HYBRID" ->
                dict_get "graph_depth" sc' = Some (PInt depth))
            /\ (mode <> "GRAPH" -> mode <> "HYBRID" ->
                dict_get "graph_depth" sc' = dict_get "graph_depth" sc)).
Proof.
  intros deep multi_hop simple.
  destruct (determine_graph_depth_total q w) as (depth & Hdepth & Hrange).
  exists depth. split; [exact Hdepth |]. split; [exact Hrange |]. split.
  - unfold _determine_graph_depth, ret in Hdepth.
    rewrite !count_in_pos in Hdepth. fold deep multi_hop simple in Hdepth.
    destruct deep, multi_hop, simple; now injection Hdepth as <-.
  - intros -> Hreg mode r w' Hmode Hrun.
    destruct (fallback_plan_search_context w w' r mode depth Hreg Hmode Hdepth Hrun)
      as (sc & Hold & Hnew).
    exists sc. eexists. split; [exact Hold |]. split; [exact Hnew |].
    cbn zeta. split.
    + intros Hgh.
      rewrite (proj2 (str_mem_graph_hybrid mode) Hgh).
      rewrite (graph_mode_needs_backend _ _ _ Hmode Hgh). cbn [andb].
      rewrite dict_get_set_other by discriminate. apply dict_get_set_same.
    + intros Hg Hh.
      assert (Hno : str_mem mode ["GRAPH"; "HYBRID"] = false).
      { apply not_true_iff_false. rewrite str_mem_graph_hybrid. tauto. }
      rewrite Hno. cbn [andb]. apply dict_get_set_other. discriminate.
Qed.

(** C9, with the last case as the code has it.  The default plan lists
    the memory-retrieval skill and the response-generation skill, in
    that order, each if registered; if neither is registered it is the
    bare response-generation skill name, not an empty plan.  The
    rule-based planner's stages 1-5 select nothing only when neither of
    the two is registered, so whenever it falls back to the default
    plan, its plan is that single name. *)
Theorem C9_default_plan (w : World) :
  (exists pl,
      _get_default_fallback_plan w = (Ok pl, w)
      /\ pl = match dict_mem "MemoryRetrievalSkill" (registry w),
                    dict_mem "ResponseGenerationSkill" (registry w) with
              | true, true => ["MemoryRetrievalSkill"; "ResponseGenerationSkill"]
              | true, false => ["MemoryRetrievalSkill"]
              | false, _ => ["ResponseGenerationSkill"]
              end)
  /\ (forall st w1,
         fallback_stages w = (Ok st, w1) -> fst st = [] ->
         dict_mem "MemoryRetrievalSkill" (registry w) = false
         /\ dict_mem "ResponseGenerationSkill" (registry w) = false
         /\ exists r,
              _generate_fallback_plan w = (Ok r, w1)
              /\ plan r = ["ResponseGenerationSkill"]
              /\ reasoning r = PStr "Used default fallback plan"
              /\ confidence r = PNum (6 # 10) /\ fallback_used r = true).
Proof.
  split.
  - exists (default_plan (registry w)). split.
    + apply run_get_default_fallback_plan.
    + apply default_plan_cases.
  - intros st w1 Hst Hnil.
    pose proof (fallback_stages_spec _ _ _ Hst) as [Hfr [_ Hnone]].
    destruct (Hnone Hnil) as [Hmr Hrg]. split; [exact Hmr |]. split; [exact Hrg |].
    unfold _generate_fallback_plan.
    erewrite bind_ok by exact Hst. rewrite Hnil.
    erewrite bind_ok
      by (erewrite bind_ok by apply run_get_default_fallback_plan; reflexivity).
    eexists. split; [reflexivity |]. cbn.
    assert (Hreg : registry w1 = registry w)
      by (unfold registry; now destruct Hfr as [-> _]).
    rewrite Hreg, default_plan_cases, Hmr. repeat split.
Qed.

(** ** The response validator (C2) *)

Lemma all_skills_exist_cases (reg : list (string * Skill)) (l : list pyval) :
  match all_skills_exist reg l with
  | Ok true => names_registered reg l
  | Ok false => ~ names_registered reg l
  | Raise e => ~ names_registered reg l /\ exc_type e = TypeError
  end.
Proof.
  unfold names_registered.
  induction l as [|x l IH]; cbn [all_skills_exist]; [intros x [] |].
  assert (Hbad : (forall s, x <> PStr s) ->
                 ~ (forall y, In y (x :: l) ->
                              exists s, y = PStr s /\ dict_mem s reg = true)).
  { intros Hx H. destruct (H x (or_introl eq_refl)) as (s & -> & _).
    now apply (Hx s). }
  destruct x as [ | | | |s| | ]; try (split; [| reflexivity]);
    try (apply Hbad; discriminate).
  destruct (dict_mem s reg) eqn:Hs.
  - destruct (all_skills_exist reg l) as [[|]|e].
    + intros y [<- | Hy]; [now exists s | now apply IH].
    + intros H. apply IH. intros y Hy. apply H. now right.
    + destruct IH as [IH He]. split; [| exact He].
      intros H. apply IH. intros y Hy. apply H. now right.
  - intros H. destruct (H (PStr s) (or_introl eq_refl)) as (s' & [= <-] & Hs').
    congruence.
Qed.

Lemma plan_accepted_iff (p : DynamicPlanner) (v : pyval) :
  plan_accepted p v = true
  <-> exists l, has_plan_list v l
                /\ names_registered (_registered_skills p) l
                /\ Z.of_nat (List.length l) <= max_plan_length (_config p).
Proof.
  unfold plan_accepted, has_plan_list. split.
  - destruct v as [ | | | | | |d]; try discriminate.
    destruct (dict_get "plan" d) as [[ | | | | |l| ]|] eqn:Hd; try discriminate.
    pose proof (all_skills_exist_cases (_registered_skills p) l) as Hc.
    destruct (all_skills_exist _ l) as [[|]|e]; try discriminate.
    intros Hlen. apply negb_true_iff in Hlen.
    exists l. repeat split; [now exists d | exact Hc |].
    destruct (Z.gtb_spec (Z.of_nat (List.length l)) (max_plan_length (_config p)));
      [discriminate | lia].
  - intros (l & (d & -> & Hd) & Hreg & Hlen). rewrite Hd.
    pose proof (all_skills_exist_cases (_registered_skills p) l) as Hc.
    destruct (all_skills_exist _ l) as [[|]|e]; try tauto.
    apply negb_true_iff.
    destruct (Z.gtb_spec (Z.of_nat (List.length l)) (max_plan_length (_config p)));
      [lia | reflexivity].
Qed.

(** The validator answers [plan_accepted] or raises [TypeError]; it
    reads the planner and writes nothing. *)
Lemma run_validate_generated_plan (v : pyval) (w : World) :
  (_validate_generated_plan v w = (Ok (plan_accepted (self w) v), w))
  \/ (plan_accepted (self w) v = false
      /\ exists e, _validate_generated_plan v w = (Raise e, w)
                   /\ exc_type e = TypeError).
Proof.
  unfold _validate_generated_plan, plan_accepted, bind, get_self, lift, ret.
  destruct v as [ | | | | | |d]; try (now left).
  destruct (dict_get "plan" d) as [[ | | | | |l| ]|]; try (now left).
  pose proof (all_skills_exist_cases (_registered_skills (self w)) l) as Hc.
  destruct (all_skills_exist _ l) as [[|]|e]; cbn [negb].
  - left. now destruct (_ >? _).
  - now left.
  - right. split; [reflexivity |]. exists e. now split.
Qed.

(** The parser as one expression: it writes nothing, and raises only
    what [json.loads] raises outside its [except] clause. *)
Lemma run_parse_llm_response (response : string) (w : World) :
  _parse_llm_response response w
  = if brace_pair response
    then match json_loads (json_text response) with
         | Ok v => (Ok (if plan_accepted (self w) v then Some v else None), w)
         | Raise e => if catching [JSONDecodeError; KeyError; TypeError] e
                      then (Ok None, w)
                      else (Raise e, w)
         end
    else (Ok None, w).
Proof.
  unfold _parse_llm_response, try_except. cbv zeta.
  change ((find "{" (strip response) >=? 0)
          && (rfind "}" (strip response) + 1 >? find "{" (strip response)))
    with (brace_pair (strip response)).
  change (slice (strip response) (find "{" (strip response))
                (rfind "}" (strip response) + 1))
    with (json_text (strip response)).
  rewrite brace_pair_strip.
  destruct (brace_pair response) eqn:Hp; [| reflexivity].
  rewrite (json_text_strip _ Hp).
  destruct (json_loads (json_text response)) as [v | e].
  - erewrite bind_ok by reflexivity.
    destruct (run_validate_generated_plan v w) as [Hrun | (Hacc & e & Hrun & He)].
    + erewrite bind_ok by exact Hrun.
      destruct (plan_accepted (self w) v); reflexivity.
    + erewrite bind_raise by exact Hrun. rewrite Hacc.
      unfold catching. rewrite He. reflexivity.
  - erewrite bind_raise by reflexivity.
    destruct (catching [JSONDecodeError; KeyError; TypeError] e); reflexivity.
Qed.

(** The parser returns a candidate only if [json.loads] returned it and
    it passes the validator. *)
Lemma parse_some_inv (response : string) (w w' : World) (v : pyval) :
  _parse_llm_response response w = (Ok (Some v), w') ->
  brace_pair response = true /\ json_loads (json_text response) = Ok v
  /\ plan_accepted (self w) v = true /\ w' = w.
Proof.
  rewrite run_parse_llm_response.
  destruct (brace_pair response); [| discriminate].
  destruct (json_loads (json_text response)) as [v0 | e].
  - destruct (plan_accepted (self w) v0) eqn:Hacc; intros [= <- <-]; now repeat split.
  - destruct (catching _ e); discriminate.
Qed.

Lemma parse_world (response : string) (w w' : World) (o : outcome (option pyval)) :
  _parse_llm_response response w = (o, w') -> w' = w.
Proof.
  rewrite run_parse_llm_response.
  destruct (brace_pair response); [| now intros [= _ <-]].
  destruct (json_loads (json_text response)) as [v0 | e];
    [| destruct (catching _ e)]; now intros [= _ <-].
Qed.

(** C2, as the code has it.  The parser writes nothing, and returns no
    candidate when the text has no opening brace followed somewhere by a
    closing brace, when [json.loads] raises [JSONDecodeError] (or another
    class of the [except] clause) on the text from the first opening
    brace to the last closing brace, when the parsed value has no [plan]
    list, when some element of the plan is not the name of a registered
    skill, and when the plan is longer than the configured maximum; in
    every other case where [json.loads] returns, the parsed value is
    returned whole.  It raises exactly when [json.loads] raises an
    exception of a class the [except] clause does not list (plain
    [ValueError], [RecursionError]): that exception leaves the parser. *)
Theorem C2_parse_llm_response (w : World) (response : string) :
  let reg := registry w in
  let text := json_text response in
  (find "{" response < 0 \/ rfind "}" response < find "{" response ->
   _parse_llm_response response w = (Ok None, w))
  /\ (forall e,
         0 <= find "{" response <= rfind "}" response ->
         json_loads text = Raise e ->
         (exc_type e = JSONDecodeError \/ exc_type e = KeyError
          \/ exc_type e = TypeError ->
          _parse_llm_response response w = (Ok None, w))
         /\ (exc_type e <> JSONDecodeError -> exc_type e <> KeyError ->
             exc_type e <> TypeError ->
             _parse_llm_response response w = (Raise e, w)))
  /\ (forall v,
         json_loads text = Ok v ->
         exists o,
           _parse_llm_response response w = (Ok o, w)
           /\ ((forall l, ~ has_plan_list v l) -> o = None)
           /\ (forall l, has_plan_list v l -> ~ names_registered reg l -> o = None)
           /\ (forall l, has_plan_list v l ->
                         max_plan_length (_config (self w)) < Z.of_nat (List.length l) ->
                         o = None)
           /\ (forall l, 0 <= find "{" response <= rfind "}" response ->
                         has_plan_list v l -> names_registered reg l ->
                         Z.of_nat (List.length l) <= max_plan_length (_config (self w)) ->
                         o = Some v))
  /\ (forall o w',
         _parse_llm_response response w = (o, w') ->
         w' = w
         /\ forall e, o = Raise e ->
                      0 <= find "{" response <= rfind "}" response
                      /\ json_loads text = Raise e
                      /\ exc_type e <> JSONDecodeError /\ exc_type e <> KeyError
                      /\ exc_type e <> TypeError).
Proof.
  intros reg text. rewrite run_parse_llm_response. fold text.
  assert (Hunique : forall v l l', has_plan_list v l -> has_plan_list v l' -> l = l').
  { intros v l l' (d & -> & Hd) (d' & [= <-] & Hd'). congruence. }
  assert (Hbrace : brace_pair response = true
                   <-> 0 <= find "{" response <= rfind "}" response).
  { unfold brace_pair. rewrite andb_true_iff, Z.geb_le, Z.gtb_lt. lia. }
  assert (Hcatch : forall e,
             catching [JSONDecodeError; KeyError; TypeError] e = true
             <-> exc_type e = JSONDecodeError \/ exc_type e = KeyError
                 \/ exc_type e = TypeError).
  { intros [[] msg]; cbn; intuition discriminate. }
  split; [| split; [| split]].
  - intros Hno. destruct (brace_pair response) eqn:Hp; [| reflexivity].
    apply proj1 in Hbrace. specialize (Hbrace eq_refl). lia.
  - intros e Hp He. apply Hbrace in Hp. rewrite Hp, He. split.
    + intros Hc. apply Hcatch in Hc. now rewrite Hc.
    + intros H1 H2 H3.
      destruct (catching [JSONDecodeError; KeyError; TypeError] e) eqn:Hc;
        [| reflexivity].
      apply Hcatch in Hc. tauto.
  - intros v ->.
    exists (if brace_pair response
            then if plan_accepted (self w) v then Some v else None
            else None).
    split; [now destruct (brace_pair response) |].
    assert (Hrej : plan_accepted (self w) v = false ->
                   (if brace_pair response
                    then if plan_accepted (self w) v then Some v else None
                    else None) = None)
      by (intros ->; now destruct (brace_pair response)).
    split; [| split; [| split]].
    + intros Hnone. apply Hrej, not_true_iff_false.
      rewrite plan_accepted_iff. intros (l & Hl & _). now apply (Hnone l).
    + intros l Hl Hbad. apply Hrej, not_true_iff_false.
      rewrite plan_accepted_iff. intros (l' & Hl' & Hreg & _).
      now rewrite (Hunique _ _ _ Hl Hl') in Hbad.
    + intros l Hl Hlong. apply Hrej, not_true_iff_false.
      rewrite plan_accepted_iff. intros (l' & Hl' & _ & Hlen).
      rewrite (Hunique _ _ _ Hl Hl') in Hlong. lia.
    + intros l Hpair Hl Hreg Hlen. apply Hbrace in Hpair. rewrite Hpair.
      assert (Hacc : plan_accepted (self w) v = true)
        by (apply plan_accepted_iff; now exists l).
      now rewrite Hacc.
  - intros o w' Hrun.
    destruct (brace_pair response) eqn:Hp.
    + apply proj1 in Hbrace. specialize (Hbrace eq_refl). rename Hbrace into Hp'.
      destruct (json_loads text) as [v | e0] eqn:Hj.
      * injection Hrun as <- <-. split; [reflexivity | discriminate].
      * destruct (catching [JSONDecodeError; KeyError; TypeError] e0) eqn:Hc;
          injection Hrun as <- <-; (split; [reflexivity |]); [discriminate |].
        intros e [= <-]. split; [exact Hp' |]. split; [reflexivity |].
        assert (Hn : ~ (exc_type e0 = JSONDecodeError \/ exc_type e0 = KeyError
                        \/ exc_type e0 = TypeError))
          by (rewrite <- Hcatch; congruence).
        tauto.
    + injection Hrun as <- <-. split; [reflexivity | discriminate].
Qed.

(** ** The three strategies *)

Lemma run_create_planning_prompt (w : World) :
  exists prompt, _create_planning_prompt w = (Ok prompt, w).
Proof. eexists. reflexivity. Qed.

Lemma str_items_registered (reg : list (string * Skill)) (l : list pyval) :
  names_registered reg l ->
  all_registered reg (str_items l)
  /\ (l <> [] -> str_items l <> [])
  /\ map PStr (str_items l) = l.
Proof.
  unfold names_registered, all_registered.
  induction l as [|x l IH]; intros H; cbn [str_items].
  - repeat split; [intros name [] | tauto].
  - destruct (H x (or_introl eq_refl)) as (s & -> & Hs).
    destruct IH as (IH1 & _ & IH3); [intros y Hy; apply H; now right |].
    repeat split.
    + intros name [<- | Hn]; [exact Hs | now apply IH1].
    + discriminate.
    + cbn [map]. now rewrite IH3.
Qed.

(** One step of a run recorded in hypothesis [H]: the first computation
    of the bind returns, as [t] shows. *)
Tactic Notation "run_ok" hyp(H) "by" tactic3(t) :=
  erewrite bind_ok in H by t; cbv beta iota in H.

(** The model strategy returns a validated plan of the model's, or what
    the rule-based strategy returns. *)
Lemma llm_plan_spec (w w' : World) (o : outcome PlanGenerationResult) :
  _generate_llm_plan w = (o, w') ->
  frame w w'
  /\ match o with
     | Ok r => rule_based_result (registry w) r \/ model_result (self w) r
     | Raise _ => True
     end.
Proof.
  unfold _generate_llm_plan, try_except.
  match goal with
  | |- context [match ?c w with _ => _ end] =>
      destruct (c w) as [[r | e] w1] eqn:Hbody
  end.
  - (* the try block returned *)
    intros H. injection H as <- <-.
    destruct (run_create_planning_prompt w) as [prompt Hprompt].
    run_ok Hbody by (exact Hprompt).
    run_ok Hbody by (reflexivity).
    destruct (_llm_model (self w)) as [generate|] eqn:Hllm;
      [| erewrite bind_raise in Hbody by reflexivity; discriminate].
    destruct (generate prompt) as [response | e] eqn:Hgen;
      [| erewrite bind_raise in Hbody by reflexivity;
         discriminate].
    run_ok Hbody by reflexivity.
    destruct (_parse_llm_response response w) as [[pd | ep] wp] eqn:Hparse;
      pose proof (parse_world _ _ _ _ Hparse) as ->;
      [| erewrite bind_raise in Hbody by exact Hparse; discriminate].
    run_ok Hbody by exact Hparse.
    destruct pd as [v|].
    2:{ run_ok Hbody by (reflexivity).
        apply fallback_plan_spec in Hbody as [Hfr Hr]. split; [exact Hfr | now left]. }
    apply parse_some_inv in Hparse as (Hpair & Hjson & Hacc & _).
    apply plan_accepted_iff in Hacc as (l & (d & -> & Hd) & Hreg & Hlen).
    assert (Htruthy : truthy (PDict d) = true)
      by (destruct d; [discriminate | reflexivity]).
    rewrite Htruthy in Hbody.
    run_ok Hbody by
      (erewrite bind_ok by (unfold lift, py_get; rewrite Hd; reflexivity);
       reflexivity).
    destruct l as [|x l].
    { apply fallback_plan_spec in Hbody as [Hfr Hr]. split; [exact Hfr | now left]. }
    cbn [truthy] in Hbody.
    run_ok Hbody by (unfold lift, py_getitem; rewrite Hd; reflexivity).
    run_ok Hbody by (reflexivity).
    run_ok Hbody by (reflexivity).
    injection Hbody as <- <-. split; [apply frame_refl | right].
    destruct (str_items_registered _ _ Hreg) as (Hall & Hne & _).
    unfold model_result. cbn [fallback_used cache_hit plan confidence names_of].
    repeat split; [apply Hne; discriminate | exact Hall |].
    exists generate, prompt, response, d. repeat split; assumption.
  - (* the try block raised: the handler runs the rule-based strategy *)
    cbn [any_exception]. intros Hh.
    assert (Hfr1 : frame w w1).
    { destruct (run_create_planning_prompt w) as [prompt Hprompt].
      run_ok Hbody by (exact Hprompt).
      run_ok Hbody by (reflexivity).
      destruct (_llm_model (self w)) as [generate|] eqn:Hllm;
        [| erewrite bind_raise in Hbody by reflexivity;
           injection Hbody as _ <-; apply frame_refl].
      destruct (generate prompt) as [response | e'] eqn:Hgen;
        [| erewrite bind_raise in Hbody by reflexivity;
           injection Hbody as _ <-; apply frame_refl].
      run_ok Hbody by reflexivity.
      destruct (_parse_llm_response response w) as [[pd | ep] wp] eqn:Hparse;
        pose proof (parse_world _ _ _ _ Hparse) as ->;
        [| erewrite bind_raise in Hbody by exact Hparse;
           injection Hbody as _ <-; apply frame_refl].
      run_ok Hbody by exact Hparse.
      destruct pd as [v|].
      2:{ run_ok Hbody by (reflexivity).
          now apply fallback_plan_spec in Hbody as [Hfr _]. }
      apply parse_some_inv in Hparse as (Hpair & Hjson & Hacc & _).
      apply plan_accepted_iff in Hacc as (l & (d & -> & Hd) & Hreg & Hlen).
      assert (Htruthy : truthy (PDict d) = true)
        by (destruct d; [discriminate | reflexivity]).
      rewrite Htruthy in Hbody.
      run_ok Hbody by
        (erewrite bind_ok by (unfold lift, py_get; rewrite Hd; reflexivity);
         reflexivity).
      destruct l as [|x l].
      { now apply fallback_plan_spec in Hbody as [Hfr _]. }
      cbn [truthy] in Hbody.
      run_ok Hbody by (unfold lift, py_getitem; rewrite Hd; reflexivity).
      run_ok Hbody by (reflexivity).
      run_ok Hbody by (reflexivity).
      discriminate. }
    apply fallback_plan_spec in Hh as [Hfr2 Hr].
    split; [exact (frame_trans _ _ _ Hfr1 Hfr2) |].
    destruct o as [r | e']; [| exact I]. left.
    unfold registry in *. now destruct Hfr1 as [<- _].
Qed.

(** The curriculum strategy returns the collaborator's plan as it is, or
    what the next strategy returns when the collaborator raises. *)
Lemma curriculum_plan_spec (w w' : World) (o : outcome PlanGenerationResult) :
  _generate_curriculum_plan w = (o, w') ->
  frame w w'
  /\ match o with
     | Ok r => rule_based_result (registry w) r \/ model_result (self w) r
               \/ curriculum_result (self w) (input_query (uif w)) r
     | Raise _ => True
     end.
Proof.
  unfold _generate_curriculum_plan, try_except.
  match goal with
  | |- context [match ?c w with _ => _ end] =>
      destruct (c w) as [[r | e] w1] eqn:Hbody
  end.
  - intros H. injection H as <- <-.
    run_ok Hbody by reflexivity. run_ok Hbody by reflexivity.
    destruct (_curriculum (self w)) as [generate|] eqn:Hcur;
      [| erewrite bind_raise in Hbody by reflexivity; discriminate].
    destruct (generate (input_query (uif w)) (dict_keys (_registered_skills (self w))))
      as [rp | e] eqn:Hgen;
      [| erewrite bind_raise in Hbody by reflexivity; discriminate].
    run_ok Hbody by reflexivity. run_ok Hbody by reflexivity.
    injection Hbody as <- <-. split; [unfold frame; cbn; tauto |].
    right. right. unfold curriculum_result. cbn. repeat split.
    exists generate, rp. repeat split; assumption.
  - cbn [any_exception]. intros Hh.
    assert (Hw : w1 = w).
    { run_ok Hbody by reflexivity. run_ok Hbody by reflexivity.
      destruct (_curriculum (self w)) as [generate|] eqn:Hcur;
        [| erewrite bind_raise in Hbody by reflexivity; now injection Hbody].
      destruct (generate (input_query (uif w))
                         (dict_keys (_registered_skills (self w))))
        as [rp | e'] eqn:Hgen;
        [| erewrite bind_raise in Hbody by reflexivity; now injection Hbody].
      run_ok Hbody by reflexivity. run_ok Hbody by reflexivity. discriminate. }
    subst w1. run_ok Hh by reflexivity.
    destruct (_llm_model (self w)).
    + apply llm_plan_spec in Hh as [Hfr Hr]. split; [exact Hfr |].
      destruct o; tauto.
    + apply fallback_plan_spec in Hh as [Hfr Hr]. split; [exact Hfr |].
      destruct o; tauto.
Qed.

(** Whatever strategy runs: the planner object and the clock are left
    alone, and a result is of one of the three kinds. *)
Lemma select_strategy_spec (w w' : World) (o : outcome PlanGenerationResult) :
  select_strategy w = (o, w') ->
  frame w w'
  /\ match o with
     | Ok r => rule_based_result (registry w) r \/ model_result (self w) r
               \/ curriculum_result (self w) (input_query (uif w)) r
     | Raise _ => True
     end.
Proof.
  unfold select_strategy. intros H. run_ok H by reflexivity.
  destruct (_curriculum (self w)); [now apply curriculum_plan_spec |].
  destruct (_llm_model (self w)).
  - apply llm_plan_spec in H as [Hfr Hr]. split; [exact Hfr |]. destruct o; tauto.
  - apply fallback_plan_spec in H as [Hfr Hr]. split; [exact Hfr |].
    destruct o; tauto.
Qed.

(** ** Storing a plan *)

Lemma In_del_keys (keys : list string) (c : list (string * PlanCacheEntry))
  (kv : string * PlanCacheEntry) :
  In kv (del_keys keys c) -> In kv c.
Proof.
  unfold del_keys. revert c. induction keys as [|k keys IH]; intros c; cbn [fold_left].
  - trivial.
  - intros H. apply IH in H. now apply In_dict_del in H.
Qed.

Lemma dict_get_del_keys (keys : list string) (c : list (string * PlanCacheEntry))
  (k : string) :
  ~ In k keys -> dict_get k (del_keys keys c) = dict_get k c.
Proof.
  unfold del_keys. revert c. induction keys as [|k' keys IH]; intros c Hk;
    cbn [fold_left]; [reflexivity |].
  rewrite IH by (intros H; apply Hk; now right).
  apply dict_get_del_other. intros ->. apply Hk. now left.
Qed.

(** [_cache_plan], as one expression: the entry is stamped with the
    next clock reading, stored under the request's key, and the sweep
    follows. *)
Lemma run_cache_plan (r : PlanGenerationResult) (w : World) :
  let key := query_key (registry w) (uif w) in
  let entry := {| ce_plan := plan r; ce_confidence := confidence r;
                  created_at := time_now w; usage_count := 0;
                  query_hash := key;
                  skill_context := context_string (registry w) |} in
  let c1 := dict_set key entry (cache w) in
  let w1 := with_cache (advance 1 w) c1 in
  _cache_plan r w
  = (Ok tt,
     with_cache (advance (List.length c1) w1)
       (del_keys (expired_keys (sweep_flags (self w1) (clock w) (S (ticks w)) c1))
                 c1)).
Proof.
  intros key entry c1 w1. unfold _cache_plan.
  erewrite bind_ok by apply run_generate_query_hash.
  erewrite bind_ok by apply run_generate_skill_context.
  erewrite bind_ok by reflexivity.
  erewrite bind_ok by reflexivity.
  erewrite bind_ok by reflexivity.
  apply (run_cleanup_cache w1).
Qed.

(** ** create_plan *)

Lemma same_but_cache_refl (p : DynamicPlanner) : same_but_cache p p.
Proof. exists (_plan_cache p). now destruct p. Qed.

Lemma same_but_cache_trans (p1 p2 p3 : DynamicPlanner) :
  same_but_cache p1 p2 -> same_but_cache p2 p3 -> same_but_cache p1 p3.
Proof. intros [c ->] [c' ->]. now exists c'. Qed.

Lemma generated_same_but_cache (p p' : DynamicPlanner) (q : string)
  (r : PlanGenerationResult) :
  same_but_cache p p' -> generated p' q r -> generated p q r.
Proof. intros [c ->] H. exact H. Qed.

(** What the log line can format compares with a float. *)
Lemma format_py_gt (v : pyval) (r : Q) :
  format_2f v = Ok tt -> exists b, py_gt v r = Ok b.
Proof. destruct v; cbn; try discriminate; intros _; now eexists. Qed.

(** What compares with a float is formatted by the log line, unless it
    is an [int] too large to convert to a [float]. *)
Lemma py_gt_format (v : pyval) (r : Q) (b : bool) :
  py_gt v r = Ok b ->
  format_2f v = Ok tt
  \/ exists n, v = PInt n /\ float_overflow <= Z.abs n
               /\ format_2f v
                  = Raise (Exn OtherException "int too large to convert to float").
Proof.
  destruct v as [ | |n| | | | ]; cbn [py_gt format_2f]; try discriminate;
    intros _; try (now left).
  destruct (Z.ltb_spec (Z.abs n) float_overflow); [now left |].
  right. exists n. now repeat split.
Qed.

Section CacheInvariant.
Variable good : list string -> pyval -> Prop.

(** The lookup step of [create_plan]. *)
Lemma lookup_good (w : World) :
  cache_good good (cache w) ->
  exists oe w1,
    (if enable_plan_caching (_config (self w)) then _check_plan_cache else ret None) w
    = (Ok oe, w1)
    /\ cache_good good (cache w1)
    /\ same_but_cache (self w) (self w1)
    /\ clock w1 = clock w /\ uif w1 = uif w
    /\ (forall e, oe = Some e -> good (ce_plan e) (ce_confidence e)).
Proof.
  intros Hc. destruct (enable_plan_caching (_config (self w))).
  - rewrite run_check_plan_cache. cbn zeta.
    destruct (dict_get _ (cache w)) as [e|] eqn:Hk.
    + apply dict_get_In in Hk. pose proof (Hc _ _ Hk) as He.
      destruct (entry_valid _ _ e); do 2 eexists; (split; [reflexivity |]).
      * repeat split; try (now eexists).
        -- intros k e' Hin. apply In_dict_set in Hin as [[= -> ->] | Hin];
             [exact He | exact (Hc _ _ Hin)].
        -- now intros e' [= <-].
      * repeat split; try (now eexists); [| discriminate].
        intros k e' Hin. apply In_dict_del in Hin as [Hin _]. exact (Hc _ _ Hin).
    + do 2 eexists. split; [reflexivity |].
      repeat split; [exact Hc | apply same_but_cache_refl | discriminate].
  - do 2 eexists. split; [reflexivity |].
    repeat split; [exact Hc | apply same_but_cache_refl | discriminate].
Qed.

(** The store step: only what passed the confidence test is stored. *)
Lemma store_good (r : PlanGenerationResult) (w : World) :
  cache_good good (cache w) ->
  good (plan r) (confidence r) ->
  exists w1,
    _cache_plan r w = (Ok tt, w1)
    /\ cache_good good (cache w1)
    /\ same_but_cache (self w) (self w1)
    /\ clock w1 = clock w /\ uif w1 = uif w.
Proof.
  intros Hc Hr. eexists. split; [apply run_cache_plan |].
  repeat split; try (now eexists).
  intros k e Hin. apply In_del_keys in Hin.
  apply In_dict_set in Hin as [[= -> ->] | Hin]; [exact Hr | exact (Hc _ _ Hin)].
Qed.

(** The guarded block of [create_plan] keeps the cache good, changes
    nothing else of the planner, and returns good results, provided
    the results that are generated with a confidence that compares with
    0.5 are. *)
Lemma create_plan_try_good (start_time : Z) (w w' : World)
  (o : outcome PlanGenerationResult) :
  cache_good good (cache w) ->
  (forall r0, generated (self w) (input_query (uif w)) r0 ->
              (exists b, py_gt (confidence r0) (5 # 10) = Ok b) ->
              good (plan r0) (confidence r0)) ->
  create_plan_try start_time w = (o, w') ->
  cache_good good (cache w')
  /\ same_but_cache (self w) (self w')
  /\ clock w' = clock w
  /\ match o with
     | Ok r => good (plan r) (confidence r)
     | Raise _ => True
     end.
Proof.
  intros Hc Hgen H. unfold create_plan_try in H. run_ok H by reflexivity.
  destruct (lookup_good w Hc) as (oe & w1 & Hlook & Hc1 & Hs1 & Hclk1 & Hu1 & Hhit).
  run_ok H by exact Hlook.
  destruct oe as [e|].
  - (* hit *)
    run_ok H by reflexivity. injection H as <- <-.
    repeat split; try assumption. cbn. now apply Hhit.
  - (* miss: generate *)
    destruct (select_strategy w1) as [[r0 | ex] w2] eqn:Hsel;
      pose proof (select_strategy_spec _ _ _ Hsel) as [(Hself & Hclk & _ & Hq & _) Hkind].
    2:{ erewrite bind_raise in H by exact Hsel. injection H as <- <-.
        unfold cache. rewrite Hself. repeat split; try assumption; congruence. }
    run_ok H by exact Hsel.
    assert (Hc2 : cache_good good (cache w2)) by (unfold cache; now rewrite Hself).
    assert (Hs2 : same_but_cache (self w) (self w2)) by now rewrite Hself.
    assert (Hkind0 : generated (self w) (input_query (uif w)) r0).
    { apply (generated_same_but_cache _ (self w1)); [exact Hs1 |].
      rewrite <- Hu1. exact Hkind. }
    assert (Hclk2 : clock w2 = clock w) by congruence.
    destruct (enable_plan_caching (_config (self w)) && negb (match plan r0 with
                                                             | [] => true
                                                             | _ => false
                                                             end)) eqn:Htest.
    + (* the confidence is compared *)
      apply andb_prop in Htest as [Hen Hne]. rewrite Hen in H.
      destruct (plan r0) as [|n pl] eqn:Hpl; [discriminate |].
      destruct (py_gt (confidence r0) (5 # 10)) as [store | ex] eqn:Hgt.
      2:{ erewrite bind_raise in H by reflexivity.
          injection H as <- <-. repeat split; assumption. }
      run_ok H by reflexivity.
      assert (Hgood : good (plan r0) (confidence r0))
        by (apply Hgen; [assumption | now exists store]).
      destruct store.
      * destruct (store_good r0 w2 Hc2 Hgood) as (w3 & Hst & Hc3 & Hs3 & Hclk3 & _).
        run_ok H by exact Hst. run_ok H by reflexivity.
        cbn [confidence with_generation_time] in H.
        destruct (format_2f (confidence r0)) as [[] | ex] eqn:Hfmt.
        -- run_ok H by reflexivity. injection H as <- <-.
           repeat split; try assumption;
             first [ exact (same_but_cache_trans _ _ _ Hs2 Hs3)
                   | cbn; congruence
                   | cbn; now rewrite <- Hpl ].
        -- erewrite bind_raise in H by reflexivity. injection H as <- <-.
           repeat split; try assumption;
             first [ exact (same_but_cache_trans _ _ _ Hs2 Hs3)
                   | cbn; congruence ].
      * run_ok H by reflexivity. run_ok H by reflexivity.
        cbn [confidence with_generation_time] in H.
        destruct (format_2f (confidence r0)) as [[] | ex] eqn:Hfmt.
        -- run_ok H by reflexivity. injection H as <- <-.
           repeat split; assumption.
        -- erewrite bind_raise in H by reflexivity. injection H as <- <-.
           repeat split; assumption.
    + (* nothing is stored *)
      assert (Hstore : (if enable_plan_caching (_config (self w))
                        then match plan r0 with
                             | [] => ret false
                             | _ => lift (py_gt (confidence r0) (5 # 10))
                             end
                        else ret false) w2 = (Ok false, w2)).
      { destruct (enable_plan_caching (_config (self w))); [| reflexivity].
        destruct (plan r0); [reflexivity | discriminate]. }
      run_ok H by exact Hstore. run_ok H by reflexivity. run_ok H by reflexivity.
      cbn [confidence with_generation_time] in H.
      destruct (format_2f (confidence r0)) as [[] | ex] eqn:Hfmt.
      * run_ok H by reflexivity. injection H as <- <-.
        repeat split; try assumption. cbn.
        apply Hgen; [assumption | now apply format_py_gt].
      * erewrite bind_raise in H by reflexivity. injection H as <- <-.
        repeat split; assumption.
Qed.

End CacheInvariant.

(** [create_plan] is its guarded block, with an exception that leaves
    the block turned into the low-confidence default result. *)
Lemma create_plan_unfold (w : World) :
  create_plan w
  = match create_plan_try (time_now w) (advance 1 w) with
    | (Ok r, w1) => (Ok r, w1)
    | (Raise e, w1) =>
        (Ok {| plan := default_plan (registry w1);
               confidence := PNum (3 # 10);
               reasoning := PStr ("Error during generation: " ++ exc_str e);
               cache_hit := false;
               generation_time := total_seconds (time_now w1 - time_now w);
               fallback_used := true |},
         advance 1 w1)
    end.
Proof.
  unfold create_plan. erewrite bind_ok by reflexivity.
  unfold try_except. fold (time_now w).
  destruct (create_plan_try (time_now w) (advance 1 w)) as [[r | e] w1];
    [reflexivity |].
  cbn [any_exception]. unfold create_plan_except.
  erewrite bind_ok by reflexivity.
  erewrite bind_ok by apply run_get_default_fallback_plan.
  reflexivity.
Qed.

Lemma create_plan_try_registry (start_time : Z) (w w' : World)
  (o : outcome PlanGenerationResult) :
  create_plan_try start_time w = (o, w') ->
  same_but_cache (self w) (self w') /\ clock w' = clock w.
Proof.
  intros H.
  apply (create_plan_try_good (fun _ _ => True)) in H as (_ & Hs & Hclk & _);
    [tauto | now intros k e _ | trivial].
Qed.

Lemma create_plan_good (good : list string -> pyval -> Prop) (w w' : World)
  (r : PlanGenerationResult) :
  cache_good good (cache w) ->
  (forall r0, generated (self w) (input_query (uif w)) r0 ->
              (exists b, py_gt (confidence r0) (5 # 10) = Ok b) ->
              good (plan r0) (confidence r0)) ->
  good (default_plan (registry w)) (PNum (3 # 10)) ->
  create_plan w = (Ok r, w') ->
  good (plan r) (confidence r)
  /\ cache_good good (cache w')
  /\ same_but_cache (self w) (self w').
Proof.
  intros Hc Hgen Hdef. rewrite create_plan_unfold.
  destruct (create_plan_try (time_now w) (advance 1 w)) as [[r1 | e] w1] eqn:Htry;
    apply (create_plan_try_good good) in Htry as (Hc1 & Hs1 & _ & Hr);
    try assumption; intros [= <- <-].
  - tauto.
  - repeat split; try assumption. cbn.
    destruct Hs1 as [c Hs1]. unfold registry. rewrite Hs1. exact Hdef.
Qed.

(** ** The orchestration boundary (C1) *)

(** C1, for the exceptions that reach the boundary.  [create_plan]
    always returns a result and raises nothing.  Whenever an exception
    leaves its guarded block (is not handled inside a strategy), the
    result is the registry's default fallback plan with confidence 0.3,
    [fallback_used = true], [cache_hit = false] and a reasoning string
    that ends with the exception's text; when the block returns, its
    result is returned as it is. *)
Theorem C1_create_plan_never_raises (w : World) :
  (exists r w', create_plan w = (Ok r, w'))
  /\ (forall e w1,
         create_plan_try (time_now w) (advance 1 w) = (Raise e, w1) ->
         exists r w',
           create_plan w = (Ok r, w')
           /\ plan r = default_plan (registry w)
           /\ confidence r = PNum (3 # 10)
           /\ fallback_used r = true /\ cache_hit r = false
           /\ reasoning r = PStr ("Error during generation: " ++ exc_str e)
           /\ str_in (exc_str e) ("Error during generation: " ++ exc_str e) = true)
  /\ (forall r w1,
         create_plan_try (time_now w) (advance 1 w) = (Ok r, w1) ->
         create_plan w = (Ok r, w1)).
Proof.
  repeat split.
  - rewrite create_plan_unfold.
    destruct (create_plan_try _ _) as [[r | e] w1]; do 2 eexists; reflexivity.
  - intros e w1 Htry. rewrite create_plan_unfold, Htry.
    apply create_plan_try_registry in Htry as [[c Hs] _].
    do 2 eexists. split; [reflexivity |].
    cbn [plan confidence fallback_used cache_hit reasoning].
    repeat split; [| apply str_in_app_r].
    unfold registry. now rewrite Hs.
  - intros r w1 Htry. now rewrite create_plan_unfold, Htry.
Qed.

(** ** Invariants of returned plans (C4, C5) *)

(** C4, with its two exceptions.  Every skill name in a plan returned by
    [create_plan] is registered, or the plan is the bare
    response-generation default, which the rule-based and the error
    fallback return when neither core skill is registered, whether that
    name is registered or not.  This holds for cache hits, model plans,
    rule-based plans and the error fallback, and for curriculum plans
    as far as the curriculum collaborator itself names registered
    skills only (its plan is not validated); the cache keeps the
    property. *)
Theorem C4_plan_names_registered (w w' : World) (r : PlanGenerationResult) :
  cache_good (fun pl _ => plan_ok (registry w) pl) (cache w) ->
  curriculum_names_ok (self w) ->
  create_plan w = (Ok r, w') ->
  plan_ok (registry w) (plan r)
  /\ registry w' = registry w
  /\ cache_good (fun pl _ => plan_ok (registry w') pl) (cache w').
Proof.
  intros Hc Hcur Hrun.
  apply (create_plan_good (fun pl _ => plan_ok (registry w) pl)) in Hrun
    as (Hr & Hc' & [c Hs]); try assumption.
  - assert (Hreg : registry w' = registry w) by (unfold registry; now rewrite Hs).
    rewrite Hreg. tauto.
  - intros r0 [Hrule | [Hmodel | Hcurr]] _.
    + apply Hrule.
    + left. apply Hmodel.
    + destruct Hcurr as (_ & _ & generate & rp & Hg & Hrp & -> & _).
      left. exact (Hcur _ _ _ Hg Hrp).
  - apply default_plan_ok.
Qed.

Lemma in_unit_num (a b : positive) :
  (Z.pos a <= Z.pos b) -> in_unit (PNum (Z.pos a # b)).
Proof. intros H. cbn. unfold Qle. cbn. lia. Qed.

(** C5, as far as the code bounds the confidence.  The confidence of a
    result returned by [create_plan] lies in [0,1] for the rule-based
    result (0.6), the error fallback (0.3) and a model result without a
    confidence field (0.8); a confidence that the model or the
    curriculum reports is passed on as it is (a value that is no number
    ends in the error fallback), so it lies in [0,1] provided the
    reported numbers do; the cache keeps the property. *)
Theorem C5_confidence_in_unit (w w' : World) (r : PlanGenerationResult) :
  cache_good (fun _ c => in_unit c) (cache w) ->
  curriculum_confidence_ok (self w) ->
  model_confidence_ok (self w) ->
  create_plan w = (Ok r, w') ->
  in_unit (confidence r)
  /\ cache_good (fun _ c => in_unit c) (cache w').
Proof.
  intros Hc Hcur Hllm Hrun.
  apply (create_plan_good (fun _ c => in_unit c)) in Hrun as (Hr & Hc' & _);
    try assumption; [tauto | | now apply in_unit_num].
  intros r0 [Hrule | [Hmodel | Hcurr]] [b Hnum].
  - destruct Hrule as (_ & _ & -> & _). now apply in_unit_num.
  - destruct Hmodel as (_ & _ & _ & _ & generate & prompt & response & d
                        & Hg & Hresp & Hjson & Hconf).
    rewrite Hconf in *.
    destruct (Hllm _ _ _ _ Hg Hresp Hjson) as [HQ HZ].
    destruct (dict_get "confidence" d) as [[ | |n|q| | | ]|] eqn:Hd;
      try discriminate; try exact I;
      [exact (HZ n eq_refl) | exact (HQ q eq_refl) | now apply in_unit_num].
  - destruct Hcurr as (_ & _ & generate & rp & Hg & Hrp & _ & ->).
    exact (Hcur _ _ _ _ Hg Hrp).
Qed.

(** ** The registry fingerprint *)

Lemma version_of_set_other (reg : list (string * Skill)) (skill : Skill)
  (k n : string) :
  n <> k -> version_of (dict_set k skill reg) n = version_of reg n.
Proof.
  intros Hn. unfold version_of. rewrite dict_get_set_other by congruence. reflexivity.
Qed.

(** A skill under a new name makes the fingerprint longer. *)
Lemma context_changes_new_name (reg : list (string * Skill)) (skill : Skill) :
  dict_mem (skill_name skill) reg = false ->
  context_string (dict_set (skill_name skill) skill reg) <> context_string reg.
Proof.
  intros Hnew Heq. apply (f_equal String.length) in Heq.
  unfold context_string in Heq. rewrite !join_length in Heq.
  rewrite (dict_keys_set_new _ _ _ Hnew) in Heq.
  set (k := skill_name skill) in *. set (keys := dict_keys reg) in *.
  set (f' := fun name => name ++ ":" ++ version_of (dict_set k skill reg) name) in *.
  set (f := fun name => name ++ ":" ++ version_of reg name) in *.
  rewrite !length_map in Heq.
  rewrite !(Permutation_length (sorted_perm _)) in Heq.
  rewrite (total_length_perm _ _ (Permutation_map f' (sorted_perm _))) in Heq.
  rewrite (total_length_perm _ _ (Permutation_map f (sorted_perm _))) in Heq.
  rewrite map_app, total_length_app, List.length_app in Heq.
  assert (Hsame : map f' keys = map f keys).
  { apply map_ext_in. intros n Hn. unfold f', f. f_equal. f_equal.
    apply version_of_set_other. intros ->.
    apply dict_mem_keys in Hn. congruence. }
  rewrite Hsame in Heq. unfold total_length at 2 in Heq. cbn [map fold_right] in Heq.
  unfold f' in Heq. rewrite !PyFacts.length_app in Heq.
  cbn [String.length] in Heq. lia.
Qed.

(** A registered name under a different version changes its part of the
    fingerprint and no other. *)
Lemma context_changes_new_version (reg : list (string * Skill)) (skill old : Skill) :
  dict_wf reg ->
  dict_get (skill_name skill) reg = Some old ->
  skill_version old <> skill_version skill ->
  context_string (dict_set (skill_name skill) skill reg) <> context_string reg.
Proof.
  intros Hwf Hold Hver. unfold context_string.
  assert (Hmem : dict_mem (skill_name skill) reg = true)
    by (unfold dict_mem; now rewrite Hold).
  rewrite (dict_keys_set_old _ _ _ Hmem).
  apply (join_map_differs "|" (skill_name skill)).
  - apply (Permutation_NoDup (l := dict_keys reg)); [| exact Hwf].
    symmetry. apply sorted_perm.
  - apply sorted_In, dict_mem_keys, Hmem.
  - intros n Hn. now rewrite version_of_set_other.
  - unfold version_of. rewrite dict_get_set_same, Hold.
    intros E. apply app_inv_head in E. apply (app_inv_head ":") in E. congruence.
Qed.

Lemma generated_not_hit (p : DynamicPlanner) (q : string) (r : PlanGenerationResult) :
  generated p q r -> cache_hit r = false.
Proof.
  intros [H | [H | H]]; [destruct H as (_ & H & _) | destruct H as (_ & H & _)
                        | destruct H as (_ & H & _)]; exact H.
Qed.

(** ** Storing and sweeping *)


Lemma query_key_same (reg : list (string * Skill)) (u u' : SAM_UIF) :
  input_query u' = input_query u -> active_profile u' = active_profile u ->
  query_key reg u' = query_key reg u.
Proof. unfold query_key. now intros -> ->. Qed.

Lemma lookup_miss_world (w w1 : World) :
  (if enable_plan_caching (_config (self w)) then _check_plan_cache else ret None) w
  = (Ok None, w1) ->
  same_but_cache (self w) (self w1) /\ clock w1 = clock w /\ uif w1 = uif w
  /\ (ticks w <= ticks w1)%nat
  /\ (dict_wf (cache w) -> dict_wf (cache w1)).
Proof.
  destruct (enable_plan_caching (_config (self w))).
  - rewrite run_check_plan_cache. cbn zeta.
    destruct (dict_get _ (cache w)) as [e|].
    + destruct (entry_valid _ _ e); intros [= <-].
      repeat split; [now eexists | cbn; lia |].
      cbn. apply dict_wf_del.
    + intros [= <-]. repeat split; [apply same_but_cache_refl | lia | trivial].
  - intros [= <-]. repeat split; [apply same_but_cache_refl | lia | trivial].
Qed.

Lemma lookup_total (w : World) :
  exists oe w1,
    (if enable_plan_caching (_config (self w)) then _check_plan_cache else ret None) w
    = (Ok oe, w1).
Proof.
  destruct (lookup_good (fun _ _ => True) w) as (oe & w1 & H & _);
    [now intros k e _ | now exists oe, w1].
Qed.




End PlannerFacts.

(** * Concrete runs *)

(** C1 as stated fails: the curriculum raises during generation, the
    strategy handles it, and what comes back is the rule-based result,
    not the default fallback at confidence 0.3. *)
Lemma C1_handled_exception_is_not_the_default :
  failing_curriculum (input_query (uif world_curriculum_fails))
                     (dict_keys (registry world_curriculum_fails))
  = Raise (Exn OtherException "curriculum unavailable")
  /\ exists r w',
       @create_plan sample_runtime world_curriculum_fails = (Ok r, w')
       /\ confidence r = PNum (6 # 10)
       /\ confidence r <> PNum (3 # 10)
       /\ plan r <> default_plan (registry world_curriculum_fails)
       /\ reasoning r
          <> PStr ("Error during generation: " ++ "curriculum unavailable").
Proof.
  split; [reflexivity |].
  do 2 eexists. split; [vm_compute; reflexivity |].
  repeat split; [discriminate | vm_compute; discriminate | discriminate].
Qed.

(** C1 at a request whose search context is a string: the rule-based
    strategy raises [TypeError], the exception reaches the boundary, and
    the default plan comes back at confidence 0.3. *)
Lemma C1_witness :
  exists r w',
    @create_plan sample_runtime world_bad_search_context = (Ok r, w')
    /\ plan r = ["MemoryRetrievalSkill"; "ResponseGenerationSkill"]
    /\ confidence r = PNum (3 # 10)
    /\ reasoning r = PStr ("Error during generation: "
                           ++ "'str' object does not support item assignment").
Proof.
  destruct (@C1_create_plan_never_raises sample_runtime world_bad_search_context)
    as (_ & Hraise & _).
  destruct (Hraise
              (Exn TypeError "'str' object does not support item assignment")
              (advance 1 world_bad_search_context))
    as (r & w' & Hrun & Hplan & Hconf & _ & _ & Hreason & _).
  - vm_compute. reflexivity.
  - exists r, w'. repeat split; assumption.
Defined.

(** C2 at scenario D, where the model's chatty answer names a skill that
    is not registered and the parser returns nothing, and at an answer
    whose confidence is an integer literal of 4301 digits, where
    [json.loads] raises [ValueError] and so does the parser. *)
Lemma C2_witness :
  @_parse_llm_response sample_runtime
    ("Here is the plan: " ++ doc_unknown_skill ++ " Hope this helps.")
    world_unknown_skill
  = (Ok None, world_unknown_skill)
  /\ exists e,
       @_parse_llm_response sample_runtime
         ("Here is the plan: " ++ doc_long_integer ++ " Hope this helps.")
         world_unknown_skill
       = (Raise e, world_unknown_skill)
       /\ exc_type e = ValueError.
Proof.
  split.
  - destruct (@C2_parse_llm_response sample_runtime world_unknown_skill
                ("Here is the plan: " ++ doc_unknown_skill ++ " Hope this helps."))
      as (_ & _ & Hparsed & _).
    destruct (Hparsed (PDict [("plan", PList [PStr "UnknownSkill"]);
                              ("confidence", PNum (9 # 10))]))
      as (o & Hrun & _ & Hunknown & _); [vm_compute; reflexivity |].
    rewrite Hrun. do 2 f_equal.
    apply (Hunknown [PStr "UnknownSkill"]).
    + eexists. split; reflexivity.
    + intros H. destruct (H (PStr "UnknownSkill") (or_introl eq_refl))
        as (s & Hs & Hreg).
      injection Hs as <-. vm_compute in Hreg. discriminate.
  - destruct (@C2_parse_llm_response sample_runtime world_unknown_skill
                ("Here is the plan: " ++ doc_long_integer ++ " Hope this helps."))
      as (_ & Hraise & _).
    exists (Exn ValueError
              "Exceeds the limit (4300 digits) for integer string conversion: value has 4301 digits; use sys.set_int_max_str_digits() to increase the limit").
    split; [| reflexivity].
    refine (proj2 (Hraise _ _ _) _ _ _).
    + vm_compute. split; discriminate.
    + vm_compute. reflexivity.
    + discriminate.
    + discriminate.
    + discriminate.
Defined.

(** C3 as stated fails at the boundary: an entry whose age equals the
    TTL (created at 0, read at 3600 s, TTL 3600 s) is returned as a hit. *)
Lemma C3_hit_at_age_equal_to_ttl :
  fst (@_check_plan_cache sample_runtime (edge_world 3600000000))
  = Ok (Some (with_usage_count edge_entry 1))
  /\ ~ (age_at (time_now (edge_world 3600000000)) edge_entry
        < plan_cache_ttl (_config (self (edge_world 3600000000))))%Q
  /\ time_now (edge_world 3600000000) >= created_at edge_entry + 3600 * 1000000
  /\ exists r w',
       @create_plan sample_runtime (edge_world 3600000000) = (Ok r, w')
       /\ cache_hit r = true.
Proof.
  split; [vm_compute; reflexivity |].
  split; [vm_compute; discriminate |].
  split; [vm_compute; discriminate |].
  do 2 eexists. split; [vm_compute; reflexivity | reflexivity].
Qed.

(** C3 at the cached entry: a hit at the boundary, an eviction one
    microsecond later, and the hit as [create_plan] reports it. *)
Lemma C3_witness :
  (exists e,
      dict_get (@query_key sample_runtime core_registry edge_request)
               (cache (edge_world 3600000000)) = Some e
      /\ usage_count e + 1 = 1)
  /\ (exists w',
         @_check_plan_cache sample_runtime (edge_world 3600000001) = (Ok None, w')
         /\ dict_get (@query_key sample_runtime core_registry edge_request)
                     (cache w') = None)
  /\ (exists r w',
         @create_plan sample_runtime (edge_world 3600000000) = (Ok r, w')
         /\ cache_hit r = true).
Proof.
  split; [| split].
  - destruct (@C3_cache_lookup sample_runtime (edge_world 3600000000))
      as (Hhit & _ & _).
    destruct (Hhit (with_usage_count edge_entry 1)
                   (snd (@_check_plan_cache sample_runtime
                           (edge_world 3600000000))))
      as (e & Hk & _ & _ & He & _); [vm_compute; reflexivity |].
    exists e. split; [exact Hk |].
    apply (f_equal usage_count) in He. cbn in He. lia.
  - destruct (@C3_cache_lookup sample_runtime (edge_world 3600000001))
      as (_ & Hevict & _).
    apply (Hevict edge_entry); [vm_compute; reflexivity |].
    left. vm_compute. reflexivity.
  - destruct (@C3_cache_lookup sample_runtime (edge_world 3600000000))
      as (_ & _ & Hcreate).
    destruct (Hcreate edge_entry) as (r & w' & Hrun & _ & _ & Hhit & _);
      [reflexivity | vm_compute; reflexivity | vm_compute; discriminate
      | reflexivity |].
    now exists r, w'.
Defined.

(** C4 as stated fails twice: with no skill registered the rule-based
    plan names the response-generation skill all the same, and a
    curriculum's plan is returned without a look at the registry. *)
Lemma C4_unregistered_names_returned :
  (exists r w',
      @create_plan sample_runtime world_empty_registry = (Ok r, w')
      /\ In "ResponseGenerationSkill" (plan r)
      /\ dict_mem "ResponseGenerationSkill" (registry world_empty_registry) = false)
  /\ (exists r w',
         @create_plan sample_runtime world_ghost_curriculum = (Ok r, w')
         /\ In "GhostSkill" (plan r)
         /\ dict_mem "GhostSkill" (registry world_ghost_curriculum) = false).
Proof.
  split; do 2 eexists; (split; [vm_compute; reflexivity |]);
    (split; [now left | reflexivity]).
Qed.

(** C4 at scenario A with an empty cache and no curriculum. *)
Lemma C4_witness :
  exists r w',
    @create_plan sample_runtime (world_rules true "compare X and Y") = (Ok r, w')
    /\ plan_ok core_registry (plan r)
    /\ cache_good (fun pl _ => plan_ok core_registry pl) (cache w').
Proof.
  destruct (@create_plan sample_runtime (world_rules true "compare X and Y"))
    as [[r | e] w'] eqn:Hrun; [| vm_compute in Hrun; discriminate].
  exists r, w'. split; [reflexivity |].
  destruct (@C4_plan_names_registered sample_runtime
              (world_rules true "compare X and Y") w' r)
    as (Hplan & Hreg & Hcache).
  - intros k e [].
  - intros generate query rp Hcur. vm_compute in Hcur. discriminate.
  - exact Hrun.
  - split; [exact Hplan |]. rewrite Hreg in Hcache. exact Hcache.
Defined.

(** C5 as stated fails: the model reports confidence 5 with a valid
    plan, and 5 is the confidence of the result. *)
Lemma C5_confidence_five_returned :
  exists r w',
    @create_plan sample_runtime world_confidence_five = (Ok r, w')
    /\ confidence r = PInt 5
    /\ fallback_used r = false
    /\ ~ in_unit (confidence r).
Proof.
  do 2 eexists. split; [vm_compute; reflexivity |].
  split; [reflexivity |]. split; [reflexivity |].
  intros [_ H]. vm_compute in H. now apply H.
Qed.

(** C5 at scenario A with an empty cache and no collaborator. *)
Lemma C5_witness :
  exists r w',
    @create_plan sample_runtime (world_rules true "compare X and Y") = (Ok r, w')
    /\ in_unit (confidence r)
    /\ cache_good (fun _ c => in_unit c) (cache w').
Proof.
  destruct (@create_plan sample_runtime (world_rules true "compare X and Y"))
    as [[r | e] w'] eqn:Hrun; [| vm_compute in Hrun; discriminate].
  exists r, w'. split; [reflexivity |].
  apply (@C5_confidence_in_unit sample_runtime (world_rules true "compare X and Y")).
  - intros k e [].
  - intros generate query available rp Hcur. vm_compute in Hcur. discriminate.
  - intros generate prompt response d q Hllm. vm_compute in Hllm. discriminate.
  - exact Hrun.
Defined.

(** C6 as stated fails: registering again a skill whose name and version
    are already registered leaves the fingerprint as it was, and the
    cached entry is served. *)
Lemma C6_same_skill_registered_again :
  context_string
    (registry (snd (register_skill (sample_skill "MemoryRetrievalSkill" "1.0")
                                   (edge_world 1000))))
  = context_string (registry (edge_world 1000))
  /\ exists r w',
       @create_plan sample_runtime
         (snd (register_skill (sample_skill "MemoryRetrievalSkill" "1.0")
                              (edge_world 1000)))
       = (Ok r, w')
       /\ cache_hit r = true.
Proof.
  split; [vm_compute; reflexivity |].
  do 2 eexists. split; [vm_compute; reflexivity | reflexivity].
Qed.

(** C7 at "Explain how it works": "explain" scores for HYBRID, and
    HYBRID is what the rule-based planner writes into the request. *)
Lemma C7_witness :
  exists sc,
    dict_get "search_context"
      (intermediate_data
         (uif (snd (_generate_fallback_plan
                      (world_rules false "Explain how it works")))))
    = Some (PDict sc)
    /\ dict_get "retrieval_mode" sc = Some (PStr "HYBRID").
Proof.
  destruct (C7_retrieval_mode
              (world_rules false "Explain how it works")
              (lower "Explain how it works"))
    as (mode & _ & _ & Hgraph & Hwritten).
  destruct (Hgraph eq_refl) as (Hhybrid & _).
  rewrite Hhybrid in Hwritten by (left; vm_compute; reflexivity).
  destruct (_generate_fallback_plan
              (world_rules false "Explain how it works"))
    as [[r | e] w'] eqn:Hrun; [| vm_compute in Hrun; discriminate].
  exact (Hwritten eq_refl eq_refl r w' eq_refl).
Defined.

(** C8 at "Explain the complete chain": "complete" is a deep indicator
    and wins over "chain"; the mode is HYBRID, so depth 4 is written. *)
Lemma C8_witness :
  exists sc,
    dict_get "search_context"
      (intermediate_data
         (uif (snd (_generate_fallback_plan
                      (world_rules false "Explain the complete chain")))))
    = Some (PDict sc)
    /\ dict_get "graph_depth" sc = Some (PInt 4).
Proof.
  destruct (C8_graph_depth
              (world_rules false "Explain the complete chain")
              (lower "Explain the complete chain"))
    as (depth & _ & _ & Hdepth & Hwritten).
  vm_compute in Hdepth. subst depth.
  destruct (_generate_fallback_plan
              (world_rules false "Explain the complete chain"))
    as [[r | e] w'] eqn:Hrun; [| vm_compute in Hrun; discriminate].
  destruct (Hwritten eq_refl eq_refl "HYBRID" r w')
    as (sc & sc' & _ & Hsc & Hset & _);
    [vm_compute; reflexivity | reflexivity |].
  exists sc'. split; [exact Hsc | apply Hset; now right].
Defined.

(** C9 as stated fails in its last case: with neither core skill
    registered the stages select nothing, and the plan is the bare
    response-generation name, not the empty plan. *)
Lemma C9_default_plan_is_not_empty :
  dict_mem "MemoryRetrievalSkill" (registry world_empty_registry) = false
  /\ dict_mem "ResponseGenerationSkill" (registry world_empty_registry) = false
  /\ fst (fallback_stages world_empty_registry) = Ok ([], [])
  /\ exists r w',
       _generate_fallback_plan world_empty_registry = (Ok r, w')
       /\ plan r = ["ResponseGenerationSkill"]
       /\ plan r <> [].
Proof.
  repeat split.
  do 2 eexists. split; [vm_compute; reflexivity |]. split; [reflexivity | discriminate].
Qed.

(** C9 at the empty registry. *)
Lemma C9_witness :
  exists r,
    _generate_fallback_plan world_empty_registry = (Ok r, world_empty_registry)
    /\ plan r = ["ResponseGenerationSkill"].
Proof.
  destruct (C9_default_plan world_empty_registry) as (_ & Hdefault).
  destruct (Hdefault ([], []) world_empty_registry)
    as (_ & _ & r & Hrun & Hplan & _); [vm_compute; reflexivity | reflexivity |].
  now exists r.
Defined.

(** * Further properties of the planner *)

Section Coverage.
Context {RT : Runtime}.

Tactic Notation "step_ok" hyp(H) "by" tactic3(t) :=
  erewrite bind_ok in H by t; cbv beta iota in H.

(** ** Registration *)

Lemma registered_after_app (l1 l2 : list Skill) (reg : list (string * Skill)) :
  registered_after (List.app l1 l2) reg = registered_after l2 (registered_after l1 reg).
Proof. apply fold_left_app. Qed.

Lemma registered_after_other (l : list Skill) (reg : list (string * Skill))
  (n : string) :
  (forall skill, In skill l -> skill_name skill <> n) ->
  dict_get n (registered_after l reg) = dict_get n reg.
Proof.
  revert reg. induction l as [|sk l IH]; intros reg H; cbn; [reflexivity |].
  change (dict_get n (registered_after l (dict_set (skill_name sk) sk reg))
          = dict_get n reg).
  rewrite IH by (intros s Hs; apply H; now right).
  apply dict_get_set_other. apply H. now left.
Qed.

Lemma registered_after_grows (l : list Skill) (reg : list (string * Skill))
  (n : string) :
  dict_mem n reg = true -> dict_mem n (registered_after l reg) = true.
Proof.
  revert reg. induction l as [|sk l IH]; intros reg H; cbn; [exact H |].
  apply IH. rewrite dict_mem_set, H. apply orb_true_r.
Qed.

Lemma registered_after_wf (l : list Skill) (reg : list (string * Skill)) :
  dict_wf reg -> dict_wf (registered_after l reg).
Proof.
  revert reg. induction l as [|sk l IH]; intros reg H; cbn; [exact H |].
  apply IH. now apply dict_wf_set.
Qed.

Lemma run_register_skills (l : list Skill) (w : World) :
  exists w',
    register_skills l w = (Ok tt, w')
    /\ registry w' = registered_after l (registry w)
    /\ same_but_registry w w'.
Proof.
  revert w. induction l as [|sk l IH]; intros w; cbn [register_skills].
  - exists w. repeat split.
  - destruct (IH (snd (register_skill sk w))) as (w' & Hrun & Hreg & Hfr).
    exists w'. split; [| split].
    + erewrite bind_ok by reflexivity. exact Hrun.
    + rewrite Hreg. reflexivity.
    + unfold same_but_registry in *. cbn in Hfr. exact Hfr.
Qed.

(** X1.  Registering a list of skills raises nothing and touches nothing but
    the registry; afterwards every listed skill is registered, what was
    registered before still is, a name listed more than once is bound to
    the skill listed last, and a name that is not listed is bound as
    before. *)
Theorem register_skills_spec (l : list Skill) (w : World) :
  exists w',
    register_skills l w = (Ok tt, w')
    /\ same_but_registry w w'
    /\ (forall skill, In skill l ->
                      dict_mem (skill_name skill) (registry w') = true)
    /\ (forall n, dict_mem n (registry w) = true -> dict_mem n (registry w') = true)
    /\ (forall l1 skill l2,
           l = List.app l1 (skill :: l2) ->
           (forall later, In later l2 -> skill_name later <> skill_name skill) ->
           dict_get (skill_name skill) (registry w') = Some skill)
    /\ (forall n, (forall skill, In skill l -> skill_name skill <> n) ->
                  dict_get n (registry w') = dict_get n (registry w))
    /\ (dict_wf (registry w) -> dict_wf (registry w')).
Proof.
  destruct (run_register_skills l w) as (w' & Hrun & Hreg & Hfr).
  exists w'. split; [exact Hrun |]. split; [exact Hfr |].
  rewrite Hreg. repeat split.
  - intros skill Hin. apply in_split in Hin as (l1 & l2 & ->).
    rewrite registered_after_app. cbn.
    apply registered_after_grows. rewrite dict_mem_set, String.eqb_refl. reflexivity.
  - intros n. apply registered_after_grows.
  - intros l1 skill l2 -> Hlater.
    rewrite registered_after_app. cbn.
    rewrite registered_after_other by exact Hlater. apply dict_get_set_same.
  - intros n. apply registered_after_other.
  - apply registered_after_wf.
Qed.

(** X2.  The names [get_registered_skills] lists are in registration order:
    a skill under a new name is listed last, a skill under a registered
    name takes the place of the one it replaces and the list is as it
    was; either way the name is then bound to the skill just registered
    and no name is listed twice. *)
Theorem register_skill_listing (skill : Skill) (w : World) :
  exists w' names names',
    register_skill skill w = (Ok tt, w')
    /\ get_registered_skills w = (Ok names, w)
    /\ get_registered_skills w' = (Ok names', w')
    /\ names' = (if dict_mem (skill_name skill) (registry w)
                 then names
                 else List.app names [skill_name skill])
    /\ dict_get (skill_name skill) (registry w') = Some skill
    /\ (NoDup names -> NoDup names').
Proof.
  do 3 eexists. split; [reflexivity |]. split; [reflexivity |].
  split; [reflexivity |]. unfold registry.
  cbn [snd self with_self with_registered_skills _registered_skills].
  split; [| split].
  - destruct (dict_mem (skill_name skill) (_registered_skills (self w))) eqn:E.
    + now apply dict_keys_set_old.
    + now apply dict_keys_set_new.
  - apply dict_get_set_same.
  - apply (dict_wf_set (skill_name skill) skill (_registered_skills (self w))).
Qed.

(** ** Cache administration *)

Lemma py_sum_from (xs : list Z) (a : Z) : fold_left Z.add xs a = a + py_sum xs.
Proof.
  unfold py_sum. revert a. induction xs as [|x xs IH]; intros a; cbn; [lia |].
  rewrite IH, (IH x). lia.
Qed.

Lemma py_sum_cons (x : Z) (xs : list Z) : py_sum (x :: xs) = x + py_sum xs.
Proof. unfold py_sum at 1. cbn. apply py_sum_from. Qed.

(** Replacing the entry under a bound key moves the usage total by the
    difference of the two counters and keeps the number of entries. *)
Lemma usage_after_set (k : string) (e e' : PlanCacheEntry)
  (c : list (string * PlanCacheEntry)) :
  dict_get k c = Some e ->
  py_sum (map usage_count (dict_values (dict_set k e' c)))
  = py_sum (map usage_count (dict_values c)) - usage_count e + usage_count e'
  /\ List.length (dict_set k e' c) = List.length c.
Proof.
  unfold dict_values.
  induction c as [|[k0 e0] c IH]; cbn [dict_get dict_set]; [discriminate |].
  destruct (String.eqb k k0).
  - intros [= ->]. cbn [map snd List.length]. rewrite !py_sum_cons. split; lia.
  - intros H. destruct (IH H) as [IH1 IH2].
    cbn [map snd List.length]. rewrite !py_sum_cons, IH1, IH2. split; lia.
Qed.

Lemma run_get_cache_stats (w : World) :
  exists s,
    get_cache_stats w = (Ok s, w)
    /\ total_entries s = Z.of_nat (List.length (cache w))
    /\ total_usage s = py_sum (map usage_count (dict_values (cache w)))
    /\ cache_enabled s = enable_plan_caching (_config (self w))
    /\ (cache w = [] -> average_usage s = 0%Q).
Proof.
  eexists. split; [reflexivity |]. cbn. repeat split.
  unfold cache. now intros ->.
Qed.

(** ** The structure of a [create_plan] call *)

Local Abbreviation lookup w :=
  ((if enable_plan_caching (_config (self w)) then _check_plan_cache
    else ret None) w).

Lemma lookup_hit_inv (w w1 : World) (e' : PlanCacheEntry) :
  lookup w = (Ok (Some e'), w1) ->
  let key := query_key (registry w) (uif w) in
  enable_plan_caching (_config (self w)) = true
  /\ exists e, dict_get key (cache w) = Some e
               /\ entry_valid (self w) (time_now w) e = true
               /\ e' = with_usage_count e (usage_count e + 1)
               /\ w1 = with_cache (advance 1 w) (dict_set key e' (cache w)).
Proof.
  intros H key.
  destruct (enable_plan_caching (_config (self w))); [| discriminate].
  split; [reflexivity |]. rewrite run_check_plan_cache in H. cbn zeta in H.
  fold key in H. destruct (dict_get key (cache w)) as [e|]; [| discriminate].
  destruct (entry_valid (self w) (time_now w) e) eqn:Hv; [| discriminate].
  injection H as <- <-. exists e. repeat split. exact Hv.
Qed.

Lemma lookup_miss_key (w w1 : World) :
  enable_plan_caching (_config (self w)) = true ->
  lookup w = (Ok None, w1) ->
  dict_get (query_key (registry w) (uif w)) (cache w1) = None.
Proof.
  intros Hen H. rewrite Hen, run_check_plan_cache in H. cbn zeta in H.
  destruct (dict_get _ (cache w)) as [e|] eqn:Hk.
  - destruct (entry_valid _ _ e); [discriminate |]. injection H as <-.
    apply dict_get_del_same.
  - injection H as <-. exact Hk.
Qed.

Lemma lookup_miss_disabled (w w1 : World) (oe : option PlanCacheEntry) :
  enable_plan_caching (_config (self w)) = false ->
  lookup w = (Ok oe, w1) -> oe = None /\ w1 = w.
Proof. intros -> [= <- <-]. now split. Qed.

Lemma cache_plan_world (r : PlanGenerationResult) (w : World) :
  let w' := snd (_cache_plan r w) in
  _cache_plan r w = (Ok tt, w')
  /\ same_but_cache (self w) (self w') /\ uif w' = uif w /\ clock w' = clock w
  /\ (ticks w < ticks w')%nat.
Proof.
  rewrite run_cache_plan. cbn zeta. cbn [snd].
  repeat split; [now eexists | cbn; lia].
Qed.

Lemma del_keys_wf (keys : list string) (c : list (string * PlanCacheEntry)) :
  dict_wf c -> dict_wf (del_keys keys c).
Proof.
  unfold del_keys. revert c. induction keys as [|k keys IH]; intros c H; cbn;
    [exact H | apply IH, dict_wf_del, H].
Qed.

(** The world after the storing step of [create_plan], taken or not. *)
Lemma store_world (b : bool) (r : PlanGenerationResult) (w : World) :
  let w' := if b then snd (_cache_plan r w) else w in
  same_but_cache (self w) (self w') /\ uif w' = uif w /\ clock w' = clock w
  /\ (ticks w <= ticks w')%nat
  /\ (dict_wf (cache w) -> dict_wf (cache w')).
Proof.
  destruct b; cbn zeta.
  - destruct (cache_plan_world r w) as (_ & Hs & Hu & Hc & Ht).
    repeat split; try assumption; [lia |].
    intros Hwf. rewrite run_cache_plan. cbn zeta. cbn [snd].
    apply del_keys_wf, dict_wf_set, Hwf.
  - repeat split; [apply same_but_cache_refl | lia | trivial].
Qed.

(** An exception leaves the guarded block before anything is stored, or
    from the log line after the result was stored: when the confidence
    is an [int] too large to be formatted. *)
Lemma create_plan_try_raise (start_time : Z) (w w1 wr : World) (ex : exn) :
  lookup w = (Ok None, w1) ->
  create_plan_try start_time w = (Raise ex, wr) ->
  same_but_cache (self w1) (self wr)
  /\ clock wr = clock w1 /\ (ticks w1 <= ticks wr)%nat
  /\ input_query (uif wr) = input_query (uif w1)
  /\ active_profile (uif wr) = active_profile (uif w1)
  /\ (dict_wf (cache w1) -> dict_wf (cache wr))
  /\ (self wr = self w1
      \/ exists r0 w2,
           select_strategy w1 = (Ok r0, w2)
           /\ enable_plan_caching (_config (self w)) = true
           /\ plan r0 <> []
           /\ py_gt (confidence r0) (5 # 10) = Ok true
           /\ format_2f (confidence r0) = Raise ex
           /\ wr = advance 1 (snd (_cache_plan r0 w2))).
Proof.
  intros Hlook H.
  assert (Hearly : forall (wx : World) (R : Prop),
             self wx = self w1 -> clock wx = clock w1 ->
             (ticks w1 <= ticks wx)%nat ->
             input_query (uif wx) = input_query (uif w1) ->
             active_profile (uif wx) = active_profile (uif w1) ->
             same_but_cache (self w1) (self wx)
             /\ clock wx = clock w1 /\ (ticks w1 <= ticks wx)%nat
             /\ input_query (uif wx) = input_query (uif w1)
             /\ active_profile (uif wx) = active_profile (uif w1)
             /\ (dict_wf (cache w1) -> dict_wf (cache wx))
             /\ (self wx = self w1 \/ R)).
  { intros wx R Hs Hc Ht Hq Hp.
    split; [rewrite Hs; apply same_but_cache_refl |].
    do 4 (split; [assumption |]).
    split; [unfold cache; now rewrite Hs | now left]. }
  unfold create_plan_try in H. step_ok H by reflexivity.
  step_ok H by exact Hlook.
  destruct (select_strategy w1) as [[r0 | e0] w2] eqn:Hsel;
    pose proof (select_strategy_spec _ _ _ Hsel) as [(Hs & Hc & Ht & Hq & Hp) _].
  2:{ erewrite bind_raise in H by exact Hsel. injection H as <- <-.
      apply Hearly; try assumption. lia. }
  step_ok H by exact Hsel.
  assert (Hlate : forall w3 : World,
             (t <- now ;;
              (let result := with_generation_time r0 (total_seconds (t - start_time)) in
               lift (format_2f (confidence result)) ;; ret result)) w3 = (Raise ex, wr) ->
             wr = advance 1 w3 /\ format_2f (confidence r0) = Raise ex).
  { intros w3 H3. step_ok H3 by reflexivity.
    cbn [confidence with_generation_time] in H3.
    destruct (format_2f (confidence r0)) as [[] | e1].
    - step_ok H3 by reflexivity. discriminate.
    - erewrite bind_raise in H3 by reflexivity. injection H3 as <- <-.
      now split. }
  assert (Hquiet : forall R : Prop,
             wr = advance 1 w2 ->
             same_but_cache (self w1) (self wr)
             /\ clock wr = clock w1 /\ (ticks w1 <= ticks wr)%nat
             /\ input_query (uif wr) = input_query (uif w1)
             /\ active_profile (uif wr) = active_profile (uif w1)
             /\ (dict_wf (cache w1) -> dict_wf (cache wr))
             /\ (self wr = self w1 \/ R)).
  { intros R ->. apply Hearly; cbn; try assumption. lia. }
  destruct (enable_plan_caching (_config (self w))) eqn:Hen.
  - destruct (plan r0) as [|n pl] eqn:Hpl.
    + step_ok H by reflexivity. step_ok H by reflexivity.
      apply Hquiet. now apply (Hlate w2).
    + destruct (py_gt (confidence r0) (5 # 10)) as [b | e1] eqn:Hgt.
      2:{ erewrite bind_raise in H by reflexivity. injection H as <- <-.
          apply Hearly; try assumption. lia. }
      step_ok H by reflexivity. destruct b.
      * destruct (cache_plan_world r0 w2) as [Hrun _]. cbn zeta in Hrun.
        step_ok H by exact Hrun.
        apply Hlate in H as [Hwr Hfmt].
        destruct (store_world true r0 w2) as (Hs3 & Hu3 & Hc3 & Ht3 & Hwf3).
        cbn iota in Hs3, Hu3, Hc3, Ht3, Hwf3.
        set (wc := snd (_cache_plan r0 w2)) in *.
        assert (Hwr' : wr = advance 1 wc) by exact Hwr.
        split; [rewrite Hwr'; cbn [self advance]; now rewrite <- Hs |].
        split; [rewrite Hwr'; cbn [clock advance]; congruence |].
        split; [rewrite Hwr'; cbn [ticks advance]; lia |].
        split; [rewrite Hwr'; cbn [uif advance]; congruence |].
        split; [rewrite Hwr'; cbn [uif advance]; congruence |].
        split.
        -- intros Hwf. rewrite Hwr'. unfold cache. cbn [self advance].
           apply Hwf3. unfold cache. now rewrite Hs.
        -- right. exists r0, w2. rewrite Hpl.
           repeat split; try assumption; discriminate.
      * step_ok H by reflexivity. apply Hquiet. now apply (Hlate w2).
  - step_ok H by reflexivity. step_ok H by reflexivity.
    apply Hquiet. now apply (Hlate w2).
Qed.

(** The result and the world of a miss that generates a result. *)
Lemma create_plan_try_fresh (start_time : Z) (w w1 w' : World)
  (r : PlanGenerationResult) :
  lookup w = (Ok None, w1) ->
  create_plan_try start_time w = (Ok r, w') ->
  exists r0 w2,
    select_strategy w1 = (Ok r0, w2)
    /\ let store := enable_plan_caching (_config (self w))
                    && negb (match plan r0 with [] => true | _ => false end)
                    && match py_gt (confidence r0) (5 # 10) with
                       | Ok true => true
                       | _ => false
                       end in
       let w3 := if store then snd (_cache_plan r0 w2) else w2 in
       r = with_generation_time r0 (total_seconds (time_now w3 - start_time))
       /\ w' = advance 1 w3
       /\ format_2f (confidence r0) = Ok tt.
Proof.
  intros Hlook H. unfold create_plan_try in H. step_ok H by reflexivity.
  step_ok H by exact Hlook.
  destruct (select_strategy w1) as [[r0 | e0] w2] eqn:Hsel;
    [| erewrite bind_raise in H by exact Hsel; discriminate].
  step_ok H by exact Hsel. exists r0, w2. split; [reflexivity |].
  assert (Hlate : forall w3 : World,
             (t <- now ;;
              (let result := with_generation_time r0 (total_seconds (t - start_time)) in
               lift (format_2f (confidence result)) ;; ret result)) w3 = (Ok r, w') ->
             r = with_generation_time r0 (total_seconds (time_now w3 - start_time))
             /\ w' = advance 1 w3
             /\ format_2f (confidence r0) = Ok tt).
  { intros w3 H3. step_ok H3 by reflexivity.
    cbn [confidence with_generation_time] in H3.
    destruct (format_2f (confidence r0)) as [[] | e1];
      [| erewrite bind_raise in H3 by reflexivity; discriminate].
    step_ok H3 by reflexivity. injection H3 as <- <-. now repeat split. }
  destruct (enable_plan_caching (_config (self w))); cbn [andb].
  - destruct (plan r0) as [|n pl]; cbn [negb andb].
    + step_ok H by reflexivity. step_ok H by reflexivity. now apply Hlate.
    + destruct (py_gt (confidence r0) (5 # 10)) as [[|] | e1];
        [| | erewrite bind_raise in H by reflexivity; discriminate].
      * step_ok H by reflexivity.
        pose proof (run_cache_plan r0 w2) as Hrun. cbn zeta in Hrun.
        step_ok H by exact Hrun. rewrite Hrun. cbn [snd]. now apply Hlate.
      * step_ok H by reflexivity. step_ok H by reflexivity. now apply Hlate.
  - step_ok H by reflexivity. step_ok H by reflexivity. now apply Hlate.
Qed.

(** A call of [create_plan] is a hit, a miss that generates a result,
    or a miss that ends in the [except] clause. *)
Lemma create_plan_cases (w : World) :
  let w0 := advance 1 w in
  let key := query_key (registry w) (uif w) in
  exists r w',
    create_plan w = (Ok r, w')
    /\ ((enable_plan_caching (_config (self w)) = true
         /\ exists e,
              dict_get key (cache w) = Some e
              /\ entry_valid (self w) (time_now w0) e = true
              /\ r = {| plan := ce_plan e; confidence := ce_confidence e;
                        reasoning := PStr ("Retrieved from cache (used "
                                           ++ str_of_int (usage_count e + 1)
                                           ++ " times)");
                        cache_hit := true;
                        generation_time :=
                          total_seconds (clock w (S (S (ticks w))) - time_now w);
                        fallback_used := false |}
              /\ w' = advance 1
                        (with_cache (advance 1 w0)
                           (dict_set key (with_usage_count e (usage_count e + 1))
                                     (cache w))))
        \/ (exists w1 r0 w2,
               lookup w0 = (Ok None, w1)
               /\ select_strategy w1 = (Ok r0, w2)
               /\ let store := enable_plan_caching (_config (self w))
                               && negb (match plan r0 with [] => true | _ => false end)
                               && match py_gt (confidence r0) (5 # 10) with
                                  | Ok true => true
                                  | _ => false
                                  end in
                  let w3 := if store then snd (_cache_plan r0 w2) else w2 in
                  r = with_generation_time r0
                        (total_seconds (time_now w3 - time_now w))
                  /\ w' = advance 1 w3
                  /\ format_2f (confidence r0) = Ok tt)
        \/ (exists w1 wr ex,
               lookup w0 = (Ok None, w1)
               /\ create_plan_try (time_now w) w0 = (Raise ex, wr)
               /\ same_but_cache (self w) (self wr) /\ clock wr = clock w
               /\ (ticks w1 <= ticks wr)%nat
               /\ input_query (uif wr) = input_query (uif w)
               /\ active_profile (uif wr) = active_profile (uif w)
               /\ (dict_wf (cache w1) -> dict_wf (cache wr))
               /\ (self wr = self w1
                   \/ exists r0 w2,
                        select_strategy w1 = (Ok r0, w2)
                        /\ enable_plan_caching (_config (self w)) = true
                        /\ plan r0 <> []
                        /\ py_gt (confidence r0) (5 # 10) = Ok true
                        /\ format_2f (confidence r0) = Raise ex
                        /\ wr = advance 1 (snd (_cache_plan r0 w2)))
               /\ r = {| plan := default_plan (registry w);
                         confidence := PNum (3 # 10);
                         reasoning := PStr ("Error during generation: "
                                            ++ exc_str ex);
                         cache_hit := false;
                         generation_time :=
                           total_seconds (time_now wr - time_now w);
                         fallback_used := true |}
               /\ w' = advance 1 wr)).
Proof.
  intros w0 key.
  destruct (lookup_total w0) as ([e'|] & w1 & Hlook).
  - destruct (lookup_hit_inv _ _ _ Hlook) as (Hen & e & Hk & Hv & _ & _).
    pose proof (create_plan_hit w e Hen Hk Hv) as Hrun. cbn zeta in Hrun.
    do 2 eexists. split; [exact Hrun |]. left. split; [exact Hen |].
    exists e. repeat split; assumption.
  - pose proof (lookup_miss_world _ _ Hlook) as (Hs1 & Hc1 & Hu1 & Ht1 & _).
    rewrite create_plan_unfold. fold w0.
    destruct (create_plan_try (time_now w) w0) as [[r | ex] wt] eqn:Htry.
    + destruct (create_plan_try_fresh _ _ _ _ _ Hlook Htry) as (r0 & w2 & Hsel & Hr).
      do 2 eexists. split; [reflexivity |]. right. left.
      exists w1, r0, w2. repeat split; try assumption; apply Hr.
    + destruct (create_plan_try_raise _ _ _ _ _ Hlook Htry)
        as (Hs & Hc & Ht & Hq & Hp & Hwf & Hor).
      do 2 eexists. split; [reflexivity |]. right. right.
      exists w1, wt, ex. rewrite Hu1 in Hq, Hp.
      split; [exact Hlook |]. split; [reflexivity |].
      split; [exact (same_but_cache_trans _ _ _ Hs1 Hs) |].
      split; [rewrite Hc, Hc1; reflexivity |].
      split; [exact Ht |]. split; [exact Hq |]. split; [exact Hp |].
      split; [exact Hwf |]. split; [exact Hor |].
      split; [| reflexivity].
      destruct Hs1 as [c1 Hs1]. destruct Hs as [c2 Hs].
      unfold registry. rewrite Hs, Hs1. reflexivity.
Qed.

(** X3.  [create_plan] changes nothing of the planner but its cache, keeps
    the query text and the profile of the request, and reads the clock
    at least twice; the [generation_time] it reports is the time from
    its first clock reading to its last; a cache that binds each key
    once still does afterwards. *)
Theorem create_plan_frame (w : World) :
  exists r w',
    create_plan w = (Ok r, w')
    /\ same_but_cache (self w) (self w')
    /\ clock w' = clock w
    /\ (ticks w + 2 <= ticks w')%nat
    /\ input_query (uif w') = input_query (uif w)
    /\ active_profile (uif w') = active_profile (uif w)
    /\ generation_time r
       = total_seconds (clock w (ticks w' - 1)%nat - clock w (ticks w))
    /\ (dict_wf (cache w) -> dict_wf (cache w')).
Proof.
  destruct (create_plan_cases w) as (r & w' & Hrun & Hcases). cbn zeta in Hcases.
  exists r, w'. split; [exact Hrun |].
  destruct Hcases as [(Hen & e & Hk & Hv & -> & ->)
                     | [(w1 & r0 & w2 & Hlook & Hsel & Hr)
                       | (w1 & wr & ex & Hlook & Htry & Hs & Hc & Ht & Hq & Hp
                          & Hwfr & _ & -> & ->)]].
  - cbn. repeat split; try (now eexists); try lia.
    intros Hwf. apply dict_wf_set, Hwf.
  - cbn zeta in Hr. destruct Hr as (-> & -> & Hfmt0).
    pose proof (lookup_miss_world _ _ Hlook) as (Hs1 & Hc1 & Hu1 & Ht1 & Hwf1).
    pose proof (select_strategy_spec _ _ _ Hsel) as [(Hs2 & Hc2 & Ht2 & Hq2 & Hp2) _].
    match goal with
    | |- context [if ?b then snd (_cache_plan r0 w2) else w2] =>
        pose proof (store_world b r0 w2) as (Hs3 & Hu3 & Hc3 & Ht3 & Hwf3);
        set (w3 := if b then snd (_cache_plan r0 w2) else w2) in *
    end.
    clearbody w3. cbn in Ht1, Hc1, Hu1, Hwf1.
    change (self (advance 1 w)) with (self w) in Hs1.
    repeat split.
    + cbn. rewrite <- Hs2 in Hs1.
      exact (same_but_cache_trans _ _ _ Hs1 Hs3).
    + cbn. congruence.
    + cbn. lia.
    + cbn. congruence.
    + cbn. congruence.
    + cbn. unfold time_now. do 2 f_equal. rewrite Hc3, Hc2, Hc1.
      f_equal. lia.
    + intros Hwf. cbn. unfold cache in Hwf3 at 1. rewrite Hs2 in Hwf3.
      apply Hwf3, Hwf1, Hwf.
  - pose proof (lookup_miss_world _ _ Hlook) as (Hs1 & Hc1 & Hu1 & Ht1 & Hwf1).
    cbn in Ht1, Hc1, Hu1, Hwf1.
    change (self (advance 1 w)) with (self w) in Hs1.
    repeat split.
    + cbn. exact Hs.
    + exact Hc.
    + cbn. lia.
    + exact Hq.
    + exact Hp.
    + cbn. unfold time_now. rewrite Hc. do 2 f_equal. f_equal. lia.
    + intros Hwf. change (cache (advance 1 wr)) with (cache wr).
      apply Hwfr, Hwf1, Hwf.
Qed.

Lemma lookup_miss_inv (w w1 : World) (e : PlanCacheEntry) :
  lookup w = (Ok None, w1) ->
  enable_plan_caching (_config (self w)) = true ->
  dict_get (query_key (registry w) (uif w)) (cache w) = Some e ->
  entry_valid (self w) (time_now w) e = false.
Proof.
  intros H Hen Hk. rewrite Hen, run_check_plan_cache in H. cbn zeta in H.
  rewrite Hk in H. destruct (entry_valid (self w) (time_now w) e);
    [discriminate | reflexivity].
Qed.

Lemma select_strategy_not_hit (w w' : World) (r : PlanGenerationResult) :
  select_strategy w = (Ok r, w') -> cache_hit r = false.
Proof.
  intros H. destruct (select_strategy_spec _ _ _ H) as [_ Hkind].
  exact (generated_not_hit (self w) (input_query (uif w)) r Hkind).
Qed.

(** X4.  [create_plan] reports a cache hit exactly when caching is enabled
    and the cache binds the request's key to an entry that is valid at
    the call's second clock reading.  A hit returns the entry's plan and
    confidence, never with [fallback_used], reads the clock three times,
    leaves the request as it was and changes the cache only by counting
    the use. *)
Theorem cache_hit_iff (w w' : World) (r : PlanGenerationResult) :
  let key := query_key (registry w) (uif w) in
  create_plan w = (Ok r, w') ->
  (cache_hit r = true
   <-> enable_plan_caching (_config (self w)) = true
       /\ exists e, dict_get key (cache w) = Some e
                    /\ entry_valid (self w) (clock w (S (ticks w))) e = true)
  /\ (cache_hit r = true ->
      uif w' = uif w /\ fallback_used r = false
      /\ ticks w' = (ticks w + 3)%nat
      /\ exists e,
           dict_get key (cache w) = Some e
           /\ plan r = ce_plan e /\ confidence r = ce_confidence e
           /\ cache w'
              = dict_set key (with_usage_count e (usage_count e + 1)) (cache w)).
Proof.
  intros key Hrun.
  destruct (create_plan_cases w) as (r' & w'' & Hrun' & Hcases).
  cbn zeta in Hcases. fold key in Hcases.
  rewrite Hrun in Hrun'. injection Hrun' as <- <-.
  destruct Hcases as [(Hen & e & Hk & Hv & -> & ->)
                     | [(w1 & r0 & w2 & Hlook & Hsel & Hr)
                       | (w1 & wr & ex & Hlook & Htry & Hs & Hc & Ht & Hq & Hp
                          & _ & _ & -> & ->)]].
  - split.
    + split; [intros _ | reflexivity]. split; [exact Hen |]. now exists e.
    + intros _. cbn. repeat split; [lia |]. exists e. now repeat split.
  - cbn zeta in Hr. destruct Hr as [-> _].
    pose proof (select_strategy_not_hit _ _ _ Hsel) as Hnot.
    cbn [cache_hit with_generation_time]. rewrite Hnot. split; [| discriminate].
    split; [discriminate |]. intros (Hen & e & Hk & Hv).
    pose proof (lookup_miss_inv _ _ e Hlook Hen Hk) as Hinv.
    change (entry_valid (self w) (clock w (S (ticks w))) e = false) in Hinv.
    congruence.
  - cbn [cache_hit]. split; [| discriminate].
    split; [discriminate |]. intros (Hen & e & Hk & Hv).
    pose proof (lookup_miss_inv _ _ e Hlook Hen Hk) as Hinv.
    change (entry_valid (self w) (clock w (S (ticks w))) e = false) in Hinv.
    congruence.
Qed.

(** X5.  A hit counts as one use in the statistics: after a call of
    [create_plan] that reports a cache hit, [get_cache_stats] shows the
    same number of entries and a total usage greater by exactly 1. *)
Theorem cache_hit_counts_usage (w w' : World) (r : PlanGenerationResult)
  (s s' : CacheStats) :
  create_plan w = (Ok r, w') -> cache_hit r = true ->
  get_cache_stats w = (Ok s, w) -> get_cache_stats w' = (Ok s', w') ->
  total_entries s' = total_entries s
  /\ total_usage s' = total_usage s + 1
  /\ cache_enabled s' = true.
Proof.
  intros Hrun Hhit Hs Hs'.
  destruct (create_plan_cases w) as (r' & w'' & Hrun' & Hcases).
  cbn zeta in Hcases.
  rewrite Hrun in Hrun'. injection Hrun' as <- <-.
  destruct Hcases as [(Hen & e & Hk & Hv & -> & ->)
                     | [(w1 & r0 & w2 & Hlook & Hsel & Hr)
                       | (w1 & wr & ex & Hlook & Htry & _ & _ & _ & _ & _
                          & _ & _ & -> & ->)]].
  - injection Hs as <-. injection Hs' as <-.
    cbn [total_entries total_usage cache_enabled].
    destruct (usage_after_set _ e (with_usage_count e (usage_count e + 1)) _ Hk)
      as [Hsum Hlen].
    cbn [self advance with_cache with_self with_plan_cache _plan_cache _config].
    unfold cache in *. rewrite Hsum, Hlen.
    cbn [usage_count with_usage_count]. repeat split; [lia | exact Hen].
  - cbn zeta in Hr. destruct Hr as [-> _].
    pose proof (select_strategy_not_hit _ _ _ Hsel) as Hnot.
    cbn [cache_hit with_generation_time] in Hhit. congruence.
  - discriminate.
Qed.

(** X6.  A result at or below the storing threshold is not cached: with
    caching enabled, after a call that did not hit and returned an empty
    plan or a numeric confidence of at most 0.5 (the error fallback's
    0.3 included), the cache has no entry under the request's key,
    with one exception.  When the selected strategy returns a non-empty
    plan whose confidence is an [int] above 0.5 that is too large for a
    float, the result is stored first and the log line then raises
    [OverflowError]: the call returns the 0.3 error fallback, and the
    cache is as [_cache_plan] left it. *)
Theorem low_confidence_not_cached (w w' : World) (r : PlanGenerationResult) :
  enable_plan_caching (_config (self w)) = true ->
  create_plan w = (Ok r, w') ->
  cache_hit r = false ->
  plan r = []
  \/ (exists c, confidence r = PNum c /\ (c <= 5 # 10)%Q)
  \/ (exists n, confidence r = PInt n /\ n <= 0) ->
  dict_get (query_key (registry w) (uif w)) (cache w') = None
  \/ (exists w1 r0 w2 n,
         lookup (advance 1 w) = (Ok None, w1)
         /\ select_strategy w1 = (Ok r0, w2)
         /\ plan r0 <> []
         /\ confidence r0 = PInt n /\ float_overflow <= n
         /\ plan r = default_plan (registry w)
         /\ confidence r = PNum (3 # 10)
         /\ reasoning r
            = PStr "Error during generation: int too large to convert to float"
         /\ fallback_used r = true
         /\ cache w' = cache (snd (_cache_plan r0 w2))).
Proof.
  intros Hen Hrun Hmiss Hlow.
  destruct (create_plan_cases w) as (r' & w'' & Hrun' & Hcases).
  cbn zeta in Hcases.
  rewrite Hrun in Hrun'. injection Hrun' as <- <-.
  destruct Hcases as [(_ & e & Hk & Hv & -> & ->)
                     | [(w1 & r0 & w2 & Hlook & Hsel & Hr)
                       | (w1 & wr & ex & Hlook & Htry & Hs & _ & _ & _ & _
                          & _ & Hor & -> & ->)]].
  - discriminate.
  - left. cbn zeta in Hr. destruct Hr as (-> & -> & Hfmt0).
    pose proof (lookup_miss_key (advance 1 w) _ Hen Hlook) as Hnone.
    pose proof (select_strategy_spec _ _ _ Hsel) as [(Hs2 & _) _].
    cbn [plan confidence with_generation_time] in Hlow.
    assert (Hstore : enable_plan_caching (_config (self w))
                     && negb (match plan r0 with [] => true | _ => false end)
                     && match py_gt (confidence r0) (5 # 10) with
                        | Ok true => true
                        | _ => false
                        end = false).
    { destruct Hlow as [-> | [(c & -> & Hc) | (n & -> & Hn)]].
      - now rewrite andb_false_r.
      - cbn [py_gt]. unfold Qgtb.
        assert (Hb : Qle_bool c (5 # 10) = true) by now apply Qle_bool_iff.
        rewrite Hb. now rewrite andb_false_r.
      - cbn [py_gt]. unfold Qgtb.
        assert (Hb : Qle_bool (inject_Z n) (5 # 10) = true).
        { apply Qle_bool_iff. unfold Qle, inject_Z. cbn. lia. }
        rewrite Hb. now rewrite andb_false_r. }
    rewrite Hstore. unfold cache. cbn [self advance]. rewrite Hs2. exact Hnone.
  - destruct Hor as [Hsame | (r0 & w2 & Hsel & _ & Hpl & Hgt & Hfmt & ->)].
    + left. pose proof (lookup_miss_key (advance 1 w) _ Hen Hlook) as Hnone.
      unfold cache. cbn [self advance]. rewrite Hsame. exact Hnone.
    + right.
      destruct (py_gt_format _ _ _ Hgt) as [Hok | (n & Hn & Hbig & Hraise)];
        [rewrite Hok in Hfmt; discriminate |].
      rewrite Hraise in Hfmt. injection Hfmt as <-.
      assert (Hpos : float_overflow <= n).
      { rewrite Hn in Hgt. cbn [py_gt] in Hgt. injection Hgt as Hgt.
        unfold Qgtb in Hgt. apply negb_true_iff in Hgt.
        destruct (Z_lt_le_dec 0 n) as [Hp | Hp]; [lia |].
        exfalso. assert (Hb : Qle_bool (inject_Z n) (5 # 10) = true).
        { apply Qle_bool_iff. unfold Qle, inject_Z. cbn. lia. }
        congruence. }
      exists w1, r0, w2, n.
      split; [exact Hlook |]. split; [exact Hsel |]. split; [exact Hpl |].
      split; [exact Hn |]. split; [exact Hpos |].
      repeat split.
Qed.

(** X7.  With caching disabled [create_plan] leaves the planner object as it
    was and never reports a hit.  When the strategy selected for the
    planner generates a result whose confidence the log line can
    format, that result is returned with only the generation time
    filled in; when formatting the confidence raises (a confidence that
    is no number, or an [int] too large for a float), the call returns
    the error fallback at 0.3 instead, with the exception's text in its
    reasoning. *)
Theorem create_plan_without_caching (w : World) :
  enable_plan_caching (_config (self w)) = false ->
  exists r w',
    create_plan w = (Ok r, w')
    /\ self w' = self w /\ cache_hit r = false
    /\ (forall r0 w2,
           select_strategy (advance 1 w) = (Ok r0, w2) ->
           format_2f (confidence r0) = Ok tt ->
           plan r = plan r0 /\ confidence r = confidence r0
           /\ reasoning r = reasoning r0 /\ fallback_used r = fallback_used r0
           /\ w' = advance 1 w2)
    /\ (forall r0 w2 ex,
           select_strategy (advance 1 w) = (Ok r0, w2) ->
           format_2f (confidence r0) = Raise ex ->
           plan r = default_plan (registry w)
           /\ confidence r = PNum (3 # 10)
           /\ reasoning r = PStr ("Error during generation: " ++ exc_str ex)
           /\ fallback_used r = true
           /\ w' = advance 1 (advance 1 w2)).
Proof.
  intros Hdis.
  destruct (create_plan_cases w) as (r & w' & Hrun & Hcases). cbn zeta in Hcases.
  exists r, w'. split; [exact Hrun |].
  destruct Hcases as [(Hen & _)
                     | [(w1 & r0 & w2 & Hlook & Hsel & Hr)
                       | (w1 & wr & ex & Hlook & Htry & Hs & _ & _ & _ & _
                          & _ & Hor & -> & ->)]].
  - congruence.
  - destruct (lookup_miss_disabled (advance 1 w) _ _ Hdis Hlook) as [_ ->].
    rewrite Hdis in Hr. cbn [andb] in Hr. destruct Hr as (-> & -> & Hfmt0).
    pose proof (select_strategy_spec _ _ _ Hsel) as [(Hs2 & _) _].
    pose proof (select_strategy_not_hit _ _ _ Hsel) as Hnot.
    split; [cbn; now rewrite Hs2 |]. split; [exact Hnot |]. split.
    + intros r1 w3 Hsel' _. rewrite Hsel in Hsel'. injection Hsel' as <- <-.
      now repeat split.
    + intros r1 w3 ex Hsel' Hfmt. rewrite Hsel in Hsel'.
      injection Hsel' as <- <-. rewrite Hfmt0 in Hfmt. discriminate.
  - destruct (lookup_miss_disabled (advance 1 w) _ _ Hdis Hlook) as [_ ->].
    assert (Hsame : self wr = self w).
    { destruct Hor as [Hsame | (r0 & w2 & _ & Hen & _)];
        [exact Hsame | congruence]. }
    split; [exact Hsame |]. split; [reflexivity |].
    assert (Hfmt : forall r0 w2,
               select_strategy (advance 1 w) = (Ok r0, w2) ->
               format_2f (confidence r0) = Raise ex /\ wr = advance 1 w2).
    { intros r0 w2 Hsel.
      unfold create_plan_try in Htry. step_ok Htry by reflexivity.
      cbn [self advance] in Htry. rewrite Hdis in Htry.
      step_ok Htry by reflexivity. step_ok Htry by exact Hsel.
      step_ok Htry by reflexivity. step_ok Htry by reflexivity.
      step_ok Htry by reflexivity.
      cbn [confidence with_generation_time] in Htry.
      destruct (format_2f (confidence r0)) as [[] | e1].
      - step_ok Htry by reflexivity. discriminate.
      - erewrite bind_raise in Htry by reflexivity. injection Htry as <- <-.
        now split. }
    split.
    + intros r0 w2 Hsel Hok. destruct (Hfmt _ _ Hsel) as [Hraise _].
      rewrite Hok in Hraise. discriminate.
    + intros r0 w2 ex' Hsel Hraise. destruct (Hfmt _ _ Hsel) as [Hraise' ->].
      rewrite Hraise in Hraise'. injection Hraise' as ->.
      now repeat split.
Qed.

Lemma hit_needs_entry (w w' : World) (r : PlanGenerationResult) :
  create_plan w = (Ok r, w') -> cache_hit r = true ->
  exists e, dict_get (query_key (registry w) (uif w)) (cache w) = Some e.
Proof.
  intros Hrun Hhit.
  destruct (create_plan_cases w) as (r' & w'' & Hrun' & Hcases).
  cbn zeta in Hcases. rewrite Hrun in Hrun'. injection Hrun' as <- <-.
  destruct Hcases as [(Hen & e & Hk & _)
                     | [(w1 & r0 & w2 & Hlook & Hsel & Hr)
                       | (w1 & wr & ex & _ & _ & _ & _ & _ & _ & _ & _ & _ & -> & _)]].
  - now exists e.
  - cbn zeta in Hr. destruct Hr as [-> _].
    pose proof (select_strategy_not_hit _ _ _ Hsel) as Hnot.
    cbn [cache_hit with_generation_time] in Hhit. congruence.
  - discriminate.
Qed.

(** X8.  [clear_cache] empties the cache and touches nothing else; right
    after it the statistics are all zero (the average is 0, not a
    division by zero) and the next [create_plan], for whatever request,
    does not report a hit. *)
Theorem clear_cache_spec (w : World) :
  exists w',
    clear_cache w = (Ok tt, w')
    /\ cache w' = []
    /\ same_but_cache (self w) (self w')
    /\ uif w' = uif w /\ clock w' = clock w /\ ticks w' = ticks w
    /\ (exists s, get_cache_stats w' = (Ok s, w')
                  /\ total_entries s = 0 /\ total_usage s = 0
                  /\ average_usage s = 0%Q
                  /\ cache_enabled s = enable_plan_caching (_config (self w)))
    /\ (forall u r w'',
           create_plan (with_uif w' u) = (Ok r, w'') -> cache_hit r = false).
Proof.
  eexists. split; [reflexivity |].
  split; [reflexivity |]. split; [now eexists |]. do 3 (split; [reflexivity |]).
  split.
  - eexists. split; [reflexivity |]. now repeat split.
  - intros u r w'' Hrun. destruct (cache_hit r) eqn:Hhit; [| reflexivity].
    destruct (hit_needs_entry _ _ _ Hrun Hhit) as (e & He). discriminate.
Qed.

(** ** The sweep of expired entries *)

Lemma del_keys_get_none (keys : list string) (c : list (string * PlanCacheEntry))
  (k : string) :
  dict_get k c = None -> dict_get k (del_keys keys c) = None.
Proof.
  unfold del_keys. revert c. induction keys as [|k0 keys IH]; intros c H; cbn;
    [exact H |].
  apply IH. destruct (String.eqb_spec k0 k) as [-> | Hne].
  - apply dict_get_del_same.
  - now rewrite dict_get_del_other.
Qed.

Lemma dict_get_del_keys_in (keys : list string) (c : list (string * PlanCacheEntry))
  (k : string) :
  In k keys -> dict_get k (del_keys keys c) = None.
Proof.
  revert c. induction keys as [|k0 keys IH]; intros c; [intros [] |].
  intros [-> | Hin].
  - apply (del_keys_get_none keys (dict_del k c)), dict_get_del_same.
  - apply (IH (dict_del k0 c) Hin).
Qed.

Lemma sweep_flags_nth (p : DynamicPlanner) (clk : nat -> Z) (t : nat)
  (items : list (string * PlanCacheEntry)) (i : nat) (k : string)
  (e : PlanCacheEntry) :
  nth_error items i = Some (k, e) ->
  nth_error (sweep_flags p clk t items) i
  = Some (k, entry_valid p (clk (t + i)%nat) e).
Proof.
  revert t i. induction items as [|item items IH]; intros t [|i]; cbn;
    try discriminate.
  - intros [= ->]. cbn. now rewrite Nat.add_0_r.
  - intros H. rewrite (IH (S t) i H). do 4 f_equal. lia.
Qed.

Lemma sweep_flags_nth_inv (p : DynamicPlanner) (clk : nat -> Z) (t : nat)
  (items : list (string * PlanCacheEntry)) (k : string) (b : bool) :
  In (k, b) (sweep_flags p clk t items) ->
  exists i e, nth_error items i = Some (k, e)
              /\ b = entry_valid p (clk (t + i)%nat) e.
Proof.
  revert t. induction items as [|[k0 e0] items IH]; intros t; cbn; [tauto |].
  intros [[= <- <-] | H].
  - exists 0%nat, e0. split; [reflexivity |]. now rewrite Nat.add_0_r.
  - destruct (IH (S t) H) as (i & e & Hn & Hb). exists (S i), e.
    split; [exact Hn |]. rewrite Hb. do 2 f_equal. lia.
Qed.

Lemma wf_nth_unique (c : list (string * PlanCacheEntry)) (i j : nat) (k : string)
  (e e' : PlanCacheEntry) :
  dict_wf c -> nth_error c i = Some (k, e) -> nth_error c j = Some (k, e') ->
  i = j.
Proof.
  unfold dict_wf, dict_keys. intros Hwf Hi Hj.
  apply (proj1 (NoDup_nth_error (map fst c)) Hwf).
  - rewrite length_map. apply nth_error_Some. congruence.
  - rewrite !nth_error_map, Hi, Hj. reflexivity.
Qed.

(** X9.  [_cleanup_cache] checks the entries in their order, one clock
    reading each, and deletes those found invalid: when the cache binds
    each key once, the entry at position [i] is kept exactly if it is
    valid at the [i]-th reading of the sweep, nothing is added, and only
    the cache and the clock's position change. *)
Theorem cleanup_cache_spec (w : World) :
  dict_wf (cache w) ->
  exists w',
    _cleanup_cache w = (Ok tt, w')
    /\ same_but_cache (self w) (self w')
    /\ uif w' = uif w /\ clock w' = clock w
    /\ ticks w' = (ticks w + List.length (cache w))%nat
    /\ dict_wf (cache w')
    /\ (forall i k e,
           nth_error (cache w) i = Some (k, e) ->
           dict_get k (cache w')
           = if entry_valid (self w) (clock w (ticks w + i)%nat) e
             then Some e else None)
    /\ (forall k, dict_get k (cache w) = None -> dict_get k (cache w') = None).
Proof.
  intros Hwf. eexists. split; [apply run_cleanup_cache |].
  split; [now eexists |]. do 2 (split; [reflexivity |]).
  split; [cbn; lia |].
  change (cache (with_cache (advance (List.length (cache w)) w) ?c)) with c.
  set (flags := sweep_flags (self w) (clock w) (ticks w) (cache w)).
  split; [apply del_keys_wf, Hwf |]. split.
  - intros i k e Hn.
    assert (Hget : dict_get k (cache w) = Some e).
    { apply dict_wf_In_get; [exact Hwf |]. eapply nth_error_In, Hn. }
    pose proof (sweep_flags_nth (self w) (clock w) (ticks w) _ _ _ _ Hn) as Hflag.
    fold flags in Hflag. apply nth_error_In in Hflag.
    destruct (entry_valid (self w) (clock w (ticks w + i)%nat) e) eqn:Hv.
    + rewrite dict_get_del_keys; [exact Hget |].
      unfold expired_keys. intros Hin. apply in_map_iff in Hin as ([k' b] & Hk & Hf).
      cbn in Hk. subst k'. apply filter_In in Hf as [Hf Hb]. cbn in Hb.
      destruct b; [discriminate |].
      apply sweep_flags_nth_inv in Hf as (j & e' & Hj & Hb').
      pose proof (wf_nth_unique _ _ _ _ _ _ Hwf Hn Hj) as <-.
      rewrite Hn in Hj. injection Hj as <-. congruence.
    + apply dict_get_del_keys_in. unfold expired_keys.
      apply in_map_iff. exists (k, false). split; [reflexivity |].
      apply filter_In. now split.
  - intros k Hk. now apply del_keys_get_none.
Qed.

(** ** What the cache can hold *)

Lemma lookup_miss_In (w w1 : World) (kv : string * PlanCacheEntry) :
  lookup w = (Ok None, w1) -> In kv (cache w1) -> In kv (cache w).
Proof.
  destruct (enable_plan_caching (_config (self w))).
  - rewrite run_check_plan_cache. cbn zeta.
    destruct (dict_get _ (cache w)) as [e|].
    + destruct (entry_valid _ _ e); intros [= <-]. cbn. intros H.
      now apply In_dict_del in H.
    + now intros [= <-].
  - now intros [= <-].
Qed.

(** What [_cache_plan] leaves in the cache was there, or is the new entry. *)
Lemma cache_plan_In (r0 : PlanGenerationResult) (w2 : World)
  (k : string) (e : PlanCacheEntry) :
  In (k, e) (cache (snd (_cache_plan r0 w2))) ->
  In (k, e) (cache w2)
  \/ (k = query_key (registry w2) (uif w2)
      /\ query_hash e = k /\ usage_count e = 0
      /\ ce_plan e = plan r0 /\ ce_confidence e = confidence r0).
Proof.
  intros Hin. rewrite run_cache_plan in Hin. cbn zeta in Hin. cbn in Hin.
  apply In_del_keys, In_dict_set in Hin as [[= -> ->] | Hin];
    [right; now repeat split | now left].
Qed.

(** Where the entries of the cache after a [create_plan] come from. *)
Lemma create_plan_cache_In (w w' : World) (r : PlanGenerationResult)
  (k : string) (e : PlanCacheEntry) :
  create_plan w = (Ok r, w') -> In (k, e) (cache w') ->
  In (k, e) (cache w)
  \/ (exists e0, In (k, e0) (cache w)
                 /\ e = with_usage_count e0 (usage_count e0 + 1))
  \/ (k = query_key (registry w) (uif w)
      /\ query_hash e = k /\ usage_count e = 0
      /\ ce_plan e <> [] /\ py_gt (ce_confidence e) (5 # 10) = Ok true).
Proof.
  intros Hrun Hin.
  destruct (create_plan_cases w) as (r' & w'' & Hrun' & Hcases).
  cbn zeta in Hcases. rewrite Hrun in Hrun'. injection Hrun' as <- <-.
  assert (Hnew : forall w1 r0 w2,
             lookup (advance 1 w) = (Ok None, w1) ->
             select_strategy w1 = (Ok r0, w2) ->
             plan r0 <> [] -> py_gt (confidence r0) (5 # 10) = Ok true ->
             In (k, e) (cache (snd (_cache_plan r0 w2))) ->
             In (k, e) (cache w)
             \/ (k = query_key (registry w) (uif w)
                 /\ query_hash e = k /\ usage_count e = 0
                 /\ ce_plan e <> [] /\ py_gt (ce_confidence e) (5 # 10) = Ok true)).
  { intros w1 r0 w2 Hlook Hsel Hpl Hgt Hin'.
    pose proof (lookup_miss_world _ _ Hlook) as (Hs1 & _ & Hu1 & _).
    pose proof (select_strategy_spec _ _ _ Hsel) as [(Hs2 & _ & _ & Hq2 & Hp2) _].
    apply cache_plan_In in Hin' as [Hin' | (-> & Hq & Hu & Hp & Hc)].
    - left. unfold cache in Hin'. rewrite Hs2 in Hin'.
      now apply (lookup_miss_In _ _ _ Hlook).
    - right.
      assert (Hreg : registry w2 = registry w).
      { unfold registry. rewrite Hs2. destruct Hs1 as [c ->]. reflexivity. }
      rewrite Hq, Hu, Hp, Hc, Hreg. cbn in Hu1. rewrite Hu1 in Hq2, Hp2.
      rewrite (query_key_same (registry w) _ _ Hq2 Hp2).
      now repeat split. }
  destruct Hcases as [(Hen & e0 & Hk & Hv & -> & ->)
                     | [(w1 & r0 & w2 & Hlook & Hsel & Hr)
                       | (w1 & wr & ex & Hlook & Htry & Hs & _ & _ & _ & _
                          & _ & Hor & -> & ->)]].
  - cbn in Hin. apply In_dict_set in Hin as [[= -> ->] | Hin]; [| now left].
    right. left. exists e0. split; [now apply dict_get_In | reflexivity].
  - cbn zeta in Hr. destruct Hr as (-> & -> & Hfmt0).
    pose proof (select_strategy_spec _ _ _ Hsel) as [(Hs2 & _) _].
    assert (Hold : In (k, e) (cache w2) -> In (k, e) (cache w)).
    { unfold cache at 1. rewrite Hs2. apply (lookup_miss_In _ _ _ Hlook). }
    destruct (enable_plan_caching (_config (self w))); cbn [andb] in Hin;
      [| left; now apply Hold].
    destruct (plan r0) as [|n pl] eqn:Hpl; cbn [negb andb] in Hin;
      [left; now apply Hold |].
    destruct (py_gt (confidence r0) (5 # 10)) as [[|] | e1] eqn:Hgt;
      try (left; now apply Hold).
    change (cache (advance 1 ?x)) with (cache x) in Hin.
    destruct (Hnew _ _ _ Hlook Hsel) as [Hl | Hr]; try assumption;
      [rewrite Hpl; discriminate | now left | now right; right].
  - destruct Hor as [Hsame | (r0 & w2 & Hsel & _ & Hpl & Hgt & _ & ->)].
    + left. unfold cache in Hin. cbn [self advance] in Hin. rewrite Hsame in Hin.
      now apply (lookup_miss_In _ _ _ Hlook).
    + change (cache (advance 1 (advance 1 ?x))) with (cache x) in Hin.
      destruct (Hnew _ _ _ Hlook Hsel Hpl Hgt Hin) as [Hl | Hr];
        [now left | now right; right].
Qed.

Lemma registered_after_names (l : list Skill) (reg : list (string * Skill)) :
  (forall k skill, In (k, skill) reg -> skill_name skill = k) ->
  forall k skill, In (k, skill) (registered_after l reg) -> skill_name skill = k.
Proof.
  unfold registered_after. revert reg.
  induction l as [|s l IH]; intros reg H; cbn; [exact H |].
  apply IH. intros k skill Hin.
  apply In_dict_set in Hin as [[= -> ->] | Hin]; [reflexivity | now apply H].
Qed.

Lemma planner_inv_env (w w' : World) :
  self w' = self w -> planner_inv w -> planner_inv w'.
Proof.
  unfold planner_inv, registry, cache. now intros ->.
Qed.

Lemma usage_nonneg_after (e : PlanCacheEntry) (k : string) :
  entry_ok k e -> entry_ok k (with_usage_count e (usage_count e + 1)).
Proof.
  intros (H1 & H2 & H3 & H4). repeat split; try assumption. cbn. lia.
Qed.

(** X10.  In every state a planner can reach after its construction, the
    registry and the cache bind each key once, each skill is registered
    under its own name, and each cached entry is stored under its own
    query hash with a non-empty plan, a confidence greater than 0.5 and
    a usage count that is not negative; so a cache hit never returns an
    empty plan or a confidence of 0.5 or less. *)
Theorem reachable_invariant (w : World) :
  reachable w ->
  planner_inv w
  /\ (forall r w',
         create_plan w = (Ok r, w') -> cache_hit r = true ->
         plan r <> [] /\ py_gt (confidence r) (5 # 10) = Ok true).
Proof.
  intros Hreach.
  assert (Hinv : planner_inv w).
  { induction Hreach as [config en cur li gi w | skill w _ IH | l w _ IH
                        | w _ IH | w _ IH | w w' _ IH Hself].
    - assert (Hempty : registry (snd (__init__ config en cur li gi w)) = []
                       /\ cache (snd (__init__ config en cur li gi w)) = []).
      { unfold __init__, _initialize_llm, _initialize_graph_awareness.
        destruct li as [m | e1], gi as [g | e2]; now split. }
      destruct Hempty as [Hr Hc]. unfold planner_inv. rewrite Hr, Hc.
      split; [apply NoDup_nil |]. split; [apply NoDup_nil |].
      split; intros k x [].
    - destruct IH as (Hwr & Hwc & Hn & He).
      split; [apply (dict_wf_set (skill_name skill) skill (registry w) Hwr) |].
      split; [exact Hwc |]. split; [| exact He].
      intros k s Hin. cbn in Hin.
      apply In_dict_set in Hin as [[= -> ->] | Hin]; [reflexivity | now apply Hn].
    - destruct IH as (Hwr & Hwc & Hn & He).
      destruct (run_register_skills l w) as (w' & Hrun & Hreg & Hsame).
      rewrite Hrun. cbn [snd]. destruct Hsame as (Hc & _).
      unfold planner_inv. rewrite Hreg, Hc.
      split; [now apply registered_after_wf |]. split; [exact Hwc |].
      split; [now apply registered_after_names | exact He].
    - destruct IH as (Hwr & Hwc & Hn & He).
      destruct (create_plan_cases w) as (r & w' & Hrun & Hcases).
      assert (Hsame : registry w' = registry w /\ (dict_wf (cache w')
                      /\ forall k e, In (k, e) (cache w') -> entry_ok k e)).
      { split; [| split].
        - cbn zeta in Hcases.
          destruct Hcases as [(_ & e & _ & _ & _ & ->)
                             | [(w1 & r0 & w2 & Hlook & Hsel & _ & -> & _)
                               | (w1 & wr & ex & Hlook & _ & Hs & _ & _ & _ & _
                                  & _ & _ & _ & ->)]].
          + reflexivity.
          + pose proof (lookup_miss_world _ _ Hlook) as ([c Hs1] & _).
            pose proof (select_strategy_spec _ _ _ Hsel) as [(Hs2 & _) _].
            match goal with
            | |- context [if ?b then snd (_cache_plan r0 w2) else w2] =>
                pose proof (store_world b r0 w2) as ([c3 Hs3] & _)
            end.
            unfold registry. cbn [self advance]. rewrite Hs3, Hs2, Hs1.
            reflexivity.
          + destruct Hs as [c Hs].
            unfold registry. cbn [self advance]. rewrite Hs. reflexivity.
        - cbn zeta in Hcases.
          destruct Hcases as [(_ & e & _ & _ & _ & ->)
                             | [(w1 & r0 & w2 & Hlook & Hsel & _ & -> & _)
                               | (w1 & wr & ex & Hlook & _ & Hs & _ & _ & _ & _
                                  & Hwfr & _ & _ & ->)]].
          + cbn. now apply dict_wf_set.
          + pose proof (lookup_miss_world _ _ Hlook) as (_ & _ & _ & _ & Hwf1).
            pose proof (select_strategy_spec _ _ _ Hsel) as [(Hs2 & _) _].
            match goal with
            | |- context [if ?b then snd (_cache_plan r0 w2) else w2] =>
                pose proof (store_world b r0 w2) as (_ & _ & _ & _ & Hwf3)
            end.
            unfold cache in Hwf3 at 1. rewrite Hs2 in Hwf3.
            apply Hwf3, Hwf1, Hwc.
          + pose proof (lookup_miss_world _ _ Hlook) as (_ & _ & _ & _ & Hwf1).
            change (cache (advance 1 wr)) with (cache wr). apply Hwfr, Hwf1, Hwc.
        - intros k e Hin.
          destruct (create_plan_cache_In _ _ _ _ _ Hrun Hin)
            as [Hold | [(e0 & Hold & ->) | (-> & Hq & Hu & Hne & Hgt)]].
          + now apply He.
          + now apply usage_nonneg_after, He.
          + unfold entry_ok. split; [exact Hq |]. split; [exact Hne |].
            split; [exact Hgt | lia]. }
      rewrite Hrun. cbn [snd]. destruct Hsame as (Hreg & Hwc' & He').
      unfold planner_inv. rewrite Hreg.
      split; [exact Hwr |]. split; [exact Hwc' |]. split; [exact Hn | exact He'].
    - destruct IH as (Hwr & Hwc & Hn & He).
      split; [exact Hwr |]. split; [apply NoDup_nil |].
      split; [exact Hn | intros k e []].
    - now apply (planner_inv_env w w'). }
  split; [exact Hinv |].
  intros r w' Hrun Hhit. destruct Hinv as (_ & _ & _ & He).
  destruct (create_plan_cases w) as (r' & w'' & Hrun' & Hcases).
  cbn zeta in Hcases. rewrite Hrun in Hrun'. injection Hrun' as <- <-.
  destruct Hcases as [(Hen & e & Hk & _ & -> & _)
                     | [(w1 & r0 & w2 & Hlook & Hsel & Hr)
                       | (w1 & wr & ex & _ & _ & _ & _ & _ & _ & _ & _ & _ & -> & _)]].
  - apply dict_get_In, He in Hk. destruct Hk as (_ & Hne & Hgt & _). now split.
  - cbn zeta in Hr. destruct Hr as [-> _].
    pose proof (select_strategy_not_hit _ _ _ Hsel) as Hnot.
    cbn [cache_hit with_generation_time] in Hhit. congruence.
  - discriminate.
Qed.

(** ** The rule-based strategy *)

(** The plan of the rule-based strategy, stage by stage. *)
Lemma fallback_plan_closed (w w' : World) (r : PlanGenerationResult) :
  _generate_fallback_plan w = (Ok r, w') ->
  let reg name := dict_mem name (registry w) in
  let q := lower (input_query (uif w)) in
  let l :=
    List.app (if reg "MemoryRetrievalSkill" then ["MemoryRetrievalSkill"] else [])
      (List.app (if any_in conflict_indicators q && reg "ConflictDetectorSkill"
                 then ["ConflictDetectorSkill"] else [])
         (List.app (if any_in multi_hop_indicators q && reg "ImplicitKnowledgeSkill"
                    then ["ImplicitKnowledgeSkill"] else [])
            (if reg "ResponseGenerationSkill"
             then ["ResponseGenerationSkill"] else []))) in
  plan r = match l with [] => ["ResponseGenerationSkill"] | _ => l end
  /\ confidence r = PNum (6 # 10) /\ fallback_used r = true /\ cache_hit r = false.
Proof.
  intros Hrun reg q.
  unfold _generate_fallback_plan in Hrun. unfold bind at 1 in Hrun.
  destruct (fallback_stages w) as [[st | e] w1] eqn:Hst; [| discriminate].
  assert (Hplan : fst st
                  = List.app (if reg "MemoryRetrievalSkill"
                              then ["MemoryRetrievalSkill"] else [])
                      (List.app (if any_in conflict_indicators q
                                    && reg "ConflictDetectorSkill"
                                 then ["ConflictDetectorSkill"] else [])
                         (List.app (if any_in multi_hop_indicators q
                                       && reg "ImplicitKnowledgeSkill"
                                    then ["ImplicitKnowledgeSkill"] else [])
                            (if reg "ResponseGenerationSkill"
                             then ["ResponseGenerationSkill"] else [])))
                  /\ registry w1 = registry w).
  { unfold fallback_stages in Hst. unfold bind at 1, get_uif in Hst. fold q in Hst.
    destruct (retrieval_stage_cases q w)
      as [(Hreg & parts & w2 & Hret & Hfr) | [(Hreg & Hret) | (e & Hret)]].
    - erewrite bind_ok in Hst by exact Hret. unfold bind, get_self, ret in Hst.
      set (c1 := any_in conflict_indicators q) in *.
      set (c2 := any_in multi_hop_indicators q) in *. clearbody c1 c2.
      injection Hst as <- <-. destruct Hfr as (Hself & _).
      unfold reg, registry in *. rewrite Hself, Hreg. cbn [fst snd].
      split; [| reflexivity].
      destruct (c1 && dict_mem "ConflictDetectorSkill" (_registered_skills (self w))),
        (c2 && dict_mem "ImplicitKnowledgeSkill" (_registered_skills (self w))),
        (dict_mem "ResponseGenerationSkill" (_registered_skills (self w)));
        reflexivity.
    - erewrite bind_ok in Hst by exact Hret. unfold bind, get_self, ret in Hst.
      set (c1 := any_in conflict_indicators q) in *.
      set (c2 := any_in multi_hop_indicators q) in *. clearbody c1 c2.
      injection Hst as <- <-.
      unfold reg, registry in *. rewrite Hreg. cbn [fst snd].
      split; [| reflexivity].
      destruct (c1 && dict_mem "ConflictDetectorSkill" (_registered_skills (self w))),
        (c2 && dict_mem "ImplicitKnowledgeSkill" (_registered_skills (self w))),
        (dict_mem "ResponseGenerationSkill" (_registered_skills (self w)));
        reflexivity.
    - erewrite bind_raise in Hst by exact Hret. discriminate. }
  destruct Hplan as [Hplan Hreg]. cbn zeta. rewrite <- Hplan.
  destruct (fst st) as [|name pl] eqn:Hfst.
  - erewrite bind_ok in Hrun
      by (erewrite bind_ok by apply run_get_default_fallback_plan; reflexivity).
    injection Hrun as <- <-. cbn [plan confidence fallback_used cache_hit fst].
    rewrite Hreg, default_plan_cases.
    assert (Hnil : reg "MemoryRetrievalSkill" = false
                   /\ reg "ResponseGenerationSkill" = false).
    { symmetry in Hplan. apply app_eq_nil in Hplan as [H1 H2].
      apply app_eq_nil in H2 as [_ H2]. apply app_eq_nil in H2 as [_ H2].
      split.
      - destruct (reg "MemoryRetrievalSkill"); [discriminate | reflexivity].
      - destruct (reg "ResponseGenerationSkill"); [discriminate | reflexivity]. }
    destruct Hnil as [H1 H2]. unfold reg in H1. rewrite H1. now repeat split.
  - erewrite bind_ok in Hrun by reflexivity. injection Hrun as <- <-.
    cbn [plan confidence fallback_used cache_hit fst]. rewrite Hfst.
    now repeat split.
Qed.

(** X11.  The rule-based plan is never empty and names skills in the fixed
    order memory retrieval, conflict detection, implicit knowledge,
    response generation, each at most once.  Memory retrieval is in it
    exactly if registered; conflict detection (implicit knowledge)
    exactly if registered and the lowered query contains one of the
    conflict (multi-hop) indicators; response generation exactly if
    registered or if nothing else was selected; a registered response
    generation skill comes last.  The confidence is 0.6. *)
Theorem rule_based_plan_shape (w w' : World) (r : PlanGenerationResult) :
  _generate_fallback_plan w = (Ok r, w') ->
  let reg name := dict_mem name (registry w) in
  let q := lower (input_query (uif w)) in
  plan r <> []
  /\ plan r = filter (fun name => str_mem name (plan r))
                ["MemoryRetrievalSkill"; "ConflictDetectorSkill";
                 "ImplicitKnowledgeSkill"; "ResponseGenerationSkill"]
  /\ (In "MemoryRetrievalSkill" (plan r) <-> reg "MemoryRetrievalSkill" = true)
  /\ (In "ConflictDetectorSkill" (plan r)
      <-> reg "ConflictDetectorSkill" = true
          /\ any_in conflict_indicators q = true)
  /\ (In "ImplicitKnowledgeSkill" (plan r)
      <-> reg "ImplicitKnowledgeSkill" = true
          /\ any_in multi_hop_indicators q = true)
  /\ (In "ResponseGenerationSkill" (plan r)
      <-> reg "ResponseGenerationSkill" = true
          \/ plan r = ["ResponseGenerationSkill"])
  /\ (reg "ResponseGenerationSkill" = true ->
      exists before, plan r = List.app before ["ResponseGenerationSkill"])
  /\ confidence r = PNum (6 # 10) /\ fallback_used r = true.
Proof.
  intros Hrun reg q.
  destruct (fallback_plan_closed _ _ _ Hrun) as (Hplan & Hconf & Hfb & _).
  cbn zeta in Hplan. fold q in Hplan. fold reg in Hplan.
  rewrite Hplan. clear Hplan Hrun. subst reg. cbv beta.
  destruct (dict_mem "MemoryRetrievalSkill" (registry w)),
    (dict_mem "ConflictDetectorSkill" (registry w)),
    (dict_mem "ImplicitKnowledgeSkill" (registry w)),
    (dict_mem "ResponseGenerationSkill" (registry w)),
    (any_in conflict_indicators q), (any_in multi_hop_indicators q);
    cbn [andb List.app];
    (split; [discriminate |]); (split; [reflexivity |]);
    (split; [cbn; intuition discriminate |]);
    (split; [cbn; intuition discriminate |]);
    (split; [cbn; intuition discriminate |]);
    (split; [cbn; intuition discriminate |]);
    (split; [| split; assumption]);
    intros Hrg; try discriminate Hrg.
  all: first [ now exists []
             | now exists ["MemoryRetrievalSkill"]
             | now exists ["ConflictDetectorSkill"]
             | now exists ["ImplicitKnowledgeSkill"]
             | now exists ["MemoryRetrievalSkill"; "ConflictDetectorSkill"]
             | now exists ["MemoryRetrievalSkill"; "ImplicitKnowledgeSkill"]
             | now exists ["ConflictDetectorSkill"; "ImplicitKnowledgeSkill"]
             | now exists ["MemoryRetrievalSkill"; "ConflictDetectorSkill";
                           "ImplicitKnowledgeSkill"] ].
Qed.

Lemma fallback_plan_raise_inv (w w' : World) (e : exn) :
  _generate_fallback_plan w = (Raise e, w') ->
  retrieval_stage (lower (input_query (uif w))) w = (Raise e, w').
Proof.
  unfold _generate_fallback_plan. unfold bind at 1.
  destruct (fallback_stages w) as [[st | e0] w1] eqn:Hst.
  - destruct (fst st).
    + erewrite bind_ok
        by (erewrite bind_ok by apply run_get_default_fallback_plan; reflexivity).
      discriminate.
    + erewrite bind_ok by reflexivity. discriminate.
  - intros [= <- <-].
    unfold fallback_stages in Hst. unfold bind at 1, get_uif in Hst.
    destruct (retrieval_stage (lower (input_query (uif w))) w)
      as [[st0 | e1] w2] eqn:Hret.
    + erewrite bind_ok in Hst by exact Hret.
      unfold bind, get_self, ret in Hst. discriminate.
    + erewrite bind_raise in Hst by exact Hret. exact Hst.
Qed.

(** The rule-based strategy raises before it has written anything. *)
Lemma fallback_plan_raise_world (w w' : World) (e : exn) :
  _generate_fallback_plan w = (Raise e, w') -> w' = w.
Proof.
  intros H. apply fallback_plan_raise_inv in H.
  destruct (retrieval_stage_cases (lower (input_query (uif w))) w)
    as [(_ & parts & w1 & Hrun & _) | [(_ & Hrun) | (e' & Hrun)]]; congruence.
Qed.

(** X12.  The rule-based strategy raises exactly when the memory-retrieval
    skill is registered and the request's [search_context] is bound to
    something that is not a dict: the exception is a [TypeError] and
    nothing has been written.  Otherwise it returns a result, leaving
    the planner, the clock, the query text and the profile as they were,
    and the whole request when the memory-retrieval skill is not
    registered. *)
Theorem rule_based_plan_raises (w : World) :
  let bad :=
    dict_mem "MemoryRetrievalSkill" (registry w) = true
    /\ exists v, dict_get "search_context" (intermediate_data (uif w)) = Some v
                 /\ forall sc, v <> PDict sc in
  (bad -> exists e, _generate_fallback_plan w = (Raise e, w)
                    /\ exc_type e = TypeError)
  /\ (~ bad ->
      exists r w', _generate_fallback_plan w = (Ok r, w') /\ frame w w'
                   /\ (dict_mem "MemoryRetrievalSkill" (registry w) = false ->
                       w' = w)).
Proof.
  cbn zeta. set (q := lower (input_query (uif w))). split.
  - intros (Hreg & v & Hv & Hnd).
    pose proof (retrieval_stage_raises q w v Hreg Hv Hnd) as Hret.
    destruct (_generate_fallback_plan w) as [[r | e] w'] eqn:Hrun.
    + destruct (fallback_plan_world _ _ _ Hrun) as [st Hst].
      fold q in Hst. congruence.
    + apply fallback_plan_raise_inv in Hrun. fold q in Hrun.
      rewrite Hret in Hrun. injection Hrun as <- <-.
      eexists. split; reflexivity.
  - intros Hgood.
    destruct (_generate_fallback_plan w) as [[r | e] w'] eqn:Hrun.
    + exists r, w'. split; [reflexivity |].
      split; [apply (fallback_plan_spec _ _ _ Hrun) |].
      intros Hreg. destruct (fallback_plan_world _ _ _ Hrun) as [st Hst].
      fold q in Hst.
      destruct (retrieval_stage_cases q w)
        as [(Hreg' & _) | [(_ & Hret) | (e & Hret)]]; congruence.
    + exfalso. apply fallback_plan_raise_inv in Hrun. fold q in Hrun.
      destruct (dict_mem "MemoryRetrievalSkill" (registry w)) eqn:Hreg.
      * destruct (determine_retrieval_mode_total q w) as [mode Hmode].
        destruct (determine_graph_depth_total q w) as (depth & Hdepth & _).
        destruct (dict_get "search_context" (intermediate_data (uif w)))
          as [v|] eqn:Hv.
        -- destruct v as [ | | | | | |sc];
             try (apply Hgood; split; [reflexivity |]; eexists;
                  split; [reflexivity | discriminate]).
           rewrite (run_retrieval_stage q mode depth w sc Hmode Hdepth Hreg) in Hrun
             by now left.
           discriminate.
        -- rewrite (run_retrieval_stage q mode depth w [] Hmode Hdepth Hreg) in Hrun
             by now right.
           discriminate.
      * destruct (retrieval_stage_cases q w)
          as [(Hreg' & _) | [(_ & Hret) | (e' & Hret)]]; try congruence.
        unfold retrieval_stage, bind, get_uif, get_self in Hret.
        unfold registry in Hreg. rewrite Hreg in Hret. discriminate.
Qed.

(** ** The model strategy *)

(** X13.  Unless the model returns an answer that is accepted and names at
    least one skill, the model strategy returns exactly what the
    rule-based strategy returns on the same request: when there is no
    model, when it raises, when its answer has no brace pair, makes
    [json.loads] raise (whatever the class of the exception), is not a
    dict with a plan list of registered names within the length limit,
    or has an empty plan. *)
Theorem model_plan_degrades (w : World) :
  (forall prompt generate response v l,
      _create_planning_prompt w = (Ok prompt, w) ->
      _llm_model (self w) = Some generate -> generate prompt = Ok response ->
      brace_pair response = true -> json_loads (json_text response) = Ok v ->
      has_plan_list v l -> names_registered (registry w) l ->
      Z.of_nat (List.length l) <= max_plan_length (_config (self w)) ->
      l = []) ->
  _generate_llm_plan w = _generate_fallback_plan w.
Proof.
  intros Hnone.
  assert (Hretry : forall o w1,
             _generate_fallback_plan w = (o, w1) ->
             match o with
             | Ok r => (Ok r, w1)
             | Raise e => _generate_fallback_plan w1
             end = _generate_fallback_plan w).
  { intros [r | e] w1 H; [now rewrite H |].
    rewrite (fallback_plan_raise_world _ _ _ H). reflexivity. }
  unfold _generate_llm_plan, try_except.
  match goal with
  | |- context [match ?c w with _ => _ end] =>
      destruct (c w) as [o w1] eqn:Hbody
  end.
  assert (Hgoal : (o, w1) = _generate_fallback_plan w
                  \/ exists e, o = Raise e /\ w1 = w).
  { destruct (run_create_planning_prompt w) as [prompt Hprompt].
    step_ok Hbody by exact Hprompt. step_ok Hbody by reflexivity.
    destruct (_llm_model (self w)) as [generate|] eqn:Hllm.
    2:{ erewrite bind_raise in Hbody by reflexivity. injection Hbody as <- <-.
        right. now eexists. }
    destruct (generate prompt) as [response | e] eqn:Hgen.
    2:{ erewrite bind_raise in Hbody by reflexivity. injection Hbody as <- <-.
        right. now eexists. }
    step_ok Hbody by reflexivity.
    destruct (_parse_llm_response response w) as [[[v|] | e] wp] eqn:Hparse;
      pose proof (parse_world _ _ _ _ Hparse) as ->.
    3:{ erewrite bind_raise in Hbody by exact Hparse. injection Hbody as <- <-.
        right. now eexists. }
    2:{ step_ok Hbody by exact Hparse. step_ok Hbody by reflexivity. now left. }
    step_ok Hbody by exact Hparse.
    apply parse_some_inv in Hparse as (Hpair & Hjson & Hacc & _).
    apply plan_accepted_iff in Hacc as (l & Hl & Hreg & Hlen).
    pose proof (Hnone prompt generate response v l Hprompt eq_refl Hgen Hpair
                      Hjson Hl Hreg Hlen) as ->.
    destruct Hl as (d & -> & Hd).
    assert (Htruthy : truthy (PDict d) = true)
      by (destruct d; [discriminate | reflexivity]).
    rewrite Htruthy in Hbody.
    step_ok Hbody by
      (erewrite bind_ok by (unfold lift, py_get; rewrite Hd; reflexivity);
       reflexivity).
    now left. }
  destruct Hgoal as [Hsame | (e & -> & ->)].
  - symmetry in Hsame. rewrite <- (Hretry o w1 Hsame).
    destruct o; reflexivity.
  - reflexivity.
Qed.

(** X14.  An accepted answer is returned as it is: when the model's answer
    has a JSON object between its first opening and last closing brace,
    with a non-empty plan list of registered names within the length
    limit, the model strategy returns that plan, the answer's
    confidence (0.8 if it has none) and reasoning, without
    [fallback_used], and writes nothing to the request. *)
Theorem model_plan_accepted (w : World) (prompt response : string)
  (generate : string -> outcome string) (d : list (string * pyval))
  (l : list pyval) :
  _create_planning_prompt w = (Ok prompt, w) ->
  _llm_model (self w) = Some generate -> generate prompt = Ok response ->
  brace_pair response = true ->
  json_loads (json_text response) = Ok (PDict d) ->
  dict_get "plan" d = Some (PList l) -> l <> [] ->
  names_registered (registry w) l ->
  Z.of_nat (List.length l) <= max_plan_length (_config (self w)) ->
  exists r,
    _generate_llm_plan w = (Ok r, w)
    /\ map PStr (plan r) = l
    /\ confidence r = match dict_get "confidence" d with
                      | Some c => c
                      | None => PNum (8 # 10)
                      end
    /\ reasoning r = match dict_get "reasoning" d with
                     | Some s => s
                     | None => PStr "Generated by LLM planner"
                     end
    /\ fallback_used r = false /\ cache_hit r = false.
Proof.
  intros Hprompt Hllm Hgen Hpair Hjson Hd Hne Hreg Hlen.
  assert (Hacc : plan_accepted (self w) (PDict d) = true).
  { apply plan_accepted_iff. exists l. split; [| now split]. now exists d. }
  assert (Htruthy : truthy (PDict d) = true)
    by (destruct d; [discriminate | reflexivity]).
  eexists. split.
  - unfold _generate_llm_plan, try_except.
    erewrite bind_ok by exact Hprompt. cbv beta iota.
    erewrite bind_ok by reflexivity. cbv beta iota. rewrite Hllm.
    erewrite bind_ok by (unfold lift; rewrite Hgen; reflexivity). cbv beta iota.
    erewrite bind_ok
      by (rewrite run_parse_llm_response, Hpair, Hjson, Hacc; reflexivity).
    cbv beta iota. rewrite Htruthy.
    erewrite bind_ok
      by (erewrite bind_ok by (unfold lift, py_get; rewrite Hd; reflexivity);
          reflexivity).
    cbv beta iota. destruct l as [|x l]; [contradiction |]. cbn [truthy].
    erewrite bind_ok by (unfold lift, py_getitem; rewrite Hd; reflexivity).
    cbv beta iota. erewrite bind_ok by reflexivity. cbv beta iota.
    erewrite bind_ok by reflexivity. cbv beta iota. reflexivity.
  - cbn [plan confidence reasoning fallback_used cache_hit names_of].
    destruct (str_items_registered _ _ Hreg) as (_ & _ & Hmap).
    now repeat split.
Qed.

(** ** The curriculum strategy *)

(** X15.  When the curriculum returns a plan, it is passed on as it is (not
    validated against the registry or the length limit) with the
    curriculum's confidence threshold as confidence, and the request is
    annotated with the curriculum's level, complexity, strategy and
    effort, nothing else changing.  When the curriculum raises, the
    request is not annotated and the result is exactly that of the
    model strategy if the planner has a model, of the rule-based
    strategy otherwise. *)
Theorem curriculum_strategy (w : World)
  (generate : string -> list string -> outcome ReasoningPlan) :
  _curriculum (self w) = Some generate ->
  match generate (input_query (uif w)) (dict_keys (registry w)) with
  | Ok rp =>
      exists r w',
        _generate_curriculum_plan w = (Ok r, w')
        /\ plan r = skills rp /\ confidence r = PNum (confidence_threshold rp)
        /\ fallback_used r = false /\ cache_hit r = false
        /\ self w' = self w /\ clock w' = clock w /\ ticks w' = ticks w
        /\ input_query (uif w') = input_query (uif w)
        /\ active_profile (uif w') = active_profile (uif w)
        /\ user_context (uif w') = user_context (uif w)
        /\ intermediate_data (uif w') = intermediate_data (uif w)
        /\ uif_curriculum_level (uif w') = Some (level_value (curriculum_level rp))
        /\ uif_complexity_score (uif w') = Some (complexity_score rp)
        /\ uif_reasoning_strategy (uif w') = Some (reasoning_strategy rp)
        /\ uif_estimated_effort (uif w') = Some (estimated_effort rp)
  | Raise _ =>
      _generate_curriculum_plan w
      = match _llm_model (self w) with
        | Some _ => _generate_llm_plan w
        | None => _generate_fallback_plan w
        end
  end.
Proof.
  intros Hcur. unfold registry.
  destruct (generate (input_query (uif w)) (dict_keys (_registered_skills (self w))))
    as [rp | e] eqn:Hgen.
  - do 2 eexists. split.
    + unfold _generate_curriculum_plan, try_except.
      erewrite bind_ok by reflexivity. cbv beta iota.
      erewrite bind_ok by reflexivity. cbv beta iota. rewrite Hcur.
      erewrite bind_ok by (unfold lift; rewrite Hgen; reflexivity).
      cbv beta iota. erewrite bind_ok by reflexivity. reflexivity.
    + cbn. now repeat split.
  - unfold _generate_curriculum_plan, try_except.
    erewrite bind_ok by reflexivity. cbv beta iota.
    erewrite bind_ok by reflexivity. cbv beta iota. rewrite Hcur.
    erewrite bind_raise by (unfold lift; rewrite Hgen; reflexivity).
    cbn [any_exception]. erewrite bind_ok by reflexivity.
    now destruct (_llm_model (self w)).
Qed.

(** ** Graph awareness *)

(** X16.  The status report agrees with the classifiers: for every query the
    retrieval mode chosen is one of the [supported_modes] reported, the
    graph depth chosen lies between 1 and the [max_graph_depth]
    reported and is the [default_graph_depth] when the query contains
    no depth indicator, and [graph_available] is what [is_graph_aware]
    answers; none of the four changes anything. *)
Theorem graph_status_consistent (w : World) (q : string) :
  exists s mode depth,
    get_graph_status w = (Ok s, w)
    /\ is_graph_aware w = (Ok (graph_available s), w)
    /\ _determine_retrieval_mode q w = (Ok mode, w)
    /\ _determine_graph_depth q w = (Ok depth, w)
    /\ In mode (supported_modes s)
    /\ 1 <= depth <= max_graph_depth s
    /\ (any_in deep_indicators q = false ->
        any_in depth_multi_hop_indicators q = false ->
        any_in simple_indicators q = false ->
        depth = default_graph_depth s)
    /\ (graph_available s = false -> supported_modes s = ["VECTOR"]).
Proof.
  destruct (determine_retrieval_mode_total q w) as [mode Hmode].
  destruct (determine_graph_depth_total q w) as (depth & Hdepth & Hrange).
  eexists. exists mode, depth.
  split; [reflexivity |]. split; [reflexivity |].
  split; [exact Hmode |]. split; [exact Hdepth |].
  cbn [supported_modes max_graph_depth default_graph_depth graph_available].
  split; [| split; [exact Hrange | split]].
  - unfold _determine_retrieval_mode, bind, get_self, ret in Hmode.
    destruct (_graph_database (self w)); cbn [negb] in Hmode.
    + repeat match type of Hmode with
             | context [if ?b then _ else _] => destruct b
             end;
        cbv beta in Hmode; injection Hmode as <-; cbn; tauto.
    + cbv beta in Hmode. injection Hmode as <-. now left.
  - intros H1 H2 H3.
    assert (Hcount : forall l, any_in l q = false -> (count_in l q >? 0) = false).
    { intros l Hl. unfold any_in in Hl. unfold count_in.
      assert (Hnil : filter (fun i => str_in i q) l = []).
      { induction l as [|x l IH]; [reflexivity |]. cbn in Hl |- *.
        apply orb_false_iff in Hl as [-> Hl]. now apply IH. }
      now rewrite Hnil. }
    unfold _determine_graph_depth, ret in Hdepth.
    rewrite (Hcount _ H1), (Hcount _ H2), (Hcount _ H3) in Hdepth.
    now injection Hdepth as <-.
  - now intros ->.
Qed.

(** ** A planner as constructed *)

Lemma fallback_plan_no_retrieval (w : World) :
  dict_mem "MemoryRetrievalSkill" (registry w) = false ->
  exists r, _generate_fallback_plan w = (Ok r, w).
Proof.
  intros Hreg.
  destruct (retrieval_stage_cases (lower (input_query (uif w))) w)
    as [(Hreg' & _) | [(_ & Hret) | (e & Hret)]]; [congruence | |].
  - destruct (_generate_fallback_plan w) as [[r | e] w'] eqn:Hrun.
    + destruct (fallback_plan_world _ _ _ Hrun) as [st Hst].
      exists r. congruence.
    + apply fallback_plan_raise_inv in Hrun. congruence.
  - unfold retrieval_stage, bind, get_uif, get_self in Hret.
    unfold registry in Hreg. rewrite Hreg in Hret. discriminate.
Qed.

(** A result whose confidence the log line can format gets through the
    guarded block of [create_plan]. *)
Lemma create_plan_try_no_raise (start_time : Z) (w w1 w2 : World)
  (r0 : PlanGenerationResult) :
  lookup w = (Ok None, w1) ->
  select_strategy w1 = (Ok r0, w2) ->
  format_2f (confidence r0) = Ok tt ->
  exists r w', create_plan_try start_time w = (Ok r, w').
Proof.
  intros Hlook Hsel Hfmt.
  destruct (format_py_gt _ (5 # 10) Hfmt) as [b Hgt].
  assert (Hlate : forall w3 : World,
             exists r w',
               (t <- now ;;
                (let result :=
                   with_generation_time r0 (total_seconds (t - start_time)) in
                 lift (format_2f (confidence result)) ;; ret result)) w3
               = (Ok r, w')).
  { intros w3. do 2 eexists. erewrite bind_ok by reflexivity. cbv beta iota.
    cbn [confidence with_generation_time]. rewrite Hfmt.
    erewrite bind_ok by reflexivity. reflexivity. }
  unfold create_plan_try. erewrite bind_ok by reflexivity. cbv beta iota.
  erewrite bind_ok by exact Hlook. cbv beta iota.
  erewrite bind_ok by exact Hsel. cbv beta iota.
  destruct (enable_plan_caching (_config (self w))).
  - destruct (plan r0) as [|n pl].
    + erewrite bind_ok by reflexivity. cbv beta iota.
      erewrite bind_ok by reflexivity. apply Hlate.
    + erewrite bind_ok by (unfold lift; rewrite Hgt; reflexivity). cbv beta iota.
      destruct b.
      * pose proof (run_cache_plan r0 w2) as Hrun. cbn zeta in Hrun.
        erewrite bind_ok by exact Hrun. apply Hlate.
      * erewrite bind_ok by reflexivity. apply Hlate.
  - erewrite bind_ok by reflexivity. cbv beta iota.
    erewrite bind_ok by reflexivity. apply Hlate.
Qed.

(** X17.  Construction never raises, whatever the two imports do: the planner
    starts with no skill and an empty cache, without a model when its
    import fails, and without graph awareness when that import fails.
    A planner constructed without curriculum never calls the
    performance recorder.  Constructed without curriculum and without a
    model, and as long as no skill is registered, it answers every
    request, the first and the later ones, with the bare
    response-generation plan at confidence 0.6, writing nothing to the
    request; the answer is marked [fallback_used] exactly when it is
    not a cache hit, and it is not a hit when the cache is empty or
    caching is disabled. *)
Theorem init_spec (config : SOFConfig) (enable_curriculum : bool)
  (curriculum : string -> list string -> outcome ReasoningPlan)
  (llm_import : outcome (option (string -> outcome string)))
  (graph_import : outcome bool) (w0 : World) :
  exists w1,
    __init__ config enable_curriculum curriculum llm_import graph_import w0
    = (Ok tt, w1)
    /\ get_registered_skills w1 = (Ok [], w1)
    /\ cache w1 = [] /\ _config (self w1) = config
    /\ _llm_model (self w1) = match llm_import with Ok m => m | Raise _ => None end
    /\ _graph_database (self w1)
       = match graph_import with Ok g => g | Raise _ => false end
    /\ _curriculum (self w1) = (if enable_curriculum then Some curriculum else None)
    /\ (enable_curriculum = false ->
        (forall record_performance the_plan success c t,
            record_curriculum_performance record_performance the_plan success c t w1
            = (Ok tt, w1))
        /\ (_llm_model (self w1) = None ->
            unequipped w1
            /\ forall w,
                 unequipped w ->
                 exists r w',
                   create_plan w = (Ok r, w')
                   /\ plan r = ["ResponseGenerationSkill"]
                   /\ confidence r = PNum (6 # 10)
                   /\ fallback_used r = negb (cache_hit r)
                   /\ (cache w = []
                       \/ enable_plan_caching (_config (self w)) = false ->
                       cache_hit r = false)
                   /\ uif w' = uif w
                   /\ unequipped w')).
Proof.
  assert (Hrun : exists w1,
             __init__ config enable_curriculum curriculum llm_import graph_import w0
             = (Ok tt, w1)
             /\ self w1
                = {| _config := config; _registered_skills := [];
                     _plan_cache := [];
                     _llm_model := match llm_import with
                                   | Ok m => m
                                   | Raise _ => None
                                   end;
                     _graph_database := match graph_import with
                                        | Ok g => g
                                        | Raise _ => false
                                        end;
                     _curriculum := if enable_curriculum
                                    then Some curriculum else None |}).
  { unfold __init__, _initialize_llm, _initialize_graph_awareness.
    destruct llm_import as [m | e1], graph_import as [g | e2];
      eexists; split; reflexivity. }
  destruct Hrun as (w1 & Hrun & Hself). exists w1.
  split; [exact Hrun |].
  split; [unfold get_registered_skills, bind, get_self, ret; now rewrite Hself |].
  unfold cache at 1. rewrite Hself.
  cbn [_plan_cache _config _llm_model _graph_database _curriculum].
  do 5 (split; [reflexivity |]).
  intros ->. split.
  - intros rec pl success c t.
    unfold record_curriculum_performance, bind, get_self. now rewrite Hself.
  - intros Hllm. split.
    { unfold unequipped, registry, cache. rewrite Hself.
      cbn [_registered_skills _curriculum _llm_model _plan_cache].
      split; [reflexivity |]. split; [reflexivity |]. split; [exact Hllm |].
      intros k e []. }
    clear w0 w1 Hrun Hself Hllm.
    intros w (Hreg & Hcur & Hmod & Hentries).
    assert (Hkeep : forall wx,
               same_but_cache (self w) (self wx) ->
               registry wx = [] /\ _curriculum (self wx) = None
               /\ _llm_model (self wx) = None).
    { intros wx [c Hc]. unfold registry in *. rewrite Hc. now repeat split. }
    assert (Hfb : forall wx,
               same_but_cache (self w) (self wx) ->
               select_strategy wx = _generate_fallback_plan wx
               /\ exists r0, _generate_fallback_plan wx = (Ok r0, wx)
                             /\ plan r0 = ["ResponseGenerationSkill"]
                             /\ confidence r0 = PNum (6 # 10)
                             /\ fallback_used r0 = true /\ cache_hit r0 = false).
    { intros wx Hwx. destruct (Hkeep wx Hwx) as (Hr & Hc & Hm). split.
      - unfold select_strategy. erewrite bind_ok by reflexivity.
        cbv beta iota. now rewrite Hc, Hm.
      - destruct (fallback_plan_no_retrieval wx) as [r0 Hr0];
          [now rewrite Hr |].
        exists r0. split; [exact Hr0 |].
        destruct (fallback_plan_closed _ _ _ Hr0) as (Hp & Hcf & Hf & Hh).
        cbn zeta in Hp. rewrite Hr in Hp. unfold dict_mem in Hp.
        cbn [dict_get] in Hp. rewrite !andb_false_r in Hp.
        cbn [List.app] in Hp. now repeat split. }
    destruct (create_plan_cases w) as (r & w' & Hcp & Hcases).
    cbn zeta in Hcases. exists r, w'. split; [exact Hcp |].
    destruct Hcases as [(Hen & e & Hk & _ & -> & ->)
                       | [(wa & r0 & w2 & Hlook & Hsel & Hr)
                         | (wa & wr & ex & Hlook & Htry & _)]].
    + apply dict_get_In in Hk. destruct (Hentries _ _ Hk) as [Hp Hc].
      cbn [plan confidence fallback_used cache_hit negb].
      split; [exact Hp |]. split; [exact Hc |]. split; [reflexivity |].
      split; [intros [Hnil | Hdis];
              [rewrite Hnil in Hk; destruct Hk | congruence] |].
      split; [reflexivity |].
      split; [exact Hreg |]. split; [exact Hcur |]. split; [exact Hmod |].
      intros k e1 Hin. cbn in Hin.
      apply In_dict_set in Hin as [[= -> ->] | Hin];
        [now split | exact (Hentries _ _ Hin)].
    + pose proof (lookup_miss_world _ _ Hlook) as (Hs1 & _ & Hu1 & _).
      change (self (advance 1 w)) with (self w) in Hs1.
      destruct (Hfb wa Hs1) as (Hsame & r1 & Hr1 & Hp & Hc & Hf & Hh).
      rewrite Hsame, Hr1 in Hsel. injection Hsel as <- <-.
      cbn zeta in Hr. destruct Hr as (-> & -> & Hfmt0).
      cbn [plan confidence fallback_used cache_hit with_generation_time].
      split; [exact Hp |]. split; [exact Hc |].
      split; [now rewrite Hf, Hh |]. split; [intros _; exact Hh |].
      match goal with
      | |- context [if ?b then snd (_cache_plan r1 wa) else wa] =>
          pose proof (store_world b r1 wa) as (Hs3 & Hu3 & _);
          assert (Hin3 : forall k e,
                     In (k, e) (cache (if b then snd (_cache_plan r1 wa) else wa)) ->
                     In (k, e) (cache wa)
                     \/ (ce_plan e = plan r1 /\ ce_confidence e = confidence r1))
            by (intros k e Hin; destruct b;
                [apply cache_plan_In in Hin as [Hin | (_ & _ & _ & Hpe & Hce)];
                 [now left | now right]
                | now left]);
          set (w3 := if b then snd (_cache_plan r1 wa) else wa) in *
      end.
      clearbody w3. cbn zeta in Hs3, Hu3.
      split; [cbn [uif advance]; rewrite Hu3; exact Hu1 |].
      destruct (Hkeep w3 (same_but_cache_trans _ _ _ Hs1 Hs3)) as (Hr3 & Hc3 & Hm3).
      unfold unequipped.
      split; [exact Hr3 |]. split; [exact Hc3 |]. split; [exact Hm3 |].
      intros k e Hin. change (cache (advance 1 w3)) with (cache w3) in Hin.
      apply Hin3 in Hin as [Hin | [Hpe Hce]].
      * apply (lookup_miss_In _ _ _ Hlook) in Hin. exact (Hentries _ _ Hin).
      * split; congruence.
    + exfalso.
      pose proof (lookup_miss_world _ _ Hlook) as (Hs1 & _).
      change (self (advance 1 w)) with (self w) in Hs1.
      destruct (Hfb wa Hs1) as (Hsame & r1 & Hr1 & _ & Hc & _).
      rewrite <- Hsame in Hr1.
      destruct (create_plan_try_no_raise (time_now w) _ _ _ r1 Hlook Hr1)
        as (r2 & w2 & Hok); [now rewrite Hc |].
      congruence.
Qed.

(** ** The planning prompt *)

Lemma prefix_inv (a h : string) : prefix a h = true -> exists s, h = a ++ s.
Proof.
  revert h. induction a as [|c a IH]; intros h; cbn.
  - intros _. now exists h.
  - destruct h as [|c' h]; [discriminate |]. cbn.
    destruct (ascii_dec c c') as [<- |]; [| discriminate].
    intros H. destruct (IH h H) as [s ->]. now exists s.
Qed.

Lemma str_in_app_l (p s t : string) : str_in s t = true -> str_in s (p ++ t) = true.
Proof.
  intros H. induction p as [|c p IH]; cbn [append]; [exact H |].
  cbn [str_in]. rewrite IH. apply orb_true_r.
Qed.

Lemma str_in_iff (a b : string) :
  str_in a b = true <-> exists p s, b = p ++ a ++ s.
Proof.
  split.
  - induction b as [|c b IH]; cbn [str_in]; intros H.
    + rewrite orb_false_r in H. apply prefix_inv in H as [s ->]. now exists "", s.
    + apply orb_true_iff in H as [H | H].
      * apply prefix_inv in H as [s ->]. now exists "", s.
      * destruct (IH H) as (p & s & ->). now exists (String c p), s.
  - intros (p & s & ->). apply str_in_app_l, str_in_self_app.
Qed.

Lemma str_in_trans (a b c : string) :
  str_in a b = true -> str_in b c = true -> str_in a c = true.
Proof.
  rewrite !str_in_iff. intros (p & s & ->) (p' & s' & ->).
  exists (p' ++ p), (s ++ s'). now rewrite !app_assoc.
Qed.

Lemma str_in_join (sep x : string) (parts : list string) :
  In x parts -> str_in x (join sep parts) = true.
Proof.
  induction parts as [|y [|z parts] IH]; [intros [] | |].
  - intros [-> | []]. cbn. rewrite <- (app_empty_r x) at 2. apply str_in_self_app.
  - intros [-> | Hin].
    + rewrite join_cons. apply str_in_self_app.
    + rewrite join_cons. apply str_in_app_l, str_in_app_l, IH, Hin.
Qed.

Lemma join_snoc (sep x : string) (l : list string) :
  l <> [] -> join sep (List.app l [x]) = join sep l ++ sep ++ x.
Proof.
  induction l as [|y [|z l] IH]; [contradiction | reflexivity |].
  intros _. change (List.app (y :: z :: l) [x]) with (y :: z :: List.app l [x]).
  rewrite !join_cons. change (z :: List.app l [x]) with (List.app (z :: l) [x]).
  rewrite IH by discriminate. now rewrite <- !app_assoc.
Qed.

(** X18.  The prompt shows the model the query, every registered skill with
    its description, inputs, outputs and category, the user context
    when there is one, and the answer format; building it changes
    nothing. *)
Theorem planning_prompt_contents (w : World) :
  exists prompt,
    _create_planning_prompt w = (Ok prompt, w)
    /\ str_in (input_query (uif w)) prompt = true
    /\ (forall name skill,
           In (name, skill) (registry w) ->
           str_in ("- " ++ name ++ ": " ++ skill_description skill) prompt = true
           /\ str_in name prompt = true
           /\ str_in ("  Inputs: " ++ py_str (PList (map PStr (required_inputs skill))))
                     prompt = true
           /\ str_in ("  Outputs: " ++ py_str (PList (map PStr (output_keys skill))))
                     prompt = true
           /\ str_in ("  Category: " ++ skill_category skill) prompt = true)
    /\ (user_context (uif w) <> [] ->
        str_in (py_str (PDict (user_context (uif w)))) prompt = true)
    /\ str_in "Response Format (JSON only):" prompt = true
    /\ exists before, prompt = before ++ "Your JSON response:".
Proof.
  eexists. split; [reflexivity |].
  split; [| split; [| split; [| split]]].
  - apply (str_in_trans _ ("User Query: " ++ input_query (uif w))).
    + apply str_in_app_r.
    + apply str_in_join. cbn. tauto.
  - intros name skill Hin.
    assert (Hline : forall line prompt_parts,
               In line ["- " ++ name ++ ": " ++ skill_description skill;
                        "  Inputs: "
                        ++ py_str (PList (map PStr (required_inputs skill)));
                        "  Outputs: "
                        ++ py_str (PList (map PStr (output_keys skill)));
                        "  Category: " ++ skill_category skill; ""] ->
               (forall x,
                   In x (flat_map
                           (fun item : string * Skill =>
                              ["- " ++ fst item ++ ": "
                               ++ skill_description (snd item);
                               "  Inputs: "
                               ++ py_str (PList (map PStr (required_inputs (snd item))));
                               "  Outputs: "
                               ++ py_str (PList (map PStr (output_keys (snd item))));
                               "  Category: " ++ skill_category (snd item); ""])
                           (_registered_skills (self w))) ->
                   In x prompt_parts) ->
               str_in line (join newline prompt_parts) = true).
    { intros line parts Hl Hparts. apply str_in_join, Hparts.
      apply in_flat_map. exists (name, skill). split; [exact Hin | exact Hl]. }
    assert (Hparts : forall (pre post : list string) l x,
               In x l -> In x (List.app pre (List.app l post))).
    { intros pre post l x Hx. apply in_or_app. right. apply in_or_app. now left. }
    split; [apply Hline; [cbn; tauto | apply Hparts] |].
    split; [| split; [apply Hline; [cbn; tauto | apply Hparts]
                     | split; (apply Hline; [cbn; tauto | apply Hparts])]].
    eapply str_in_trans; [| apply Hline; [left; reflexivity | apply Hparts]].
    apply str_in_app_l, str_in_self_app.
  - intros Hctx. apply str_in_join. apply in_or_app. right.
    apply in_or_app. right. apply in_or_app. left.
    destruct (user_context (uif w)); [contradiction | cbn; tauto].
  - apply str_in_join. apply in_or_app. right.
    apply in_or_app. right. apply in_or_app. right. cbn. tauto.
  - rewrite !List.app_assoc.
    match goal with
    | |- exists before, join newline (List.app ?pre ?instr) = _ =>
        replace instr with (List.app (removelast instr) ["Your JSON response:"])
          by reflexivity;
        rewrite (List.app_assoc pre), join_snoc;
        [exists (join newline (List.app pre (removelast instr)) ++ newline) |]
    end.
    + now rewrite <- app_assoc.
    + intros H. apply app_eq_nil in H as [_ H]. discriminate.
Qed.

(** ** The registry fingerprint *)

Lemma ascii_compare_lt_trans (a b c : ascii) :
  Ascii.compare a b = Lt -> Ascii.compare b c = Lt -> Ascii.compare a c = Lt.
Proof. unfold Ascii.compare. rewrite !N.compare_lt_iff. apply N.lt_trans. Qed.

Lemma string_leb_trans (a b c : string) :
  String.leb a b = true -> String.leb b c = true -> String.leb a c = true.
Proof.
  unfold String.leb. revert b c.
  induction a as [|x a IH]; intros [|y b] [|z c]; cbn; try easy.
  destruct (Ascii.compare x y) eqn:Exy; [| | easy].
  - apply Ascii.compare_eq_iff in Exy as ->.
    destruct (Ascii.compare y z) eqn:Eyz; [apply IH | easy | easy].
  - destruct (Ascii.compare y z) eqn:Eyz; [| | easy].
    + apply Ascii.compare_eq_iff in Eyz as <-. now rewrite Exy.
    + now rewrite (ascii_compare_lt_trans _ _ _ Exy Eyz).
Qed.

Lemma insert_sorted_sorted (x : string) (l : list string) :
  StronglySorted (fun a b => String.leb a b = true) l ->
  StronglySorted (fun a b => String.leb a b = true) (insert_sorted x l).
Proof.
  induction l as [|y l IH]; cbn; intros H.
  - repeat constructor.
  - inversion H as [|? ? Hs Hall]; subst.
    destruct (String.leb x y) eqn:Hxy.
    + constructor; [exact H |]. constructor; [exact Hxy |].
      eapply Forall_impl; [| exact Hall].
      intros z Hz. exact (string_leb_trans _ _ _ Hxy Hz).
    + constructor; [now apply IH |].
      apply Forall_forall. intros z Hz.
      apply (Permutation_in _ (insert_sorted_perm x l)) in Hz as [<- | Hz].
      * destruct (String.leb_total x y) as [H1 | H1]; congruence.
      * exact (proj1 (Forall_forall _ _) Hall z Hz).
Qed.

Lemma sorted_sorted (l : list string) :
  StronglySorted (fun a b => String.leb a b = true) (sorted l).
Proof.
  induction l as [|x l IH]; cbn; [constructor | now apply insert_sorted_sorted].
Qed.

Lemma sorted_unique (l l' : list string) :
  StronglySorted (fun a b => String.leb a b = true) l ->
  StronglySorted (fun a b => String.leb a b = true) l' ->
  Permutation l l' -> l = l'.
Proof.
  revert l'. induction l as [|x l IH]; intros l' Hs Hs' Hp.
  - now apply Permutation_nil in Hp.
  - destruct l' as [|y l']; [now apply Permutation_sym, Permutation_nil in Hp |].
    inversion Hs as [|? ? Hsl Hall]; subst.
    inversion Hs' as [|? ? Hsl' Hall']; subst.
    assert (Hxy : x = y).
    { assert (H1 : In x (y :: l')) by (apply (Permutation_in _ Hp); now left).
      assert (H2 : In y (x :: l))
        by (apply (Permutation_in _ (Permutation_sym Hp)); now left).
      destruct H1 as [H1 | H1]; [now symmetry |].
      destruct H2 as [H2 | H2]; [exact H2 |].
      apply String.leb_antisym.
      - exact (proj1 (Forall_forall _ _) Hall y H2).
      - exact (proj1 (Forall_forall _ _) Hall' x H1). }
    subst y. f_equal. apply IH; try assumption.
    exact (Permutation_cons_inv Hp).
Qed.

Lemma sorted_permutation (l l' : list string) :
  Permutation l l' -> sorted l = sorted l'.
Proof.
  intros Hp. apply sorted_unique; try apply sorted_sorted.
  rewrite !sorted_perm. exact Hp.
Qed.

Lemma fingerprint_ext (reg reg' : list (string * Skill)) :
  dict_wf reg -> dict_wf reg' ->
  (forall n, dict_get n reg' = dict_get n reg) ->
  context_string reg' = context_string reg
  /\ forall u, query_key reg' u = query_key reg u.
Proof.
  intros Hwf Hwf' Hget.
  assert (Hs : sorted (dict_keys reg') = sorted (dict_keys reg)).
  { apply sorted_permutation, NoDup_Permutation; try assumption.
    intros n. rewrite <- !dict_mem_keys. unfold dict_mem. now rewrite Hget. }
  split.
  - unfold context_string. rewrite Hs. f_equal. apply map_ext.
    intros n. unfold version_of. now rewrite Hget.
  - intros u. unfold query_key. now rewrite Hs.
Qed.

Lemma registered_after_get (l : list Skill) (reg : list (string * Skill))
  (skill : Skill) :
  NoDup (map skill_name l) -> In skill l ->
  dict_get (skill_name skill) (registered_after l reg) = Some skill.
Proof.
  intros Hnd Hin. apply in_split in Hin as (l1 & l2 & ->).
  rewrite registered_after_app.
  change (registered_after (skill :: l2) (registered_after l1 reg))
    with (registered_after l2 (dict_set (skill_name skill) skill
                                        (registered_after l1 reg))).
  rewrite registered_after_other; [apply dict_get_set_same |].
  intros s Hs Heq. rewrite map_app in Hnd. cbn [map] in Hnd.
  apply NoDup_remove_2 in Hnd. apply Hnd, in_or_app. right.
  rewrite <- Heq. now apply in_map.
Qed.

(** X19.  The registry fingerprint and the cache key of a request depend on
    which skill is registered under which name, not on the order of
    registration: two registries with the same bindings have the same
    fingerprint and the same keys; in particular registering the same
    skills (with distinct names) in another order gives the same
    fingerprint, so cached plans stay valid. *)
Theorem fingerprint_order_independent (reg reg' : list (string * Skill)) :
  dict_wf reg -> dict_wf reg' ->
  (forall n, dict_get n reg' = dict_get n reg) ->
  context_string reg' = context_string reg
  /\ (forall u, query_key reg' u = query_key reg u)
  /\ (forall l l',
         Permutation l l' -> NoDup (map skill_name l) ->
         context_string (registered_after l' []) = context_string (registered_after l [])
         /\ forall u, query_key (registered_after l' []) u
                      = query_key (registered_after l []) u).
Proof.
  intros Hwf Hwf' Hget.
  destruct (fingerprint_ext reg reg' Hwf Hwf' Hget) as [Hc Hk].
  split; [exact Hc |]. split; [exact Hk |].
  intros l l' Hp Hnd.
  assert (Hnd' : NoDup (map skill_name l')).
  { eapply Permutation_NoDup; [| exact Hnd]. now apply Permutation_map. }
  apply fingerprint_ext; try (apply registered_after_wf, NoDup_nil).
  intros n.
  destruct (in_dec string_dec n (map skill_name l)) as [Hin | Hout].
  - apply in_map_iff in Hin as (s & <- & Hs).
    rewrite (registered_after_get l [] s Hnd Hs).
    apply registered_after_get; [exact Hnd' |].
    exact (Permutation_in _ Hp Hs).
  - rewrite !registered_after_other; [reflexivity | |].
    + intros s Hs Heq. apply Hout. rewrite <- Heq. now apply in_map.
    + intros s Hs Heq. apply Hout. rewrite <- Heq. apply in_map.
      exact (Permutation_in _ (Permutation_sym Hp) Hs).
Qed.

(** ** What is stored *)


(** ** What the rule-based strategy writes *)

(** X21.  The rule-based strategy writes to the request only the
    [search_context] entry of [intermediate_data], and only when the
    memory-retrieval skill is registered: every other entry and every
    other field of the request is as before, and inside the search
    context only [retrieval_mode], [graph_depth] and [max_results] can
    change; [max_results] becomes 15 exactly when a graph depth is
    written. *)
Theorem rule_based_plan_writes (w w' : World) (r : PlanGenerationResult) :
  _generate_fallback_plan w = (Ok r, w') ->
  self w' = self w /\ clock w' = clock w /\ ticks w' = ticks w
  /\ input_query (uif w') = input_query (uif w)
  /\ active_profile (uif w') = active_profile (uif w)
  /\ user_context (uif w') = user_context (uif w)
  /\ uif_curriculum_level (uif w') = uif_curriculum_level (uif w)
  /\ uif_complexity_score (uif w') = uif_complexity_score (uif w)
  /\ uif_reasoning_strategy (uif w') = uif_reasoning_strategy (uif w)
  /\ uif_estimated_effort (uif w') = uif_estimated_effort (uif w)
  /\ (forall k, k <> "search_context" ->
                dict_get k (intermediate_data (uif w'))
                = dict_get k (intermediate_data (uif w)))
  /\ (dict_mem "MemoryRetrievalSkill" (registry w) = false -> w' = w)
  /\ (dict_mem "MemoryRetrievalSkill" (registry w) = true ->
      exists sc sc',
        (dict_get "search_context" (intermediate_data (uif w)) = Some (PDict sc)
         \/ (dict_get "search_context" (intermediate_data (uif w)) = None
             /\ sc = []))
        /\ dict_get "search_context" (intermediate_data (uif w')) = Some (PDict sc')
        /\ (exists mode, dict_get "retrieval_mode" sc' = Some (PStr mode))
        /\ (forall k, k <> "retrieval_mode" -> k <> "graph_depth" ->
                      k <> "max_results" -> dict_get k sc' = dict_get k sc)
        /\ ((dict_get "max_results" sc' = Some (PInt 15)
             /\ exists depth, dict_get "graph_depth" sc'
                              = Some (PInt depth))
            \/ (dict_get "max_results" sc' = dict_get "max_results" sc
                /\ dict_get "graph_depth" sc' = dict_get "graph_depth" sc))).
Proof.
  intros Hrun. destruct (fallback_plan_world _ _ _ Hrun) as [st Hst].
  set (q := lower (input_query (uif w))) in *.
  destruct (dict_mem "MemoryRetrievalSkill" (registry w)) eqn:Hreg.
  - destruct (determine_retrieval_mode_total q w) as [mode Hmode].
    destruct (determine_graph_depth_total q w) as (depth & Hdepth & _).
    assert (Hsc : exists sc,
               dict_get "search_context" (intermediate_data (uif w)) = Some (PDict sc)
               \/ (dict_get "search_context" (intermediate_data (uif w)) = None
                   /\ sc = [])).
    { destruct (dict_get "search_context" (intermediate_data (uif w)))
        as [v|] eqn:Hv; [| exists []; now right].
      destruct v as [ | | | | | |sc]; try (exists sc; now left);
        rewrite (retrieval_stage_raises q w _ Hreg Hv) in Hst by discriminate;
        discriminate. }
    destruct Hsc as [sc Hsc].
    rewrite (run_retrieval_stage q mode depth w sc Hmode Hdepth Hreg Hsc) in Hst.
    cbn zeta in Hst. injection Hst as _ <-.
    cbn [self clock ticks uif with_uif with_intermediate_data input_query
         active_profile user_context intermediate_data uif_curriculum_level
         uif_complexity_score uif_reasoning_strategy uif_estimated_effort].
    do 10 (split; [reflexivity |]).
    split; [| split; [discriminate |]].
    + intros k Hk. apply dict_get_set_other. congruence.
    + intros _. exists sc. eexists. split; [exact Hsc |].
      split; [apply dict_get_set_same |].
      match goal with
      | |- context [if ?b then _ else _] => destruct b
      end.
      * split; [| split].
        -- exists mode. rewrite !dict_get_set_other by discriminate.
           apply dict_get_set_same.
        -- intros k H1 H2 H3. rewrite !dict_get_set_other by congruence.
           reflexivity.
        -- left. split; [apply dict_get_set_same |]. exists depth.
           rewrite dict_get_set_other by discriminate. apply dict_get_set_same.
      * split; [| split].
        -- exists mode. apply dict_get_set_same.
        -- intros k H1 H2 H3. now rewrite dict_get_set_other by congruence.
        -- right. now rewrite !dict_get_set_other by discriminate.
  - destruct (retrieval_stage_cases q w)
      as [(Hreg' & _) | [(_ & Hret) | (e & Hret)]]; try congruence.
    assert (Hw : w' = w) by congruence. subst w'.
    do 10 (split; [reflexivity |]). split; [reflexivity |].
    split; [reflexivity | discriminate].
Qed.

(** ** Registration and the cache (C6) *)

(** When [create_plan] reports a hit. *)
Lemma create_plan_hit_char (w w' : World) (r : PlanGenerationResult) :
  create_plan w = (Ok r, w') ->
  cache_hit r = true
  <-> enable_plan_caching (_config (self w)) = true
      /\ exists e, dict_get (query_key (registry w) (uif w)) (cache w) = Some e
                   /\ entry_valid (self w) (clock w (S (ticks w))) e = true.
Proof.
  intros Hrun.
  destruct (create_plan_cases w) as (r' & w'' & Hrun' & Hcases).
  cbn zeta in Hcases. rewrite Hrun in Hrun'. injection Hrun' as <- <-.
  destruct Hcases as [(Hen & e & Hk & Hv & -> & _)
                     | [(w1 & r0 & w2 & Hlook & Hsel & Hr)
                       | (w1 & wr & ex & Hlook & _ & _ & _ & _ & _ & _ & _ & _
                          & -> & _)]].
  - split; [intros _ | reflexivity]. split; [exact Hen |]. now exists e.
  - cbn zeta in Hr. destruct Hr as [-> _].
    pose proof (select_strategy_not_hit _ _ _ Hsel) as Hnot.
    cbn [cache_hit with_generation_time]. rewrite Hnot.
    split; [discriminate |]. intros (Hen & e & Hk & Hv).
    pose proof (lookup_miss_inv _ _ e Hlook Hen Hk) as Hinv.
    change (entry_valid (self w) (clock w (S (ticks w))) e = false) in Hinv.
    congruence.
  - cbn [cache_hit]. split; [discriminate |]. intros (Hen & e & Hk & Hv).
    pose proof (lookup_miss_inv _ _ e Hlook Hen Hk) as Hinv.
    change (entry_valid (self w) (clock w (S (ticks w))) e = false) in Hinv.
    congruence.
Qed.

(** Registering again what is registered, name and version, leaves the
    fingerprint as it was. *)
Lemma context_same_version (reg : list (string * Skill)) (skill old : Skill) :
  dict_get (skill_name skill) reg = Some old ->
  skill_version old = skill_version skill ->
  context_string (dict_set (skill_name skill) skill reg) = context_string reg.
Proof.
  intros Hold Hver. unfold context_string.
  rewrite dict_keys_set_old by (unfold dict_mem; now rewrite Hold).
  f_equal. apply map_ext. intros n. do 2 f_equal. unfold version_of.
  destruct (String.eqb_spec n (skill_name skill)) as [-> | Hn].
  - rewrite dict_get_set_same, Hold. now symmetry.
  - rewrite dict_get_set_other by congruence. reflexivity.
Qed.

(** The cache key reads the names of the registry only. *)
Lemma query_key_registered (reg : list (string * Skill)) (skill : Skill)
  (u : SAM_UIF) :
  dict_mem (skill_name skill) reg = true ->
  query_key (dict_set (skill_name skill) skill reg) u = query_key reg u.
Proof. intros H. unfold query_key. now rewrite dict_keys_set_old. Qed.

(** C6, as the code has it.  [register_skill] leaves the cache as it is.
    It changes the registry fingerprint when the name is new or the
    version differs from the registered one, and leaves the fingerprint
    as it was when name and version are registered already; the cache
    key is unchanged whenever the name was registered.  A request that
    follows the registration is a cache hit exactly when caching is
    enabled and the cache binds the key computed from the new registry
    to an entry that carries the new fingerprint and whose age does not
    exceed the TTL.  An entry under that key with any other fingerprint,
    the previous one in particular, is evicted by the lookup and the
    call is not a hit.  After a registration that repeats a registered
    name and version a request is a hit exactly when it was one
    before. *)
Theorem C6_registration_invalidates (w : World) (skill : Skill) :
  let w1 := snd (register_skill skill w) in
  dict_wf (registry w) ->
  cache w1 = cache w
  /\ match dict_get (skill_name skill) (registry w) with
     | None => context_string (registry w1) <> context_string (registry w)
     | Some old =>
         (skill_version old <> skill_version skill ->
          context_string (registry w1) <> context_string (registry w))
         /\ (skill_version old = skill_version skill ->
             context_string (registry w1) = context_string (registry w))
         /\ forall u, query_key (registry w1) u = query_key (registry w) u
     end
  /\ forall w2,
       self w2 = self w1 ->
       let key := query_key (registry w1) (uif w2) in
       let ttl := plan_cache_ttl (_config (self w)) in
       exists r w3,
         create_plan w2 = (Ok r, w3)
         /\ (cache_hit r = true
             <-> enable_plan_caching (_config (self w)) = true
                 /\ exists e,
                      dict_get key (cache w) = Some e
                      /\ skill_context e = context_string (registry w1)
                      /\ (age_at (clock w2 (S (ticks w2))) e <= ttl)%Q)
         /\ (forall e,
                dict_get key (cache w) = Some e ->
                skill_context e <> context_string (registry w1) ->
                cache_hit r = false
                /\ exists w4,
                     _check_plan_cache (advance 1 w2) = (Ok None, w4)
                     /\ dict_get key (cache w4) = None)
         /\ (forall old r' w3',
                dict_get (skill_name skill) (registry w) = Some old ->
                skill_version old = skill_version skill ->
                create_plan (with_self w2 (self w)) = (Ok r', w3') ->
                cache_hit r' = cache_hit r).
Proof.
  intros w1 Hwf.
  assert (Hreg1 : registry w1
                  = dict_set (skill_name skill) skill (registry w)) by reflexivity.
  split; [reflexivity |]. split.
  { destruct (dict_get (skill_name skill) (registry w)) as [old|] eqn:Hold.
    - split; [| split].
      + intros Hver. rewrite Hreg1.
        now apply (context_changes_new_version _ _ old).
      + intros Hver. rewrite Hreg1. now apply (context_same_version _ _ old).
      + intros u. rewrite Hreg1. apply query_key_registered.
        unfold dict_mem. now rewrite Hold.
    - rewrite Hreg1. apply context_changes_new_name.
      unfold dict_mem. now rewrite Hold. }
  intros w2 Hself2 key ttl.
  assert (Hreg2 : registry w2 = registry w1) by (unfold registry; now rewrite Hself2).
  assert (Hc2 : cache w2 = cache w) by (unfold cache; now rewrite Hself2).
  assert (Hcfg2 : _config (self w2) = _config (self w)) by now rewrite Hself2.
  destruct (create_plan_cases w2) as (r & w3 & Hrun & _). exists r, w3.
  split; [exact Hrun |].
  pose proof (create_plan_hit_char _ _ _ Hrun) as Hchar.
  rewrite Hreg2, Hc2, Hcfg2 in Hchar. fold key in Hchar.
  assert (Hiff : cache_hit r = true
                 <-> enable_plan_caching (_config (self w)) = true
                     /\ exists e,
                          dict_get key (cache w) = Some e
                          /\ skill_context e = context_string (registry w1)
                          /\ (age_at (clock w2 (S (ticks w2))) e <= ttl)%Q).
  { rewrite Hchar. split; intros (Hen & e & Hk & Hv); (split; [exact Hen |]);
      exists e; (split; [exact Hk |]).
    - apply entry_valid_iff in Hv as [Hage Hctx]. rewrite Hcfg2 in Hage.
      split; [| exact Hage]. rewrite Hctx. unfold registry. now rewrite Hself2.
    - destruct Hv as [Hctx Hage]. apply entry_valid_iff. rewrite Hcfg2.
      split; [exact Hage |]. rewrite Hctx. unfold registry. now rewrite Hself2. }
  split; [exact Hiff |]. split.
  - intros e Hk Hne. split.
    + apply not_true_iff_false. rewrite Hiff.
      intros (_ & e' & Hk' & Hctx & _). congruence.
    + rewrite run_check_plan_cache. cbn zeta.
      change (registry (advance 1 w2)) with (registry w2).
      change (cache (advance 1 w2)) with (cache w2).
      change (uif (advance 1 w2)) with (uif w2).
      rewrite Hreg2, Hc2. fold key. rewrite Hk.
      assert (Hinv : entry_valid (self (advance 1 w2)) (time_now (advance 1 w2)) e
                     = false).
      { apply entry_invalid_iff. right. intros E. apply Hne. rewrite E.
        unfold registry. cbn [self advance]. now rewrite Hself2. }
      rewrite Hinv. eexists. split; [reflexivity |]. cbn.
      apply dict_get_del_same.
  - intros old r' w3' Hold Hver Hrun'.
    apply eq_true_iff_eq.
    rewrite (create_plan_hit_char _ _ _ Hrun'), Hiff.
    change (self (with_self w2 (self w))) with (self w).
    change (registry (with_self w2 (self w))) with (registry w).
    change (cache (with_self w2 (self w))) with (cache w).
    change (uif (with_self w2 (self w))) with (uif w2).
    change (clock (with_self w2 (self w))) with (clock w2).
    change (ticks (with_self w2 (self w))) with (ticks w2).
    assert (Hkey : query_key (registry w) (uif w2) = key).
    { unfold key. rewrite Hreg1. symmetry. apply query_key_registered.
      unfold dict_mem. now rewrite Hold. }
    assert (Hctx : context_string (registry w1) = context_string (registry w)).
    { rewrite Hreg1. now apply (context_same_version _ _ old). }
    rewrite Hkey, Hctx.
    split; intros (Hen & e & Hk & Hv); (split; [exact Hen |]);
      exists e; (split; [exact Hk |]).
    + apply entry_valid_iff in Hv as [Hage Hc]. now split.
    + destruct Hv as [Hc Hage]. apply entry_valid_iff. now split.
Qed.

(** ** A rule-based plan is cached and served again (C10) *)

Lemma dict_set_new (k : string) (v : PlanCacheEntry)
  (d : list (string * PlanCacheEntry)) :
  dict_get k d = None -> dict_set k v d = List.app d [(k, v)].
Proof.
  induction d as [|[k' v'] d IH]; cbn; [reflexivity |].
  destruct (String.eqb k k'); [discriminate |]. intros H. now rewrite IH.
Qed.

(** What the sweep leaves under the key of the item at position [i]. *)
Lemma sweep_get (p : DynamicPlanner) (clk : nat -> Z) (t : nat)
  (c : list (string * PlanCacheEntry)) (i : nat) (k : string)
  (e : PlanCacheEntry) :
  dict_wf c -> nth_error c i = Some (k, e) ->
  dict_get k (del_keys (expired_keys (sweep_flags p clk t c)) c)
  = if entry_valid p (clk (t + i)%nat) e then Some e else None.
Proof.
  intros Hwf Hn.
  assert (Hget : dict_get k c = Some e).
  { apply dict_wf_In_get; [exact Hwf |]. eapply nth_error_In, Hn. }
  pose proof (sweep_flags_nth p clk t _ _ _ _ Hn) as Hflag.
  apply nth_error_In in Hflag.
  destruct (entry_valid p (clk (t + i)%nat) e) eqn:Hv.
  - rewrite dict_get_del_keys; [exact Hget |].
    unfold expired_keys. intros Hin. apply in_map_iff in Hin as ([k' b] & Hk & Hf).
    cbn in Hk. subst k'. apply filter_In in Hf as [Hf Hb]. cbn in Hb.
    destruct b; [discriminate |].
    apply sweep_flags_nth_inv in Hf as (j & e' & Hj & Hb').
    pose proof (wf_nth_unique _ _ _ _ _ _ Hwf Hn Hj) as <-.
    rewrite Hn in Hj. injection Hj as <-. congruence.
  - apply dict_get_del_keys_in. unfold expired_keys.
    apply in_map_iff. exists (k, false). split; [reflexivity |].
    apply filter_In. now split.
Qed.

(** The entry stored by [_cache_plan] under a key that was free is the
    last item of the sweep that follows: it is kept exactly if its age
    at that clock reading does not exceed the TTL. *)
Lemma stored_entry_swept (r : PlanGenerationResult) (w : World) :
  let key := query_key (registry w) (uif w) in
  let e := {| ce_plan := plan r; ce_confidence := confidence r;
              created_at := time_now w; usage_count := 0;
              query_hash := key;
              skill_context := context_string (registry w) |} in
  let t_s := (S (ticks w) + List.length (cache w))%nat in
  dict_wf (cache w) -> dict_get key (cache w) = None ->
  dict_get key (cache (snd (_cache_plan r w)))
  = (if Qle_bool (age_at (clock w t_s) e) (plan_cache_ttl (_config (self w)))
     then Some e else None)
  /\ ticks (snd (_cache_plan r w)) = S t_s.
Proof.
  intros key e t_s Hwf Hfree. rewrite run_cache_plan. cbn zeta. fold key. fold e.
  rewrite (dict_set_new key e (cache w) Hfree).
  cbn [snd]. split.
  - change (cache (with_cache ?x ?c)) with c.
    rewrite (sweep_get _ _ _ _ (List.length (cache w)) key e).
    + unfold entry_valid, Qgtb. rewrite negb_involutive.
      cbn [skill_context e self with_cache with_self with_plan_cache advance
             _registered_skills _config].
      fold (registry w). rewrite String.eqb_refl, andb_true_r. reflexivity.
    + rewrite <- (dict_set_new key e (cache w) Hfree). now apply dict_wf_set.
    + rewrite nth_error_app2 by lia. now rewrite Nat.sub_diag.
  - cbn [ticks with_cache with_self advance]. rewrite List.length_app. cbn. lia.
Qed.

Lemma age_at_mono (t t' : Z) (e : PlanCacheEntry) :
  t <= t' -> (age_at t e <= age_at t' e)%Q.
Proof.
  intros H. unfold age_at, total_seconds, Qle. cbn [Qnum Qden]. lia.
Qed.

(** C10, as the code has it.  With caching enabled, a plan produced by
    the rule-based strategy (it is never empty and its confidence 0.6
    exceeds the 0.5 threshold) is stored under the request's key,
    stamped with a clock reading of the call, and the sweep that ends
    the storing step checks it at the last but one clock reading of the
    call: the entry is in the cache when the call returns exactly if
    its age at that reading does not exceed the TTL.  A later call with
    the same query, profile and planner state is a cache hit exactly if
    the entry was kept and its age at the lookup of that call does not
    exceed the TTL; a hit returns that plan with confidence 0.6 and
    [fallback_used = false].  So when the clock does not run backwards
    from the sweep to the later lookup, a lookup within the TTL of the
    entry's stamp is a hit. *)
Theorem C10_fallback_plan_cached (w w1 : World) (r : PlanGenerationResult) :
  let ttl := plan_cache_ttl (_config (self w)) in
  let key := query_key (registry w) (uif w) in
  enable_plan_caching (_config (self w)) = true ->
  dict_wf (cache w) ->
  create_plan w = (Ok r, w1) ->
  fallback_used r = true -> confidence r = PNum (6 # 10) ->
  exists e t_c t_s,
    (ticks w < t_c)%nat /\ (t_c < t_s)%nat /\ ticks w1 = (t_s + 2)%nat
    /\ created_at e = clock w t_c
    /\ ce_plan e = plan r /\ plan r <> [] /\ ce_confidence e = PNum (6 # 10)
    /\ usage_count e = 0 /\ skill_context e = context_string (registry w)
    /\ dict_get key (cache w1)
       = (if Qle_bool (age_at (clock w t_s) e) ttl then Some e else None)
    /\ forall w2,
         self w2 = self w1 ->
         input_query (uif w2) = input_query (uif w) ->
         active_profile (uif w2) = active_profile (uif w) ->
         exists r2 w3,
           create_plan w2 = (Ok r2, w3)
           /\ (cache_hit r2 = true
               <-> (age_at (clock w t_s) e <= ttl)%Q
                   /\ (age_at (clock w2 (S (ticks w2))) e <= ttl)%Q)
           /\ (cache_hit r2 = true ->
               plan r2 = plan r /\ confidence r2 = PNum (6 # 10)
               /\ fallback_used r2 = false)
           /\ (clock w t_s <= clock w2 (S (ticks w2)) ->
               (age_at (clock w2 (S (ticks w2))) e <= ttl)%Q ->
               plan r2 = plan r /\ cache_hit r2 = true
               /\ fallback_used r2 = false).
Proof.
  intros ttl key Hen Hwf Hrun Hfb Hconf.
  destruct (create_plan_cases w) as (r' & w'' & Hrun' & Hcases).
  cbn zeta in Hcases. rewrite Hrun in Hrun'. injection Hrun' as <- <-.
  destruct Hcases as [(_ & e & _ & _ & -> & _)
                     | [(wl & r0 & w2 & Hlook & Hsel & Hr)
                       | (wl & wr & ex & _ & _ & _ & _ & _ & _ & _ & _ & _
                          & -> & _)]];
    [discriminate | | discriminate].
  cbn zeta in Hr. destruct Hr as (-> & -> & _).
  cbn [plan confidence fallback_used with_generation_time] in Hfb, Hconf |- *.
  pose proof (lookup_miss_world _ _ Hlook) as ([cl Hsl] & Hclkl & Hul & Htl & Hwfl).
  pose proof (lookup_miss_key (advance 1 w) _ Hen Hlook) as Hfree.
  pose proof (select_strategy_spec _ _ _ Hsel)
    as [(Hself2 & Hclk2 & Ht2 & Hq2 & Hp2) Hkind].
  assert (Hrule : rule_based_result (registry wl) r0).
  { destruct Hkind as [H | [H | H]]; [exact H | |]; destruct H as (Hff & _);
      congruence. }
  destruct Hrule as (_ & _ & _ & Hne & _).
  change (self (advance 1 w)) with (self w) in *.
  change (registry (advance 1 w)) with (registry w) in *.
  change (uif (advance 1 w)) with (uif w) in *.
  cbn [ticks advance clock] in Htl, Hclkl. fold key in Hfree.
  rewrite Hen, Hconf.
  destruct (plan r0) as [|n pl] eqn:Hpl; [contradiction |].
  cbn [negb andb py_gt].
  change (Qgtb (6 # 10) (5 # 10)) with true. cbv iota.
  assert (Hreg2 : registry w2 = registry w)
    by (unfold registry; now rewrite Hself2, Hsl).
  assert (Hcfg2 : _config (self w2) = _config (self w)) by now rewrite Hself2, Hsl.
  assert (Hkey2 : query_key (registry w2) (uif w2) = key).
  { rewrite Hreg2. apply query_key_same; rewrite ?Hq2, ?Hp2, Hul; reflexivity. }
  assert (Hc2 : cache w2 = cache wl) by (unfold cache; now rewrite Hself2).
  destruct (stored_entry_swept r0 w2) as [Hget Hticks].
  { rewrite Hc2. apply Hwfl, Hwf. }
  { rewrite Hkey2, Hc2. exact Hfree. }
  destruct (cache_plan_world r0 w2) as (_ & [c3 Hs3] & _).
  cbn zeta in Hget, Hticks, Hs3. rewrite Hkey2, Hreg2, Hcfg2, Hclk2, Hclkl in Hget.
  fold ttl in Hget.
  set (wc := snd (_cache_plan r0 w2)) in *. clearbody wc.
  set (e := {| ce_plan := plan r0; ce_confidence := confidence r0;
               created_at := time_now w2; usage_count := 0;
               query_hash := key;
               skill_context := context_string (registry w) |}) in *.
  set (t_s := (S (ticks w2) + List.length (cache w2))%nat) in *.
  exists e, (ticks w2), t_s.
  split; [lia |]. split; [unfold t_s; lia |].
  split; [cbn [ticks advance]; rewrite Hticks; lia |].
  split; [unfold e, time_now; cbn [created_at]; now rewrite Hclk2, Hclkl |].
  split; [unfold e; cbn [ce_plan]; now rewrite Hpl |].
  split; [discriminate |]. split; [exact Hconf |].
  split; [reflexivity |]. split; [reflexivity |].
  change (cache (advance 1 wc)) with (cache wc).
  split; [exact Hget |].
  intros w3 Hself3 Hq3 Hp3.
  change (self (advance 1 wc)) with (self wc) in Hself3.
  assert (Hself3' : self w3 = with_plan_cache (self w) c3)
    by now rewrite Hself3, Hs3, Hself2, Hsl.
  assert (Hreg3 : registry w3 = registry w)
    by (unfold registry; now rewrite Hself3').
  assert (Hcfg3 : _config (self w3) = _config (self w)) by now rewrite Hself3'.
  assert (Hkey3 : query_key (registry w3) (uif w3) = key).
  { rewrite Hreg3. now apply query_key_same. }
  assert (Hc3 : cache w3 = cache wc) by (unfold cache; now rewrite Hself3).
  destruct (create_plan_cases w3) as (r2 & w4 & Hrun2 & _). exists r2, w4.
  split; [exact Hrun2 |].
  pose proof (create_plan_hit_char _ _ _ Hrun2) as Hchar.
  rewrite Hkey3, Hc3, Hcfg3, Hget in Hchar.
  assert (Hvalid : forall t, entry_valid (self w3) t e = true
                             <-> (age_at t e <= ttl)%Q).
  { intros t. rewrite entry_valid_iff, Hcfg3. fold (registry w3). rewrite Hreg3.
    split; [now intros [H _] | intros H; now split]. }
  assert (Hiff : cache_hit r2 = true
                 <-> (age_at (clock w t_s) e <= ttl)%Q
                     /\ (age_at (clock w3 (S (ticks w3))) e <= ttl)%Q).
  { rewrite Hchar. split.
    - intros (_ & e' & Hk & Hv).
      destruct (Qle_bool (age_at (clock w t_s) e) ttl) eqn:Hle; [| discriminate].
      injection Hk as <-. apply Qle_bool_iff in Hle. apply Hvalid in Hv.
      now split.
    - intros [Hs Hl]. split; [exact Hen |]. exists e.
      apply Qle_bool_iff in Hs. rewrite Hs. split; [reflexivity |].
      now apply Hvalid. }
  assert (Hhit : cache_hit r2 = true ->
                 plan r2 = n :: pl /\ confidence r2 = PNum (6 # 10)
                 /\ fallback_used r2 = false).
  { intros Hh. apply Hiff in Hh as [Hs Hl].
    assert (Hk : dict_get (query_key (registry w3) (uif w3)) (cache w3) = Some e).
    { rewrite Hkey3, Hc3, Hget. apply Qle_bool_iff in Hs. now rewrite Hs. }
    assert (Hen3 : enable_plan_caching (_config (self w3)) = true)
      by now rewrite Hcfg3.
    apply (Hvalid (clock w3 (S (ticks w3)))) in Hl.
    pose proof (create_plan_hit w3 e Hen3 Hk Hl) as Hrun3. cbn zeta in Hrun3.
    rewrite Hrun2 in Hrun3. injection Hrun3 as -> _.
    cbn [plan confidence fallback_used]. unfold e. cbn [ce_plan ce_confidence].
    now rewrite Hpl, Hconf. }
  split; [exact Hiff |]. split; [exact Hhit |].
  intros Hmono Hl.
  assert (Hh : cache_hit r2 = true).
  { apply Hiff. split; [| exact Hl].
    eapply Qle_trans; [apply age_at_mono, Hmono | exact Hl]. }
  destruct (Hhit Hh) as (Hp & _ & Hf). now repeat split.
Qed.

End Coverage.

(** * Concrete runs of C6 and C10 *)

(** C6 at two registrations over a cache that holds an entry stamped with
    the fingerprint of version 1.0.  Registering version 1.1 changes the
    fingerprint and the entry is bypassed; registering 1.0 again after
    that changes the fingerprint back, and the entry is a hit. *)
Lemma C6_witness :
  (let w := edge_world 1000 in
   let w1 := snd (register_skill (sample_skill "MemoryRetrievalSkill" "1.1") w) in
   context_string (registry w1) <> context_string (registry w)
   /\ exists r w',
        @create_plan sample_runtime w1 = (Ok r, w') /\ cache_hit r = false)
  /\ (let w := snd (register_skill (sample_skill "MemoryRetrievalSkill" "1.1")
                                   (edge_world 1000)) in
      let w1 := snd (register_skill (sample_skill "MemoryRetrievalSkill" "1.0") w) in
      context_string (registry w1) <> context_string (registry w)
      /\ exists r w',
           @create_plan sample_runtime w1 = (Ok r, w') /\ cache_hit r = true).
Proof.
  split.
  - intros w w1.
    destruct (@C6_registration_invalidates sample_runtime w
                (sample_skill "MemoryRetrievalSkill" "1.1"))
      as (_ & Hctx & Hreq).
    { unfold dict_wf. vm_compute. repeat constructor; cbn; intuition discriminate. }
    change (dict_get (skill_name (sample_skill "MemoryRetrievalSkill" "1.1"))
                     (registry w))
      with (Some (sample_skill "MemoryRetrievalSkill" "1.0")) in Hctx.
    cbv iota in Hctx. destruct Hctx as (Hchanged & _).
    split; [apply Hchanged; discriminate |].
    destruct (Hreq w1 eq_refl) as (r & w3 & Hrun & _ & Hevict & _).
    exists r, w3. split; [exact Hrun |].
    apply (Hevict edge_entry); [vm_compute; reflexivity |].
    vm_compute. intros H. discriminate H.
  - intros w w1.
    destruct (@C6_registration_invalidates sample_runtime w
                (sample_skill "MemoryRetrievalSkill" "1.0"))
      as (_ & Hctx & Hreq).
    { unfold dict_wf. vm_compute. repeat constructor; cbn; intuition discriminate. }
    change (dict_get (skill_name (sample_skill "MemoryRetrievalSkill" "1.0"))
                     (registry w))
      with (Some (sample_skill "MemoryRetrievalSkill" "1.1")) in Hctx.
    cbv iota in Hctx. destruct Hctx as (Hchanged & _).
    split; [apply Hchanged; discriminate |].
    destruct (Hreq w1 eq_refl) as (r & w3 & Hrun & Hiff & _).
    exists r, w3. split; [exact Hrun |].
    apply Hiff. split; [reflexivity |]. exists edge_entry.
    split; [vm_compute; reflexivity |]. split; [vm_compute; reflexivity |].
    vm_compute. intros H. discriminate H.
Defined.

(** C10 as stated fails: with a TTL of 0 seconds and a clock that
    advances, the rule-based plan of scenario A is stored and removed
    again by the sweep that ends the same call, one second after the
    stamp.  When the call returns the cache is empty, and the same
    request is answered by the rule-based strategy again, whatever the
    clock reads then. *)
Lemma C10_ttl_zero_entry_swept :
  exists r w1,
    @create_plan sample_runtime world_ttl_zero = (Ok r, w1)
    /\ plan r = ["MemoryRetrievalSkill"; "ConflictDetectorSkill";
                 "ResponseGenerationSkill"]
    /\ confidence r = PNum (6 # 10) /\ fallback_used r = true
    /\ cache w1 = []
    /\ forall (clk : nat -> Z) (t : nat),
         exists r2 w3,
           @create_plan sample_runtime
             {| self := self w1; uif := uif world_ttl_zero; clock := clk;
                ticks := t |}
           = (Ok r2, w3)
           /\ cache_hit r2 = false /\ fallback_used r2 = true.
Proof.
  do 2 eexists. split; [vm_compute; reflexivity |].
  do 4 (split; [reflexivity |]).
  intros clk t.
  match goal with
  | |- exists r2 w3, create_plan ?w = _ /\ _ =>
      destruct (@create_plan_cases sample_runtime w) as (r2 & w3 & Hrun2 & Hcases)
  end.
  exists r2, w3. split; [exact Hrun2 |]. clear Hrun2. cbn zeta in Hcases.
  destruct Hcases as [(_ & e & Hk & _)
                     | [(wl & r0 & wg & Hlook & Hsel & Hr)
                       | (wl & wr & ex & _ & _ & _ & _ & _ & _ & _ & _ & _
                          & -> & _)]].
  - vm_compute in Hk. discriminate Hk.
  - vm_compute in Hlook. injection Hlook as <-.
    vm_compute in Hsel. injection Hsel as <- _.
    destruct Hr as [-> _]. split; reflexivity.
  - split; reflexivity.
Qed.

(** C10 at scenario A with caching on and the TTL of an hour: the
    rule-based plan of the first call is the cache hit of the second. *)
Lemma C10_witness :
  exists r w1 r2 w3,
    @create_plan sample_runtime (world_rules true "compare X and Y") = (Ok r, w1)
    /\ fallback_used r = true
    /\ @create_plan sample_runtime w1 = (Ok r2, w3)
    /\ plan r2 = plan r /\ cache_hit r2 = true /\ fallback_used r2 = false.
Proof.
  destruct (@create_plan sample_runtime (world_rules true "compare X and Y"))
    as [[r | ex] w1] eqn:Hrun; [| vm_compute in Hrun; discriminate].
  pose proof Hrun as Hval. vm_compute in Hval. injection Hval as Hr Hw1.
  destruct (@C10_fallback_plan_cached sample_runtime
              (world_rules true "compare X and Y") w1 r)
    as (e & t_c & t_s & Htc & Hts & Hticks & Hcreated & _ & _ & _ & _ & _ & _
        & Hagain).
  - reflexivity.
  - unfold dict_wf. vm_compute. constructor.
  - exact Hrun.
  - rewrite <- Hr. reflexivity.
  - rewrite <- Hr. reflexivity.
  - assert (Hs : t_s = 2%nat).
    { clear - Hticks Hw1. rewrite <- Hw1 in Hticks. cbn [ticks] in Hticks. lia. }
    assert (Hc : t_c = 1%nat).
    { clear - Htc Hts Hs. cbn [ticks world_rules sample_world] in Htc. lia. }
    subst t_s t_c.
    destruct (Hagain w1) as (r2 & w3 & Hrun2 & _ & _ & Hhit);
      [reflexivity | rewrite <- Hw1; reflexivity | rewrite <- Hw1; reflexivity |].
    destruct Hhit as (Hplan & Hh & Hf).
    + rewrite <- Hw1. vm_compute. intros H. discriminate H.
    + unfold age_at. rewrite Hcreated, <- Hw1. vm_compute. intros H. discriminate H.
    + exists r, w1, r2, w3. split; [reflexivity |].
      split; [rewrite <- Hr; reflexivity |]. repeat split; assumption.
Defined.

(** * Concrete runs of the further properties *)

(** X4 at a concrete run.  A cached entry of age 0 is a hit: three clock readings, the request
    untouched. *)
Lemma cache_hit_iff_witness :
  exists r w',
    @create_plan sample_runtime (edge_world 0) = (Ok r, w')
    /\ cache_hit r = true /\ ticks w' = 3%nat /\ uif w' = edge_request.
Proof.
  destruct (@create_plan sample_runtime (edge_world 0)) as [[r | ex] w'] eqn:Hrun;
    [| vm_compute in Hrun; discriminate].
  pose proof Hrun as Hval. vm_compute in Hval. injection Hval as Hr Hw.
  assert (Hhit : cache_hit r = true) by (rewrite <- Hr; reflexivity).
  destruct (@cache_hit_iff sample_runtime (edge_world 0) w' r Hrun) as [_ Hsound].
  destruct (Hsound Hhit) as (Hu & _ & Ht & _).
  exists r, w'. split; [reflexivity |]. split; [exact Hhit |].
  split; [exact Ht | exact Hu].
Defined.

(** X5 at a concrete run.  The same hit in the statistics: one entry before and after, usage 0
    before and 1 after. *)
Lemma cache_hit_counts_usage_witness :
  exists r w' s s',
    @create_plan sample_runtime (edge_world 0) = (Ok r, w')
    /\ get_cache_stats (edge_world 0) = (Ok s, edge_world 0)
    /\ get_cache_stats w' = (Ok s', w')
    /\ total_entries s' = total_entries s
    /\ total_usage s = 0 /\ total_usage s' = 1.
Proof.
  destruct (@create_plan sample_runtime (edge_world 0)) as [[r | ex] w'] eqn:Hrun;
    [| vm_compute in Hrun; discriminate].
  pose proof Hrun as Hval. vm_compute in Hval. injection Hval as Hr Hw.
  assert (Hhit : cache_hit r = true) by (rewrite <- Hr; reflexivity).
  destruct (run_get_cache_stats (edge_world 0)) as (s & Hs & _ & Hus & _).
  destruct (run_get_cache_stats w') as (s' & Hs' & _).
  destruct (@cache_hit_counts_usage sample_runtime (edge_world 0) w' r s s'
              Hrun Hhit Hs Hs') as (Hen & Hu & _).
  exists r, w', s, s'. split; [reflexivity |]. split; [exact Hs |].
  split; [exact Hs' |]. split; [exact Hen |].
  assert (H0 : total_usage s = 0) by (rewrite Hus; reflexivity).
  split; [exact H0 |]. rewrite Hu, H0. reflexivity.
Defined.

(** X6 at a concrete run.  With caching on, a request whose search context is no dict ends in
    the error fallback at 0.3, which is not cached; a model that reports a confidence of
    401 digits has its plan stored, and the call then ends in the error fallback at 0.3
    with the entry in the cache. *)
Lemma low_confidence_not_cached_witness :
  (let w := sample_world (sample_planner true core_registry None None)
              (sample_request "hello" [("search_context", PStr "oops")]) in
   exists r w',
     @create_plan sample_runtime w = (Ok r, w')
     /\ confidence r = PNum (3 # 10)
     /\ dict_get (@query_key sample_runtime (registry w) (uif w)) (cache w') = None)
  /\ (let w := world_confidence_huge in
      exists r w' e,
        @create_plan sample_runtime w = (Ok r, w')
        /\ confidence r = PNum (3 # 10)
        /\ reasoning r
           = PStr "Error during generation: int too large to convert to float"
        /\ dict_get (@query_key sample_runtime (registry w) (uif w)) (cache w')
           = Some e
        /\ ce_plan e = ["ResponseGenerationSkill"]
        /\ ce_confidence e = PInt ((10 ^ 401 - 1) / 9)).
Proof.
  split.
  - intros w.
    destruct (@create_plan sample_runtime w) as [[r | ex] w'] eqn:Hrun;
      [| vm_compute in Hrun; discriminate].
    pose proof Hrun as Hval. vm_compute in Hval. injection Hval as Hr Hw.
    assert (Hconf : confidence r = PNum (3 # 10)) by (rewrite <- Hr; reflexivity).
    exists r, w'. split; [reflexivity |]. split; [exact Hconf |].
    destruct (@low_confidence_not_cached sample_runtime w w' r)
      as [Hnone | (w1 & r0 & w2 & n & _ & _ & _ & _ & _ & _ & _ & Hreason & _)].
    + reflexivity.
    + exact Hrun.
    + rewrite <- Hr. reflexivity.
    + right. left. exists (3 # 10)%Q. split; [exact Hconf |].
      unfold Qle. cbn. lia.
    + exact Hnone.
    + clear - Hr Hreason. rewrite <- Hr in Hreason. discriminate Hreason.
  - intros w.
    destruct (@create_plan sample_runtime w) as [[r | ex] w'] eqn:Hrun;
      [| vm_compute in Hrun; discriminate].
    pose proof Hrun as Hval. vm_compute in Hval. injection Hval as Hr Hw.
    assert (Hconf : confidence r = PNum (3 # 10)) by (rewrite <- Hr; reflexivity).
    destruct (@low_confidence_not_cached sample_runtime w w' r)
      as [Hnone | (w1 & r0 & w2 & n & _ & _ & _ & _ & _ & _ & _ & Hreason & _)].
    + reflexivity.
    + exact Hrun.
    + rewrite <- Hr. reflexivity.
    + right. left. exists (3 # 10)%Q. split; [exact Hconf |].
      unfold Qle. cbn. lia.
    + exfalso. clear - Hw Hnone. rewrite <- Hw in Hnone. vm_compute in Hnone.
      discriminate Hnone.
    + eexists r, w', _. split; [reflexivity |]. split; [exact Hconf |].
      split; [exact Hreason |]. rewrite <- Hw.
      split; [vm_compute; reflexivity |]. split; vm_compute; reflexivity.
Defined.

(** X7 at a concrete run.  Scenario A with caching off: the planner object is untouched.
    With caching off and a model that reports a confidence of 401 digits, the log line
    raises and the call returns the error fallback at 0.3. *)
Lemma create_plan_without_caching_witness :
  (exists r w',
     @create_plan sample_runtime (world_rules false "hello") = (Ok r, w')
     /\ self w' = self (world_rules false "hello") /\ cache_hit r = false)
  /\ (let w := sample_world (sample_planner false core_registry
                               (Some (chatty_llm doc_confidence_huge)) None)
                            (sample_request "hello" []) in
      exists r w',
        @create_plan sample_runtime w = (Ok r, w')
        /\ self w' = self w
        /\ plan r = ["MemoryRetrievalSkill"; "ResponseGenerationSkill"]
        /\ confidence r = PNum (3 # 10)
        /\ reasoning r
           = PStr "Error during generation: int too large to convert to float"
        /\ fallback_used r = true).
Proof.
  split.
  - destruct (@create_plan_without_caching sample_runtime (world_rules false "hello"))
      as (r & w' & Hrun & Hself & Hhit & _); [reflexivity |].
    exists r, w'. now repeat split.
  - intros w.
    destruct (@create_plan_without_caching sample_runtime w)
      as (r & w' & Hrun & Hself & _ & _ & Hraise); [reflexivity |].
    exists r, w'. split; [exact Hrun |]. split; [exact Hself |].
    destruct (@select_strategy sample_runtime (advance 1 w)) as [[r0 | ex] w2] eqn:Hsel;
      [| vm_compute in Hsel; discriminate].
    pose proof Hsel as Hval. vm_compute in Hval. injection Hval as Hr0 _.
    destruct (Hraise r0 w2
                (Exn OtherException "int too large to convert to float") eq_refl)
      as (Hp & Hc & Hre & Hf & _).
    + rewrite <- Hr0. vm_compute. reflexivity.
    + split; [exact Hp |]. split; [exact Hc |]. split; [exact Hre | exact Hf].
Defined.

(** X9 at a concrete run.  Sweeping a cache whose one entry is an hour and a second old
    removes it. *)
Lemma cleanup_cache_spec_witness :
  exists w',
    _cleanup_cache (edge_world 3601000000) = (Ok tt, w')
    /\ dict_get (@query_key sample_runtime core_registry edge_request) (cache w')
       = None
    /\ ticks w' = 1%nat.
Proof.
  destruct (cleanup_cache_spec (edge_world 3601000000))
    as (w' & Hrun & _ & _ & _ & Ht & _ & Hnth & _).
  - unfold dict_wf. cbn. constructor; [intros [] | constructor].
  - exists w'. split; [exact Hrun |]. split; [| exact Ht].
    apply (Hnth 0%nat _ edge_entry). reflexivity.
Defined.

(** X10 at a concrete run.  A planner constructed, given one skill and asked once. *)
Lemma reachable_invariant_witness :
  planner_inv
    (snd (@create_plan sample_runtime
            (snd (register_skill (sample_skill "ResponseGenerationSkill" "1.0")
                    (snd (__init__ (sample_config true) false ghost_curriculum
                                   (Ok None) (Ok true)
                                   (world_rules true "hello"))))))).
Proof.
  refine (proj1 (@reachable_invariant sample_runtime _ _)).
  apply reach_create_plan, reach_register_skill, reach_init.
Defined.

(** X11 at a concrete run.  Scenario A: a comparison query over the three sample skills. *)
Lemma rule_based_plan_shape_witness :
  exists r w',
    _generate_fallback_plan (world_rules false "compare X and Y") = (Ok r, w')
    /\ In "ConflictDetectorSkill" (plan r)
    /\ ~ In "ImplicitKnowledgeSkill" (plan r).
Proof.
  destruct (_generate_fallback_plan (world_rules false "compare X and Y"))
    as [[r | ex] w'] eqn:Hrun; [| vm_compute in Hrun; discriminate].
  destruct (rule_based_plan_shape _ _ _ Hrun) as (_ & _ & _ & Hcd & Hik & _).
  exists r, w'. split; [reflexivity |]. split.
  - apply Hcd. split; reflexivity.
  - intros H. apply Hik in H as [H _]. vm_compute in H. discriminate.
Defined.

(** X13 at a concrete run.  A model that plans with an unknown skill: the rule-based plan is
    what the model strategy returns. *)
Lemma model_plan_degrades_witness :
  @_generate_llm_plan sample_runtime world_unknown_skill
  = _generate_fallback_plan world_unknown_skill.
Proof.
  apply (@model_plan_degrades sample_runtime world_unknown_skill).
  intros prompt generate response v l _ Hllm Hgen _ Hjson (d & -> & Hd) Hreg _.
  injection Hllm as <-. injection Hgen as <-.
  vm_compute in Hjson. injection Hjson as <-.
  vm_compute in Hd. injection Hd as <-.
  destruct (Hreg (PStr "UnknownSkill") (or_introl eq_refl)) as (s & Hs & Hmem).
  injection Hs as <-. vm_compute in Hmem. discriminate.
Defined.

(** X14 at a concrete run.  A model that answers with confidence 5: its plan is returned with
    confidence 5. *)
Lemma model_plan_accepted_witness :
  exists r,
    @_generate_llm_plan sample_runtime world_confidence_five
    = (Ok r, world_confidence_five)
    /\ plan r = ["ResponseGenerationSkill"] /\ confidence r = PInt 5.
Proof.
  destruct (@run_create_planning_prompt sample_runtime world_confidence_five)
    as [prompt Hprompt].
  destruct (@model_plan_accepted sample_runtime world_confidence_five prompt
              ("Here is the plan: " ++ doc_confidence_five ++ " Hope this helps.")
              (chatty_llm doc_confidence_five)
              [("plan", PList [PStr "ResponseGenerationSkill"]);
               ("confidence", PInt 5)]
              [PStr "ResponseGenerationSkill"])
    as (r & Hrun & Hplan & Hconf & _).
  - exact Hprompt.
  - reflexivity.
  - reflexivity.
  - vm_compute. reflexivity.
  - vm_compute. reflexivity.
  - reflexivity.
  - discriminate.
  - intros x [<- | []]. eexists. split; reflexivity.
  - vm_compute. discriminate.
  - vm_compute in Hconf.
    assert (Hp : plan r = ["ResponseGenerationSkill"]).
    { clear - Hplan. destruct (plan r) as [|n [|m pl]]; cbn in Hplan;
        [discriminate Hplan | now injection Hplan as -> | discriminate Hplan]. }
    exists r. split; [exact Hrun |]. split; [exact Hp | exact Hconf].
Defined.

(** X15 at a concrete run.  A curriculum that names an unregistered skill: its plan is passed
    on. *)
Lemma curriculum_strategy_witness :
  exists r w',
    @_generate_curriculum_plan sample_runtime world_ghost_curriculum = (Ok r, w')
    /\ plan r = ["GhostSkill"]
    /\ uif_estimated_effort (uif w') = Some 1.
Proof.
  pose proof (@curriculum_strategy sample_runtime world_ghost_curriculum
                ghost_curriculum eq_refl) as H.
  cbv beta delta [ghost_curriculum] iota in H.
  destruct H as (r & w' & Hrun & Hplan & H).
  exists r, w'. split; [exact Hrun |]. split; [exact Hplan |]. apply H.
Defined.

(** X19 at a concrete run.  Two skills registered in either order. *)
Lemma fingerprint_order_independent_witness :
  context_string [("B", sample_skill "B" "2.0"); ("A", sample_skill "A" "1.0")]
  = context_string [("A", sample_skill "A" "1.0"); ("B", sample_skill "B" "2.0")].
Proof.
  apply (@fingerprint_order_independent sample_runtime
           [("A", sample_skill "A" "1.0"); ("B", sample_skill "B" "2.0")]
           [("B", sample_skill "B" "2.0"); ("A", sample_skill "A" "1.0")]).
  - unfold dict_wf. cbn. repeat constructor; cbn; intuition discriminate.
  - unfold dict_wf. cbn. repeat constructor; cbn; intuition discriminate.
  - intros n. cbn [dict_get].
    destruct (String.eqb_spec n "A") as [-> |]; [reflexivity |].
    destruct (String.eqb n "B"); reflexivity.
Defined.


(** X21 at a concrete run.  Scenario A: only the search context is written. *)
Lemma rule_based_plan_writes_witness :
  let w := world_rules false "compare X and Y" in
  exists r w',
    _generate_fallback_plan w = (Ok r, w')
    /\ self w' = self w /\ user_context (uif w') = user_context (uif w)
    /\ exists sc', dict_get "search_context" (intermediate_data (uif w'))
                   = Some (PDict sc').
Proof.
  intros w.
  destruct (_generate_fallback_plan w) as [[r | ex] w'] eqn:Hrun;
    [| vm_compute in Hrun; discriminate].
  destruct (rule_based_plan_writes _ _ _ Hrun)
    as (Hs & _ & _ & _ & _ & Hu & _ & _ & _ & _ & _ & _ & Hsc).
  destruct (Hsc eq_refl) as (sc & sc' & _ & Hnew & _).
  exists r, w'. split; [reflexivity |]. split; [exact Hs |].
  split; [exact Hu |]. now exists sc'.
Defined.
